(** * pyfar.signal: audio containers and their arithmetic

    A shallow embedding of [pyfar/signal.py]: the [Signal] class with its
    lazy time/frequency conversion, channel indexing, reshaping,
    iteration, and the arithmetic functions [add], [subtract],
    [multiply], [divide], [power].

    Python objects are mutable and numpy arrays are views on shared
    buffers, so the embedding is a state-and-exception monad over a
    [world] that holds
    - the numpy buffers (a heap of flat element lists; an [ndarray] is a
      view: a buffer identity plus the offsets it exposes),
    - the [Signal] objects (a heap of records, addressed by reference),
    - a log of the calls into [pyfar.fft] and of the warnings emitted.

    Floating-point arithmetic is not modelled: the element type, the
    casts and the elementwise operations are the fields of [Kernel]; the
    transforms of [pyfar.fft] are the fields of [TransformService].
    Sampling rates are positive rationals. *)

From Stdlib Require Import ZArith QArith Lia Lqa String List Bool.
From stdpp Require Import base list strings pretty.

Local Open Scope string_scope.
Local Open Scope Z_scope.

(** ** Exceptions and outcomes *)

Inductive exn : Type :=
| ValueError (msg : string)
| TypeError (msg : string)
| KeyError (msg : string)
| IndexError (msg : string)
| RuntimeError (msg : string)
| AttributeError (msg : string)
| StopIteration
| DanglingReference.

Inductive outcome (A : Type) : Type :=
| Raise (e : exn)
| Return (a : A).
Arguments Raise {A} e.
Arguments Return {A} a.

(** ** numpy element kinds *)

Inductive dtype : Type :=
| bool_
| int8 | int16 | int32 | int64
| uint8 | uint16 | uint32 | uint64
| float16 | float32 | float64 | float128
| complex64 | complex128 | complex256
| str_ | object_.

Definition dtype_eqb (a b : dtype) : bool :=
  match a, b with
  | bool_, bool_ | int8, int8 | int16, int16 | int32, int32 | int64, int64
  | uint8, uint8 | uint16, uint16 | uint32, uint32 | uint64, uint64
  | float16, float16 | float32, float32 | float64, float64
  | float128, float128
  | complex64, complex64 | complex128, complex128 | complex256, complex256
  | str_, str_ | object_, object_ => true
  | _, _ => false
  end.

(** [np.dtype(name)] for the names that denote a dtype; comparing a dtype
    with any other string is [False]. *)
Definition dtype_of_name (name : string) : option dtype :=
  if String.eqb name "bool" then Some bool_
  else if String.eqb name "int8" then Some int8
  else if String.eqb name "int16" then Some int16
  else if String.eqb name "int32" then Some int32
  else if String.eqb name "int64" then Some int64
  else if String.eqb name "uint8" then Some uint8
  else if String.eqb name "uint16" then Some uint16
  else if String.eqb name "uint32" then Some uint32
  else if String.eqb name "uint64" then Some uint64
  else if String.eqb name "float16" then Some float16
  else if String.eqb name "float32" then Some float32
  else if String.eqb name "float64" then Some float64
  else if String.eqb name "float128" then Some float128
  else if String.eqb name "complex64" then Some complex64
  else if String.eqb name "complex128" then Some complex128
  else if String.eqb name "complex256" then Some complex256
  else if String.eqb name "object" then Some object_
  else None.

(** [dt == name], a dtype compared with a string. *)
Definition dtype_eq_name (dt : dtype) (name : string) : bool :=
  match dtype_of_name name with
  | Some d => dtype_eqb dt d
  | None => false
  end.

(** [dt in names] *)
Definition dtype_in (dt : dtype) (names : list string) : bool :=
  existsb (dtype_eq_name dt) names.

(** [x in names] for strings *)
Definition str_in (x : string) (names : list string) : bool :=
  existsb (String.eqb x) names.

(** [', '.join(names)] *)
Fixpoint join (sep : string) (names : list string) : string :=
  match names with
  | [] => ""
  | [x] => x
  | x :: rest => x ++ sep ++ join sep rest
  end.

(** ** Sampling rates: positive rationals, compared by value *)

Record rate : Type := { rate_num : positive; rate_den : positive }.

Definition rate_eqb (a b : rate) : bool :=
  (rate_num a * rate_den b =? rate_num b * rate_den a)%positive.

Definition rate_to_Q (r : rate) : Q := Qmake (Zpos (rate_num r)) (rate_den r).

Definition Hz (n : positive) : rate := {| rate_num := n; rate_den := 1 |}.

(** ** The five elementwise operations *)

Inductive operation : Type := _add | _subtract | _multiply | _divide | _power.

(** ** The numeric kernel (numpy's element arithmetic), left abstract *)

Class Kernel : Type := {
  elt : Type;
  (** [astype]: convert one element from a dtype to another *)
  np_cast : dtype -> dtype -> elt -> elt;
  (** [np.nan] *)
  np_nan : elt;
  (** the elementwise operation on two operands already broadcast to a
      common shape: dtype and contents of the result, or numpy's
      exception *)
  np_binop : operation -> dtype -> list elt -> dtype -> list elt ->
             outcome (dtype * list elt)
}.

(** ** Array values and array views *)

(** An array by value, as handed to and returned by [pyfar.fft]. *)
Record arrval `{Kernel} : Type :=
  { av_dtype : dtype; av_shape : list nat; av_flat : list elt }.

(** An [ndarray] object: a view on buffer [base] exposing the buffer
    positions [offs] in row-major order of [shape]. Two arrays with the
    same [base] share memory. *)
Record ndarray : Type :=
  { base : nat; offs : list nat; shape : list nat; dtype_of : dtype }.

Definition with_shape (a : ndarray) (sh : list nat) : ndarray :=
  {| base := base a; offs := offs a; shape := sh; dtype_of := dtype_of a |}.

Definition prod_shape (sh : list nat) : nat := fold_right Nat.mul 1%nat sh.

(** [shape[-1]] and [shape[:-1]] *)
Definition shape_last (sh : list nat) : nat := List.last sh 0%nat.
Definition shape_init (sh : list nat) : list nat := removelast sh.

(** [np.atleast_2d]: a view with at least two axes *)
Definition np_atleast_2d (a : ndarray) : ndarray :=
  match shape a with
  | [] => with_shape a [1%nat; 1%nat]
  | [n] => with_shape a [1%nat; n]
  | _ => a
  end.

(** ** The transform service [pyfar.fft], left abstract *)

Class TransformService `{Kernel} : Type := {
  (** [fft.rfft(data, n_samples, sampling_rate, fft_norm)] *)
  fft_rfft : arrval -> Z -> rate -> string -> arrval;
  (** [fft.irfft(data, n_samples, sampling_rate, fft_norm)] *)
  fft_irfft : arrval -> Z -> rate -> string -> arrval;
  (** [fft.normalization(data, n_samples, sampling_rate, fft_norm,
      inverse)] *)
  fft_normalization : arrval -> Z -> rate -> string -> bool -> arrval
}.

(** Modelled from the spec: [fft._n_bins] is not part of the sources at
    hand; the number of frequency bins of a one-sided spectrum is
    floor(sample_count/2) + 1. *)
Definition fft__n_bins (n_samples : Z) : Z := n_samples / 2 + 1.

(** Modelled from the spec: [fft.rfftfreq] is not part of the sources at
    hand; the canonical real-FFT bin frequencies for a sample count and a
    sampling rate are k * sampling_rate / sample_count, one per bin. *)
Definition fft_rfftfreq (n_samples : Z) (sampling_rate : rate) : list Q :=
  map (fun k : nat =>
         (inject_Z (Z.of_nat k) * rate_to_Q sampling_rate /
          inject_Z n_samples)%Q)
      (seq 0 (Z.to_nat (fft__n_bins n_samples))).

(** ** Signal objects *)

Record SignalObj : Type := {
  _data : ndarray;
  _domain : string;
  _dtype : dtype;
  _comment : string;
  _sampling_rate : rate;
  _n_samples : Z;
  _fft_norm : string
}.

Definition set__data (s : SignalObj) (d : ndarray) : SignalObj :=
  {| _data := d; _domain := _domain s; _dtype := _dtype s;
     _comment := _comment s; _sampling_rate := _sampling_rate s;
     _n_samples := _n_samples s; _fft_norm := _fft_norm s |}.

Definition set__domain (s : SignalObj) (d : string) : SignalObj :=
  {| _data := _data s; _domain := d; _dtype := _dtype s;
     _comment := _comment s; _sampling_rate := _sampling_rate s;
     _n_samples := _n_samples s; _fft_norm := _fft_norm s |}.

Definition set__dtype (s : SignalObj) (d : dtype) : SignalObj :=
  {| _data := _data s; _domain := _domain s; _dtype := d;
     _comment := _comment s; _sampling_rate := _sampling_rate s;
     _n_samples := _n_samples s; _fft_norm := _fft_norm s |}.

Definition set__comment (s : SignalObj) (c : string) : SignalObj :=
  {| _data := _data s; _domain := _domain s; _dtype := _dtype s;
     _comment := c; _sampling_rate := _sampling_rate s;
     _n_samples := _n_samples s; _fft_norm := _fft_norm s |}.

Definition set__sampling_rate (s : SignalObj) (r : rate) : SignalObj :=
  {| _data := _data s; _domain := _domain s; _dtype := _dtype s;
     _comment := _comment s; _sampling_rate := r;
     _n_samples := _n_samples s; _fft_norm := _fft_norm s |}.

Definition set__n_samples (s : SignalObj) (n : Z) : SignalObj :=
  {| _data := _data s; _domain := _domain s; _dtype := _dtype s;
     _comment := _comment s; _sampling_rate := _sampling_rate s;
     _n_samples := n; _fft_norm := _fft_norm s |}.

Definition set__fft_norm (s : SignalObj) (v : string) : SignalObj :=
  {| _data := _data s; _domain := _domain s; _dtype := _dtype s;
     _comment := _comment s; _sampling_rate := _sampling_rate s;
     _n_samples := _n_samples s; _fft_norm := v |}.

(** A reference to a Signal object. *)
Definition ref : Type := nat.

(** ** The world: buffers, objects, and the log of observable calls *)

Inductive event : Type :=
| Call_rfft (n_samples : Z) (sampling_rate : rate) (fft_norm : string)
| Call_irfft (n_samples : Z) (sampling_rate : rate) (fft_norm : string)
| Call_normalization (n_samples : Z) (sampling_rate : rate)
                     (fft_norm : string) (inverse : bool)
| Call_operation (op : operation)
| Warning (msg : string).

Record world `{Kernel} : Type := {
  bufs : list (list elt);
  objs : list SignalObj;
  log : list event
}.

(** ** The state-and-exception monad

    A computation maps a world to a world and an outcome; a raised
    exception keeps the world as it was when it was raised, as in
    Python. *)

Section Monad.
Context `{Kernel}.

Definition M (A : Type) : Type := world -> world * outcome A.

Definition ret {A} (a : A) : M A := fun w => (w, Return a).

Definition raise {A} (e : exn) : M A := fun w => (w, Raise e).

Definition bind {A B} (m : M A) (k : A -> M B) : M B :=
  fun w =>
    match m w with
    | (w', Return a) => k a w'
    | (w', Raise e) => (w', Raise e)
    end.

(** lift a pure outcome *)
Definition lift {A} (o : outcome A) : M A := fun w => (w, o).

(** [try: m  except KeyError: raise KeyError(msg)] *)
Definition except_KeyError {A} (m : M A) (msg : string) : M A :=
  fun w =>
    match m w with
    | (w', Raise (KeyError _)) => (w', Raise (KeyError msg))
    | r => r
    end.

Definition emit (ev : event) : M unit :=
  fun w => ({| bufs := bufs w; objs := objs w; log := log w ++ [ev] |},
            Return tt).

(** [warnings.warn(msg)]: recorded, never fatal *)
Definition warnings_warn (msg : string) : M unit := emit (Warning msg).

(** *** Object store *)

Definition get_obj (r : ref) : M SignalObj :=
  fun w =>
    match objs w !! r with
    | Some s => (w, Return s)
    | None => (w, Raise DanglingReference)
    end.

Definition put_obj (r : ref) (s : SignalObj) : M unit :=
  fun w => ({| bufs := bufs w; objs := <[r := s]> (objs w);
               log := log w |}, Return tt).

Definition new_obj (s : SignalObj) : M ref :=
  fun w => ({| bufs := bufs w; objs := objs w ++ [s]; log := log w |},
            Return (length (objs w))).

(** *** Buffer store *)

Definition buf_read (h : list (list elt)) (a : ndarray) :
  option (list elt) :=
  match h !! base a with
  | Some b => mapM (fun i => b !! i) (offs a)
  | None => None
  end.

(** the contents of a view, in row-major order *)
Definition np_read (a : ndarray) : M (list elt) :=
  fun w =>
    match buf_read (bufs w) a with
    | Some l => (w, Return l)
    | None => (w, Raise DanglingReference)
    end.

(** a freshly allocated C-contiguous array *)
Definition np_alloc (dt : dtype) (sh : list nat) (flat : list elt) :
  M ndarray :=
  fun w =>
    ({| bufs := bufs w ++ [flat]; objs := objs w; log := log w |},
     Return {| base := length (bufs w);
               offs := seq 0 (length flat);
               shape := sh; dtype_of := dt |}).

(** store [vals] at the buffer positions [positions] *)
Fixpoint store_at (b : list elt) (positions : list nat) (vals : list elt) :
  list elt :=
  match positions, vals with
  | p :: positions', v :: vals' => store_at (<[p := v]> b) positions' vals'
  | _, _ => b
  end.

(** write [vals] through the view [a] *)
Definition np_write (a : ndarray) (vals : list elt) : M unit :=
  fun w =>
    match bufs w !! base a with
    | Some b =>
        ({| bufs := <[base a := store_at b (offs a) vals]> (bufs w);
            objs := objs w; log := log w |}, Return tt)
    | None => (w, Raise DanglingReference)
    end.
End Monad.

Notation "'do' x <- m ; k" := (bind m (fun x => k))
  (at level 10, x name, m at level 100, k at level 200, only parsing).
Notation "'do_' m ; k" := (bind m (fun _ => k))
  (at level 10, m at level 100, k at level 200, only parsing).

(** ** numpy: shapes, broadcasting, indexing *)

Section Numpy.
Context `{Kernel}.

(** [count] consecutive chunks of [size] elements *)
Definition chunks_of {A} (size count : nat) (l : list A) : list (list A) :=
  map (fun i => take size (drop (i * size) l)) (seq 0 count).

(** the shapes of two operands broadcast against each other, aligned on
    the trailing axis, the reversed shapes being given *)
Fixpoint broadcast_rev (a b : list nat) : option (list nat) :=
  match a, b with
  | [], _ => Some b
  | _, [] => Some a
  | x :: a', y :: b' =>
      match broadcast_rev a' b' with
      | Some r =>
          if (x =? y)%nat then Some (x :: r)
          else if (x =? 1)%nat then Some (y :: r)
          else if (y =? 1)%nat then Some (x :: r)
          else None
      | None => None
      end
  end.

(** [np.broadcast_shapes(a, b)] *)
Definition broadcast_shapes (a b : list nat) : option (list nat) :=
  match broadcast_rev (rev a) (rev b) with
  | Some r => Some (rev r)
  | None => None
  end.

(** pad a shape on the left with ones up to rank [n] *)
Definition pad_shape (n : nat) (sh : list nat) : list nat :=
  replicate (n - length sh) 1%nat ++ sh.

(** the contents of an array of shape [sh] broadcast to shape [tgt] of
    the same rank *)
Fixpoint bcast {A} (flat : list A) (sh tgt : list nat) : option (list A) :=
  match tgt, sh with
  | [], [] => Some flat
  | t :: tgt', s :: sh' =>
      if (s =? t)%nat then
        match mapM (fun c => bcast c sh' tgt')
                   (chunks_of (prod_shape sh') s flat) with
        | Some cs => Some (concat cs)
        | None => None
        end
      else if (s =? 1)%nat then
        match bcast flat sh' tgt' with
        | Some r => Some (concat (replicate t r))
        | None => None
        end
      else None
  | _, _ => None
  end.

(** [np.broadcast_to(array, tgt)] on contents *)
Definition broadcast_to {A} (flat : list A) (sh tgt : list nat) :
  option (list A) :=
  if (length sh <=? length tgt)%nat
  then bcast flat (pad_shape (length tgt) sh) tgt
  else None.

(** the value side of an assignment may carry extra leading axes of
    length one *)
Fixpoint strip_leading_ones (n : nat) (sh : list nat) : list nat :=
  match sh with
  | 1%nat :: sh' =>
      if (n <? length sh)%nat then strip_leading_ones n sh' else sh
  | _ => sh
  end.

(** *** Array primitives in the monad *)

Definition np_value (a : ndarray) : M arrval :=
  do flat <- np_read a;
  ret {| av_dtype := dtype_of a; av_shape := shape a; av_flat := flat |}.

Definition np_of_value (v : arrval) : M ndarray :=
  np_alloc (av_dtype v) (av_shape v) (av_flat v).

(** [a.copy()] *)
Definition np_copy (a : ndarray) : M ndarray :=
  do flat <- np_read a;
  np_alloc (dtype_of a) (shape a) flat.

(** [np.asarray(a, dtype=dt)]: the array itself when it already has the
    requested dtype, a converted copy otherwise *)
Definition np_asarray (a : ndarray) (dt : dtype) : M ndarray :=
  if dtype_eqb (dtype_of a) dt then ret a
  else
    do flat <- np_read a;
    np_alloc dt (shape a) (map (np_cast (dtype_of a) dt) flat).

(** [operation(a, b)] on arrays: broadcast, then combine elementwise
    into a new array *)
Definition np_operate (op : operation) (a b : ndarray) : M ndarray :=
  do_ emit (Call_operation op);
  do fa <- np_read a;
  do fb <- np_read b;
  match broadcast_shapes (shape a) (shape b) with
  | None =>
      raise (ValueError "operands could not be broadcast together")
  | Some sh =>
      match broadcast_to fa (shape a) sh, broadcast_to fb (shape b) sh with
      | Some xa, Some xb =>
          match np_binop op (dtype_of a) xa (dtype_of b) xb with
          | Raise e => raise e
          | Return (dt, flat) => np_alloc dt sh flat
          end
      | _, _ =>
          raise (ValueError "operands could not be broadcast together")
      end
  end.
End Numpy.

(** *** Basic indexing: integers and slices select views *)

Inductive index_item : Type :=
| Int (i : Z)
| Slice (start stop step : option Z).

(** the keys a caller may pass to [[]]; [Other] carries the type name
    of any other key *)
Inductive key : Type :=
| KInt (i : Z)
| KSlice (start stop step : option Z)
| KTuple (items : list index_item)
| KOther (type_name : string).

(** clamp a given slice bound as [slice.indices] does *)
Definition adjust_index (i step len : Z) : Z :=
  if i <? 0 then
    if i + len <? 0 then (if step <? 0 then -1 else 0) else i + len
  else if len <=? i then (if step <? 0 then len - 1 else len)
  else i.

(** the indices selected by [slice(start, stop, step)] on an axis of
    length [len], as computed by [slice.indices] *)
Definition slice_indices (start stop step : option Z) (len : nat) :
  outcome (list nat) :=
  let st := default 1 step in
  let n := Z.of_nat len in
  if st =? 0 then Raise (ValueError "slice step cannot be zero")
  else
    let a := match start with
             | Some i => adjust_index i st n
             | None => if st <? 0 then n - 1 else 0
             end in
    let b := match stop with
             | Some i => adjust_index i st n
             | None => if st <? 0 then -1 else n
             end in
    let cnt := if st <? 0
               then (if b <? a then (a - b - 1) / (- st) + 1 else 0)
               else (if a <? b then (b - a - 1) / st + 1 else 0) in
    Return (map (fun k : nat => Z.to_nat (a + Z.of_nat k * st))
                (seq 0 (Z.to_nat cnt))).

(** an integer index on an axis of length [d], negative indices counting
    from the end *)
Definition int_index (i : Z) (d : nat) : outcome nat :=
  let j := if i <? 0 then i + Z.of_nat d else i in
  if (j <? 0) || (Z.of_nat d <=? j)
  then Raise (IndexError "index is out of bounds for axis")
  else Return (Z.to_nat j).

(** shape of [a[items]]; raises what numpy raises *)
Fixpoint index_shape (items : list index_item) (sh : list nat) :
  outcome (list nat) :=
  match items with
  | [] => Return sh
  | it :: items' =>
      match sh with
      | [] => Raise (IndexError "too many indices for array")
      | d :: rest =>
          match it with
          | Int i =>
              match int_index i d with
              | Raise e => Raise e
              | Return _ => index_shape items' rest
              end
          | Slice a b c =>
              match slice_indices a b c d with
              | Raise e => Raise e
              | Return js =>
                  match index_shape items' rest with
                  | Raise e => Raise e
                  | Return sh' => Return (length js :: sh')
                  end
              end
          end
      end
  end.

(** buffer positions exposed by [a[items]], in row-major order *)
Fixpoint index_offs (items : list index_item) (sh : list nat)
         (positions : list nat) : list nat :=
  match items with
  | [] => positions
  | it :: items' =>
      match sh with
      | [] => positions
      | d :: rest =>
          let row := fun j : nat =>
            take (prod_shape rest) (drop (j * prod_shape rest) positions) in
          match it with
          | Int i =>
              match int_index i d with
              | Raise _ => []
              | Return j => index_offs items' rest (row j)
              end
          | Slice a b c =>
              match slice_indices a b c d with
              | Raise _ => []
              | Return js =>
                  concat (map (fun j => index_offs items' rest (row j)) js)
              end
          end
      end
  end.

(** [a[items]]: a view on the buffer of [a] *)
Definition np_getitem (a : ndarray) (items : list index_item) :
  outcome ndarray :=
  match index_shape items (shape a) with
  | Raise e => Raise e
  | Return sh =>
      Return {| base := base a;
                offs := index_offs items (shape a) (offs a);
                shape := sh; dtype_of := dtype_of a |}
  end.

(** [a[..., 0, :]]: index 0 on the second-to-last axis, as a view *)
Definition np_getitem_ellipsis_0_all (a : ndarray) : outcome ndarray :=
  let r := length (shape a) in
  if (r <? 2)%nat then Raise (IndexError "too many indices for array")
  else
    let pre := take (r - 2) (shape a) in
    let dk := nth (r - 2) (shape a) 0%nat in
    let n := nth (r - 1) (shape a) 0%nat in
    if (dk =? 0)%nat
    then Raise (IndexError "index is out of bounds for axis")
    else
      Return {| base := base a;
                offs := concat (map (fun b : nat =>
                                       take n (drop (b * (dk * n)) (offs a)))
                                    (seq 0 (prod_shape pre)));
                shape := pre ++ [n]; dtype_of := dtype_of a |}.

(** numpy's iterator over the first axis of an array *)
Record np_iterator : Type := { it_array : ndarray; it_pos : nat }.

(** [a.__iter__()] *)
Definition np_iter (a : ndarray) : outcome np_iterator :=
  match shape a with
  | [] => Raise (TypeError "iteration over a 0-d array")
  | _ => Return {| it_array := a; it_pos := 0 |}
  end.

(** [it.__next__()]: the view of the next row and the advanced iterator *)
Definition np_next (it : np_iterator) : outcome (np_iterator * ndarray) :=
  match shape (it_array it) with
  | d :: rest =>
      if (it_pos it <? d)%nat then
        Return ({| it_array := it_array it; it_pos := S (it_pos it) |},
                {| base := base (it_array it);
                   offs := take (prod_shape rest)
                             (drop (it_pos it * prod_shape rest)
                                   (offs (it_array it)));
                   shape := rest; dtype_of := dtype_of (it_array it) |})
      else Raise StopIteration
  | [] => Raise StopIteration
  end.

(** *** Reshaping *)

(** [np.prod] of a tuple of ints *)
Definition prod_Z (dims : list Z) : Z := fold_right Z.mul 1 dims.

(** [a.reshape(newshape)] on a C-contiguous array: a view on the same
    positions. As in numpy's [_fix_unknown_dimension], a negative entry
    stands for the one dimension to infer; a second one, a known part
    that does not divide the size, or a size that differs, is a
    ValueError. *)
Definition np_reshape (a : ndarray) (newshape : list Z) : outcome ndarray :=
  let size := Z.of_nat (prod_shape (shape a)) in
  let unknown := List.filter (fun d => d <? 0) newshape in
  let s_known := prod_Z (List.filter (fun d => negb (d <? 0)) newshape) in
  match unknown with
  | [] =>
      if size =? s_known
      then Return (with_shape a (map Z.to_nat newshape))
      else Raise (ValueError "cannot reshape array into shape")
  | [_] =>
      if (s_known =? 0) || negb (size mod s_known =? 0)
      then Raise (ValueError "cannot reshape array into shape")
      else Return (with_shape a
                     (map (fun d => Z.to_nat (if d <? 0 then size / s_known
                                              else d)) newshape))
  | _ => Raise (ValueError "can only specify one unknown dimension")
  end.

(** [repr] of a tuple of ints *)
Definition repr_tuple (dims : list Z) : string :=
  match dims with
  | [] => "()"
  | [d] => "(" ++ pretty d ++ ",)"
  | _ => "(" ++ join ", " (map pretty dims) ++ ")"
  end.

(** the [newshape] argument of [reshape]: an int, a tuple of ints, or
    anything else *)
Inductive pyshape : Type :=
| ShapeInt (n : Z)
| ShapeTuple (dims : list Z)
| ShapeOther.

Section NumpyAssign.
Context `{Kernel}.

(** [a[items] = v]: the contents of [v], broadcast to the selected view
    and converted to the dtype of [a], are written into the buffer of
    [a] *)
Definition np_setitem (a : ndarray) (items : list index_item)
           (v : ndarray) : M unit :=
  match np_getitem a items with
  | Raise e => raise e
  | Return tgt =>
      do fv <- np_read v;
      match broadcast_to fv
              (strip_leading_ones (length (shape tgt)) (shape v))
              (shape tgt) with
      | None => raise (ValueError "could not broadcast input array")
      | Some vals =>
          np_write tgt (map (np_cast (dtype_of v) (dtype_of a)) vals)
      end
  end.
End NumpyAssign.

(** ** Calls into [pyfar.fft]

    Each call is logged, then the service's result is allocated as a new
    array. *)

Section Calls.
Context `{TransformService}.

Definition fft__rfft (data : ndarray) (n_samples : Z) (sampling_rate : rate)
           (fft_norm : string) : M ndarray :=
  do v <- np_value data;
  do_ emit (Call_rfft n_samples sampling_rate fft_norm);
  np_of_value (fft_rfft v n_samples sampling_rate fft_norm).

Definition fft__irfft (data : ndarray) (n_samples : Z)
           (sampling_rate : rate) (fft_norm : string) : M ndarray :=
  do v <- np_value data;
  do_ emit (Call_irfft n_samples sampling_rate fft_norm);
  np_of_value (fft_irfft v n_samples sampling_rate fft_norm).

Definition fft__normalization (data : ndarray) (n_samples : Z)
           (sampling_rate : rate) (fft_norm : string) (inverse : bool) :
  M ndarray :=
  do v <- np_value data;
  do_ emit (Call_normalization n_samples sampling_rate fft_norm inverse);
  np_of_value (fft_normalization v n_samples sampling_rate fft_norm inverse).
End Calls.

(** ** Python values handed to the container: a Signal or array data *)

Inductive pyobj : Type :=
| Sig (r : ref)
| Arr (a : ndarray).

(** [np.any(np.diff(v) <= 0)] *)
Fixpoint any_diff_nonpos (v : list Q) : bool :=
  match v with
  | x :: ((y :: _) as rest) => Qle_bool (y - x) 0 || any_diff_nonpos rest
  | _ => false
  end.

Definition _VALID_TYPES : list string := ["power"; "energy"].
Definition _VALID_DOMAINS : list string := ["time"; "freq"].
Definition _VALID_FFT_NORMS : list string :=
  ["none"; "unitary"; "amplitude"; "rms"; "power"; "psd"].

Definition invalid_fft_norm_message (found : string) : string :=
  "Invalid FFT normalization. Has to be " ++ join ", " _VALID_FFT_NORMS ++
  ", but found '" ++ found ++ "'".

(** the attributes of an object before [__init__] has run; every one is
    assigned before it is read *)
Definition uninitialised : SignalObj :=
  {| _data := {| base := 0; offs := []; shape := []; dtype_of := float64 |};
     _domain := ""; _dtype := float64; _comment := "";
     _sampling_rate := Hz 1; _n_samples := 0; _fft_norm := "" |}.

(** ** class _Audio *)

Module _Audio.
Section defs.
Context `{Kernel}.

Definition __init__ (self : SignalObj) (domain : string)
           (comment : option string) (dtype : dtype) : M SignalObj :=
  let self := set__comment self (default "none" comment) in
  let self := set__dtype self dtype in
  if str_in domain _VALID_DOMAINS then
    let self := set__domain self domain in
    do nan <- np_alloc float64 [] [np_nan];
    ret (set__data self (np_atleast_2d nan))
  else raise (ValueError "Incorrect domain, needs to be time/freq.").

Definition domain (self : SignalObj) : string := _domain self.

Definition dtype (self : SignalObj) : dtype := _dtype self.

Definition cshape (self : SignalObj) : list nat :=
  shape_init (shape (_data self)).

Definition comment (self : SignalObj) : string := _comment self.

(** [self._data[key]] with [key] an int, a slice or a tuple *)
Definition items_of_key (k : key) : option (list index_item) :=
  match k with
  | KInt i => Some [Int i]
  | KSlice a b c => Some [Slice a b c]
  | KTuple items => Some items
  | KOther _ => None
  end.

Definition type_name (k : key) : string :=
  match k with
  | KInt _ => "int"
  | KSlice _ _ _ => "slice"
  | KTuple _ => "tuple"
  | KOther n => n
  end.

Definition __getitem__ (_return_item : ref -> ndarray -> M ref)
           (self : ref) (k : key) : M ref :=
  do data <-
    match k with
    | KInt _ | KSlice _ _ _ | KTuple _ =>
        except_KeyError
          (do s <- get_obj self;
           lift (np_getitem (_data s) (default [] (items_of_key k))))
          "Index is out of bounds"
    | KOther _ => raise (TypeError ("Index must be int, not " ++ type_name k))
    end;
  _return_item self data.

Definition __setitem__ (_assert_matching_meta_data : ref -> pyobj -> M unit)
           (self : ref) (k : key) (value : pyobj) : M unit :=
  do_ _assert_matching_meta_data self value;
  match k with
  | KInt _ | KSlice _ _ _ =>
      except_KeyError
        (do s <- get_obj self;
         match value with
         | Sig v =>
             do sv <- get_obj v;
             np_setitem (_data s) (default [] (items_of_key k)) (_data sv)
         | Arr _ =>
             raise (AttributeError "object has no attribute '_data'")
         end)
        "Index is out of bound"
  | KTuple _ | KOther _ =>
      raise (TypeError ("Index must be int, not " ++ type_name k))
  end.

(** [copy] is [utils.copy]. *)
Definition reshape (copy : ref -> M ref) (self : ref)
           (newshape : pyshape) : M ref :=
  match newshape with
  | ShapeOther => raise (ValueError "newshape must be an integer or tuple")
  | ShapeInt _ | ShapeTuple _ =>
      let newshape := match newshape with
                      | ShapeInt n => [n]
                      | ShapeTuple dims => dims
                      | ShapeOther => []
                      end in
      do reshaped <- copy self;
      do r <- get_obj reshaped;
      match shape (_data r) with
      | [] => raise (IndexError "tuple index out of range")
      | _ =>
          let length_last_dimension := shape_last (shape (_data r)) in
          match np_reshape (_data r)
                  (newshape ++ [Z.of_nat length_last_dimension])%list with
          | Return d =>
              do_ put_obj reshaped (set__data r d);
              ret reshaped
          | Raise (ValueError _) =>
              do s <- get_obj self;
              if negb (prod_Z newshape =? Z.of_nat (prod_shape (cshape s)))
              then
                raise (ValueError
                         ("Can not reshape signal of cshape " ++
                          repr_tuple (map Z.of_nat (cshape s)) ++ " to " ++
                          repr_tuple newshape))
              else ret reshaped
          | Raise e => raise e
          end
      end
  end.

Definition flatten (reshape : ref -> pyshape -> M ref) (self : ref) :
  M ref :=
  do s <- get_obj self;
  let newshape := Z.of_nat (prod_shape (cshape s)) in
  reshape self (ShapeInt newshape).
End defs.
End _Audio.

(** ** class TimeData (the part inherited by Signal) *)

Module TimeData.
Section defs.
Context `{Kernel}.

Definition n_samples (self : SignalObj) : Z := _n_samples self.

(** The stored [_times] vector is never read on a Signal, whose [times]
    property is computed; only the checks made on it are kept. *)
Definition __init__ (self : SignalObj) (data : ndarray) (times : list Q)
           (comment : option string) (dtype : dtype) : M SignalObj :=
  do self <- _Audio.__init__ self "time" comment dtype;
  do d <- np_asarray data dtype;
  let self := set__data self (np_atleast_2d d) in
  let self :=
    set__n_samples self (Z.of_nat (shape_last (shape (_data self)))) in
  if negb (Z.of_nat (length times) =? n_samples self) then
    raise (ValueError "The length of times must be data.shape[-1]")
  else if any_diff_nonpos times && (1 <? length times)%nat then
    raise (ValueError "Times must be monotonously increasing.")
  else ret self.

(** [time.fget] *)
Definition time (self : SignalObj) : ndarray := _data self.

(** [time.fset] *)
Definition time_setter (self : ref) (value : ndarray) : M unit :=
  do s <- get_obj self;
  let data := np_atleast_2d value in
  let s := set__data s data in
  let s := set__n_samples s (Z.of_nat (shape_last (shape data))) in
  put_obj self (set__domain s "time").
End defs.
End TimeData.

(** ** class FrequencyData (the part inherited by Signal) *)

Module FrequencyData.
Section defs.
Context `{Kernel}.

(** [n_bins] is the property of the object's class: for a Signal it is
    [Signal.n_bins]. *)
Definition __init__ (n_bins : SignalObj -> Z)
           (self : SignalObj) (data : ndarray) (frequencies : list Q)
           (fft_norm : option string) (comment : option string)
           (dtype : dtype) : M SignalObj :=
  do self <- _Audio.__init__ self "freq" comment dtype;
  do d <- np_asarray data complex128;
  let self := set__data self (np_atleast_2d d) in
  if negb (Z.of_nat (length frequencies) =? n_bins self) then
    raise (ValueError "The number of freqencies must be data.shape[-1]")
  else if any_diff_nonpos frequencies && (1 <? length frequencies)%nat then
    raise (ValueError "Frequencies must be monotonously increasing.")
  else
    let fft_norm := default "none" fft_norm in
    if str_in fft_norm _VALID_FFT_NORMS then
      ret (set__fft_norm self fft_norm)
    else raise (ValueError (invalid_fft_norm_message fft_norm)).

(** [freq.fget] *)
Definition freq (self : SignalObj) : ndarray := _data self.

(** [freq.fset] *)
Definition freq_setter (self : ref) (value : ndarray) : M unit :=
  do s <- get_obj self;
  let s := set__data s (np_atleast_2d (np_atleast_2d value)) in
  put_obj self (set__domain s "freq").

Definition fft_norm (self : SignalObj) : string := _fft_norm self.
End defs.
End FrequencyData.

(** ** class Signal *)

Module Signal.
Section defs.
Context `{TransformService}.

Definition sampling_rate (self : SignalObj) : rate := _sampling_rate self.

Definition n_samples (self : SignalObj) : Z := TimeData.n_samples self.

(** [np.arange(0, n_samples) / sampling_rate] *)
Definition times (self : SignalObj) : list Q :=
  map (fun k : nat =>
         (inject_Z (Z.of_nat k) / rate_to_Q (sampling_rate self))%Q)
      (seq 0 (Z.to_nat (n_samples self))).

Definition frequencies (self : SignalObj) : list Q :=
  fft_rfftfreq (n_samples self) (sampling_rate self).

Definition n_bins (self : SignalObj) : Z := fft__n_bins (n_samples self).

Definition __init__ (self : SignalObj) (data : ndarray)
           (sampling_rate : rate) (n_samples : option Z) (domain : string)
           (fft_norm : option string) (comment : option string)
           (dtype : dtype) : M SignalObj :=
  do self <- _Audio.__init__ self domain comment dtype;
  let self := set__sampling_rate self sampling_rate in
  if String.eqb domain "time" then
    do d <- np_asarray data dtype;
    let self := set__data self (np_atleast_2d d) in
    let self :=
      set__n_samples self (Z.of_nat (shape_last (shape (_data self)))) in
    let fft_norm := default "none" fft_norm in
    if str_in fft_norm _VALID_FFT_NORMS then
      let self := set__fft_norm self fft_norm in
      TimeData.__init__ self data (times self) comment dtype
    else raise (ValueError (invalid_fft_norm_message fft_norm))
  else if String.eqb domain "freq" then
    do d <- np_asarray data complex128;
    let self := set__data self (np_atleast_2d d) in
    let data_n_bins := Z.of_nat (shape_last (shape (_data self))) in
    do n_samples <-
      match n_samples with
      | None =>
          do_ warnings_warn
            ("Number of time samples not given, assuming an even " ++
             "number of samples from the number of frequency bins.");
          ret ((data_n_bins - 1) * 2)
      | Some n =>
          if 2 * data_n_bins - 1 <? n then
            raise (ValueError ("n_samples can not be larger than " ++
                               "2 * data.shape[-1] - 2"))
          else ret n
      end;
    let self := set__n_samples self n_samples in
    FrequencyData.__init__ n_bins self data (frequencies self)
                           fft_norm comment dtype
  else raise (ValueError "Invalid domain. Has to be 'time' or 'freq'.").

(** the call [Signal(data, sampling_rate, ...)]: a new object,
    initialised *)
Definition new (data : ndarray) (sampling_rate : rate)
           (n_samples : option Z) (domain : string)
           (fft_norm : option string) (comment : option string)
           (dtype : dtype) : M ref :=
  do self <- __init__ uninitialised data sampling_rate n_samples domain
                      fft_norm comment dtype;
  new_obj self.

(** [freq.fset] *)
Definition freq_setter (self : ref) (value : ndarray) : M unit :=
  do_ FrequencyData.freq_setter self value;
  do s <- get_obj self;
  do n <-
    (if Z.of_nat (shape_last (shape (_data s))) =? n_bins s then
       ret (n_samples s)
     else
       do_ warnings_warn
         ("Number of frequency bins changed, assuming an even " ++
          "number of samples from the number of frequency bins.");
       ret ((Z.of_nat (shape_last (shape (_data s))) - 1) * 2));
  do s <- get_obj self;
  put_obj self (set__n_samples s n).

(** [time.fset], inherited *)
Definition time_setter (self : ref) (value : ndarray) : M unit :=
  TimeData.time_setter self value.

(** [domain.fset] *)
Definition domain_setter (self : ref) (new_domain : string) : M unit :=
  if negb (str_in new_domain _VALID_DOMAINS) then
    raise (ValueError "Incorrect domain, needs to be time/freq.")
  else
    do s <- get_obj self;
    if negb (String.eqb (_domain s) new_domain) then
      if String.eqb new_domain "time" then
        do v <- fft__irfft (_data s) (n_samples s) (_sampling_rate s)
                           (_fft_norm s);
        time_setter self v
      else if String.eqb new_domain "freq" then
        do v <- fft__rfft (_data s) (n_samples s) (_sampling_rate s)
                          (_fft_norm s);
        freq_setter self v
      else ret tt
    else ret tt.

(** [time.fget] *)
Definition time (self : ref) : M ndarray :=
  do_ domain_setter self "time";
  do s <- get_obj self;
  ret (TimeData.time s).

(** [freq.fget] *)
Definition freq (self : ref) : M ndarray :=
  do_ domain_setter self "freq";
  do s <- get_obj self;
  ret (FrequencyData.freq s).

(** [fft_norm.fset] *)
Definition fft_norm_setter (self : ref) (value : string) : M unit :=
  if negb (str_in value _VALID_FFT_NORMS) then
    raise (ValueError (invalid_fft_norm_message value))
  else
    do s <- get_obj self;
    do_ (if negb (String.eqb (_fft_norm s) value)
            && String.eqb (_domain s) "freq"
         then
           do d <- fft__normalization (_data s) (_n_samples s)
                     (_sampling_rate s) (_fft_norm s) true;
           do_ put_obj self (set__data s d);
           do s <- get_obj self;
           do d <- fft__normalization (_data s) (_n_samples s)
                     (_sampling_rate s) value false;
           put_obj self (set__data s d)
         else ret tt);
    do s <- get_obj self;
    put_obj self (set__fft_norm s value).

Definition _assert_matching_meta_data (self : ref) (other : pyobj) :
  M unit :=
  match other with
  | Arr _ => raise (ValueError "Comparison only valid against Signal objects.")
  | Sig o =>
      do s <- get_obj self;
      do so <- get_obj o;
      if negb (rate_eqb (sampling_rate s) (sampling_rate so)) then
        raise (ValueError "The sampling rates do not match.")
      else if negb (n_samples s =? n_samples so) then
        raise (ValueError "The number of samples does not match.")
      else if negb (String.eqb (_fft_norm s) (_fft_norm so)) then
        raise (ValueError "The FFT norms do not match.")
      else ret tt
  end.

Definition _return_item (self : ref) (data : ndarray) : M ref :=
  do s <- get_obj self;
  new data (sampling_rate s) (Some (n_samples s)) (_Audio.domain s)
      (Some (_fft_norm s)) (Some (_Audio.comment s)) (_Audio.dtype s).

Definition __getitem__ (self : ref) (k : key) : M ref :=
  _Audio.__getitem__ _return_item self k.

Definition __setitem__ (self : ref) (k : key) (value : pyobj) : M unit :=
  _Audio.__setitem__ _assert_matching_meta_data self k value.

Definition __len__ (self : SignalObj) : Z := n_samples self.

(** Modelled from the spec: [utils.copy] is not part of the sources at
    hand; copies are deep: a new object whose buffer is a new
    allocation with the same contents. *)
Definition copy (self : ref) : M ref :=
  do s <- get_obj self;
  do d <- np_copy (_data s);
  new_obj (set__data s d).

(** [reshape] and [flatten], inherited *)
Definition reshape (self : ref) (newshape : pyshape) : M ref :=
  _Audio.reshape copy self newshape.

Definition flatten (self : ref) : M ref := _Audio.flatten reshape self.
End defs.
End Signal.

(** ** class SignalIterator *)

Record SignalIteratorObj : Type := {
  _array_iterator : np_iterator;
  _signal : ref;
  _iterated_sig : ref
}.

Module SignalIterator.
Section defs.
Context `{TransformService}.

Definition __init__ (array_iterator : np_iterator) (signal : ref) :
  M SignalIteratorObj :=
  do s <- get_obj signal;
  do first <- lift (np_getitem_ellipsis_0_all (_data s));
  do sig <- Signal.new first (Signal.sampling_rate s)
              (Some (Signal.n_samples s)) (_Audio.domain s)
              (Some (_fft_norm s)) None (_Audio.dtype s);
  ret {| _array_iterator := array_iterator; _signal := signal;
         _iterated_sig := sig |}.

(** returns the advanced iterator and the object it yields, which is
    its one [_iterated_sig] every time *)
Definition __next__ (self : SignalIteratorObj) :
  M (SignalIteratorObj * ref) :=
  do s <- get_obj (_signal self);
  do it <- get_obj (_iterated_sig self);
  if String.eqb (_Audio.domain s) (_Audio.domain it) then
    do nx <- lift (np_next (_array_iterator self));
    do_ put_obj (_iterated_sig self) (set__data it (np_atleast_2d (snd nx)));
    ret ({| _array_iterator := fst nx; _signal := _signal self;
            _iterated_sig := _iterated_sig self |}, _iterated_sig self)
  else raise (RuntimeError "domain changes during iterations break stuff!").
End defs.
End SignalIterator.

Section Iteration.
Context `{TransformService}.

(** [Signal.__iter__] *)
Definition Signal__iter__ (self : ref) : M SignalIteratorObj :=
  do s <- get_obj self;
  do array_iterator <- lift (np_iter (_data s));
  SignalIterator.__init__ array_iterator self.

(** [[x for x in it]] with a snapshot of the yielded object's state at
    each step; [fuel] bounds the number of steps taken *)
Fixpoint drain (fuel : nat) (it : SignalIteratorObj) :
  M (list (ref * SignalObj)) :=
  match fuel with
  | O => raise (RuntimeError "out of fuel")
  | S fuel' =>
      fun w =>
        match SignalIterator.__next__ it w with
        | (w', Raise StopIteration) => (w', Return [])
        | (w', Raise e) => (w', Raise e)
        | (w', Return (it', r)) =>
            (do s <- get_obj r;
             do rest <- drain fuel' it';
             ret ((r, s) :: rest)) w'
        end
  end.

(** [list(iter(signal))] *)
Definition iterate (fuel : nat) (self : ref) : M (list (ref * SignalObj)) :=
  do it <- Signal__iter__ self;
  drain fuel it.
End Iteration.

(** ** Arithmetic on signals and array likes *)

(** the [data] argument: a tuple of operands, or anything else *)
Inductive pyarg : Type :=
| Tuple (items : list pyobj)
| NotATuple.

Section Arithmetic.
Context `{TransformService}.

Definition dtypes : list string :=
  ["int8"; "int16"; "int32"; "int64";
   "float32"; "float64";
   "complex64"; "complex128"].

(** the loop of [_assert_match_for_arithmetic]; [meta] holds
    [sampling_rate], [n_samples] and [fft_norm], which are [None]
    together until the first Signal is met *)
Fixpoint check_operands (items : list pyobj) (domain : string)
         (meta : option (rate * Z * string)) :
  M (option (rate * Z * string)) :=
  match items with
  | [] => ret meta
  | Sig r :: rest =>
      do d <- get_obj r;
      do meta' <-
        match meta with
        | None =>
            ret (Signal.sampling_rate d, Signal.n_samples d,
                 FrequencyData.fft_norm d)
        | Some (sampling_rate, n_samples, fft_norm) =>
            if negb (rate_eqb sampling_rate (Signal.sampling_rate d)) then
              raise (ValueError "The sampling rates do not match.")
            else if negb (n_samples =? Signal.n_samples d) then
              raise (ValueError "The number of samples does not match.")
            else ret (sampling_rate, n_samples, fft_norm)
        end;
      let '(sampling_rate, n_samples, fft_norm) := meta' in
      let fft_norm :=
        if negb (String.eqb (FrequencyData.fft_norm d) "none")
           && String.eqb fft_norm "none"
        then FrequencyData.fft_norm d else fft_norm in
      check_operands rest domain (Some (sampling_rate, n_samples, fft_norm))
  | Arr a :: rest =>
      if negb (dtype_in (dtype_of a) dtypes) then
        raise (ValueError ("Input must be of type Signal, " ++
                           join ", " dtypes))
      else if dtype_in (dtype_of a) ["complex64"; "complex128"]
              && String.eqb domain "time" then
        raise (ValueError
                 "Complex input can not be applied in the time domain.")
      else check_operands rest domain meta
  end.

Definition _assert_match_for_arithmetic (data : pyarg) (domain : string) :
  M (option (rate * Z * string)) :=
  match data with
  | NotATuple => raise (ValueError "Input argument 'data' must be a tuple.")
  | Tuple items =>
      if negb (str_in domain ["time"; "freq"]) then
        raise (ValueError ("domain must be time or freq but is " ++
                           domain ++ "."))
      else check_operands items domain None
  end.

(** [n_samples] is [None] only when no operand is a Signal, and is then
    not used *)
Definition _get_arithmetic_data (data : pyobj) (n_samples : option Z)
           (domain : string) : M ndarray :=
  match data with
  | Sig r =>
      if String.eqb domain "time" then
        do t <- Signal.time r;
        np_copy t
      else if String.eqb domain "freq" then
        do f <- Signal.freq r;
        do data_out <- np_copy f;
        do s <- get_obj r;
        if negb (String.eqb (FrequencyData.fft_norm s) "none") then
          match n_samples with
          | Some n =>
              fft__normalization data_out n (Signal.sampling_rate s)
                                 (FrequencyData.fft_norm s) true
          | None => raise (TypeError "n_samples is None")
          end
        else ret data_out
      else
        raise (ValueError ("domain must be 'time' or 'freq' but found " ++
                           domain))
  | Arr a => ret a
  end.

(** [for d in range(1, len(data)): result = operation(result, ...)] *)
Fixpoint fold_operands (op : operation) (result : ndarray)
         (rest : list pyobj) (n_samples : option Z) (domain : string) :
  M ndarray :=
  match rest with
  | [] => ret result
  | d :: rest' =>
      do x <- _get_arithmetic_data d n_samples domain;
      do result' <- np_operate op result x;
      fold_operands op result' rest' n_samples domain
  end.

Definition _arithmetic (data : pyarg) (domain : string) (op : operation) :
  M pyobj :=
  do meta <- _assert_match_for_arithmetic data domain;
  match data with
  | NotATuple => raise (ValueError "Input argument 'data' must be a tuple.")
  | Tuple [] => raise (IndexError "tuple index out of range")
  | Tuple (d0 :: rest) =>
      let n_samples := option_map (fun m => snd (fst m)) meta in
      do result <- _get_arithmetic_data d0 n_samples domain;
      do result <- fold_operands op result rest n_samples domain;
      match meta with
      | Some (sampling_rate, n_samples, fft_norm) =>
          do result <-
            (if String.eqb domain "freq" then
               fft__normalization result n_samples sampling_rate fft_norm
                                  false
             else ret result);
          do r <- Signal.new result sampling_rate (Some n_samples) domain
                    (Some fft_norm) None float64;
          ret (Sig r)
      | None => ret (Arr result)
      end
  end.

Definition add (data : pyarg) (domain : string) : M pyobj :=
  _arithmetic data domain _add.

Definition subtract (data : pyarg) (domain : string) : M pyobj :=
  _arithmetic data domain _subtract.

Definition multiply (data : pyarg) (domain : string) : M pyobj :=
  _arithmetic data domain _multiply.

Definition divide (data : pyarg) (domain : string) : M pyobj :=
  _arithmetic data domain _divide.

Definition power (data : pyarg) (domain : string) : M pyobj :=
  _arithmetic data domain _power.

(** the operators of [Signal] work in the frequency domain *)
Definition Signal__add__ (self : ref) (data : pyobj) : M pyobj :=
  add (Tuple [Sig self; data]) "freq".
Definition Signal__sub__ (self : ref) (data : pyobj) : M pyobj :=
  subtract (Tuple [Sig self; data]) "freq".
Definition Signal__mul__ (self : ref) (data : pyobj) : M pyobj :=
  multiply (Tuple [Sig self; data]) "freq".
Definition Signal__truediv__ (self : ref) (data : pyobj) : M pyobj :=
  divide (Tuple [Sig self; data]) "freq".
Definition Signal__pow__ (self : ref) (data : pyobj) : M pyobj :=
  power (Tuple [Sig self; data]) "freq".
End Arithmetic.

(** ** Notions used to state the properties *)

(** row [k] of an array along its first axis, as a view *)
Definition np_row (a : ndarray) (k : nat) : ndarray :=
  {| base := base a;
     offs := take (prod_shape (tail (shape a)))
               (drop (k * prod_shape (tail (shape a))) (offs a));
     shape := tail (shape a); dtype_of := dtype_of a |}.

(** the number of forward transforms recorded in a log *)
Fixpoint count_rfft (l : list event) : nat :=
  match l with
  | [] => 0
  | Call_rfft _ _ _ :: l' => S (count_rfft l')
  | _ :: l' => count_rfft l'
  end.

(** the first convention that is not "none", "none" when there is none *)
Fixpoint first_non_none (norms : list string) : string :=
  match norms with
  | [] => "none"
  | n :: rest => if String.eqb n "none" then first_non_none rest else n
  end.

(** the Signal operands of a tuple, in order *)
Fixpoint signal_operands (items : list pyobj) : list ref :=
  match items with
  | [] => []
  | Sig r :: rest => r :: signal_operands rest
  | Arr _ :: rest => signal_operands rest
  end.

(** the Signal objects among the operands, as they are in world [w] *)
Definition operand_signals `{Kernel} (w : world) (items : list pyobj) :
  list SignalObj :=
  omap (fun r => objs w !! r) (signal_operands items).

(** the sampling rate, sample count and normalization that validation
    arrives at, from those it started with and the Signal operands met *)
Definition validated_meta (sigs : list SignalObj)
           (meta : option (rate * Z * string)) : option (rate * Z * string) :=
  match meta with
  | Some (sr, n, norm) =>
      Some (sr, n, if String.eqb norm "none"
                   then first_non_none (map _fft_norm sigs) else norm)
  | None =>
      match sigs with
      | [] => None
      | s0 :: _ =>
          Some (_sampling_rate s0, _n_samples s0,
                first_non_none (map _fft_norm sigs))
      end
  end.

(** every Signal operand is a live object *)
Definition operands_live `{Kernel} (w : world) (items : list pyobj) : Prop :=
  forall r, In (Sig r) items -> is_Some (objs w !! r).

(** the element kinds the arithmetic functions take for a non-Signal
    operand in a given domain *)
Definition accepted_kind (dt : dtype) (domain : string) : bool :=
  match dt with
  | int8 | int16 | int32 | int64 | float32 | float64 => true
  | complex64 | complex128 => negb (String.eqb domain "time")
  | _ => false
  end.

(** sample count, sampling rate and normalization of two signals match *)
Definition meta_data_match (a b : SignalObj) : bool :=
  rate_eqb (_sampling_rate a) (_sampling_rate b)
  && (_n_samples a =? _n_samples b)
  && String.eqb (_fft_norm a) (_fft_norm b).

(** the two messages with which disagreeing signals are rejected *)
Definition metadata_mismatch (e : exn) : Prop :=
  e = ValueError "The sampling rates do not match." \/
  e = ValueError "The number of samples does not match.".

(** the array value seen through a view whose contents are [flat] *)
Definition value_of `{Kernel} (a : ndarray) (flat : list elt) : arrval :=
  {| av_dtype := dtype_of a; av_shape := shape a; av_flat := flat |}.

(** the array object that allocating the value [v] in world [w] gives *)
Definition fresh_array `{Kernel} (w : world) (v : arrval) : ndarray :=
  {| base := length (bufs w); offs := seq 0 (length (av_flat v));
     shape := av_shape v; dtype_of := av_dtype v |}.

(** [w'] differs from [w] by newly allocated buffers only *)
Definition allocates `{Kernel} (w w' : world) : Prop :=
  objs w' = objs w /\ log w' = log w /\ exists ext, bufs w' = (bufs w ++ ext)%list.

(** [d] is what [np.asarray(a, dtype=dt)] gives when run in [w] with
    outcome world [w']: the array itself when it has the dtype, a
    converted copy in a new buffer otherwise *)
Definition asarray_of `{Kernel} (w w' : world) (a : ndarray) (dt : dtype)
           (d : ndarray) : Prop :=
  shape d = shape a /\ dtype_of d = dt /\
  (dtype_of a = dt -> d = a) /\
  (dtype_of a <> dt -> (length (bufs w) <= base d)%nat) /\
  (base d < length (bufs w'))%nat /\
  is_Some (buf_read (bufs w') d).

(** the buffers of all objects were allocated before buffer [b] *)
Definition bases_below `{Kernel} (w : world) (b : nat) : Prop :=
  forall r s, objs w !! r = Some s -> (base (_data s) < b)%nat.

(** every view held by an object lies in an allocated buffer *)
Definition buffers_allocated `{Kernel} (w : world) : Prop :=
  bases_below w (length (bufs w)).

(** the array [d] lives in the buffer allocated last among those in use:
    no object of [w] holds a view on it *)
Definition unshared `{Kernel} (w : world) (d : ndarray) : Prop :=
  bases_below w (base d) /\ (base d < length (bufs w))%nat.

(** Modelled from the spec: [pyfar.fft] is not part of the sources at
    hand; the shapes its transforms are documented to return: the
    channel axes are kept, a one-sided spectrum has floor(n/2)+1 bins
    and a time signal has n samples. *)
Definition transform_shapes `{TransformService} : Prop :=
  forall v n sr norm,
    av_shape (fft_rfft v n sr norm) =
      (shape_init (av_shape v) ++ [Z.to_nat (fft__n_bins n)])%list /\
    av_shape (fft_irfft v n sr norm) =
      (shape_init (av_shape v) ++ [Z.to_nat n])%list.

(** the state every method of a Signal relies on: a known domain and
    normalization, a buffer of at least two axes, and a sample count
    that fits the buffer's trailing axis *)
Definition well_formed (s : SignalObj) : Prop :=
  (_domain s = "time" \/ _domain s = "freq") /\
  str_in (_fft_norm s) _VALID_FFT_NORMS = true /\
  (2 <= length (shape (_data s)))%nat /\
  (_domain s = "time" ->
     _n_samples s = Z.of_nat (shape_last (shape (_data s)))) /\
  (_domain s = "freq" ->
     _n_samples s <= 2 * Z.of_nat (shape_last (shape (_data s))) - 1).


(** what conversions to [domain] may have made of the object [s]: its
    buffer, sample count and domain tag may have been replaced, the
    other attributes are kept *)
Definition converted_to (domain : string) (s s' : SignalObj) : Prop :=
  _sampling_rate s' = _sampling_rate s /\ _fft_norm s' = _fft_norm s /\
  _dtype s' = _dtype s /\ _comment s' = _comment s /\
  (s' = s \/ _domain s' = domain).

(** [w'] is [w] after allocations of new buffers and conversions of
    objects to [domain] *)
Definition converts_to `{Kernel} (domain : string) (w w' : world) : Prop :=
  (exists ext, bufs w' = (bufs w ++ ext)%list) /\
  forall r s, objs w !! r = Some s ->
    exists s', objs w' !! r = Some s' /\ converted_to domain s s'.

(** a call of one of the two transforms *)
Definition is_transform (ev : event) : bool :=
  match ev with
  | Call_rfft _ _ _ | Call_irfft _ _ _ => true
  | _ => false
  end.


(** a view whose positions fit its shape, each exposed once, all inside
    an allocated buffer: what numpy guarantees of the arrays it hands
    out *)
Definition sound_view `{Kernel} (h : list (list elt)) (a : ndarray) : Prop :=
  NoDup (offs a) /\ length (offs a) = prod_shape (shape a) /\
  is_Some (buf_read h a).

(** ** A concrete kernel and service, for running the model

    Elements are integers, casts keep the value, and the service returns
    zero-filled arrays of the contracted shape: one-sided spectra of
    floor(n/2)+1 bins, time signals of n samples. *)

Definition Z_binop (op : operation) (x y : Z) : Z :=
  match op with
  | _add => x + y
  | _subtract => x - y
  | _multiply => x * y
  | _divide => x / y
  | _power => x ^ y
  end.

Definition ZKernel : Kernel := {|
  elt := Z;
  np_cast := fun _ _ x => x;
  np_nan := 0;
  np_binop := fun op da a db b => Return (da, zip_with (Z_binop op) a b)
|}.

Definition zeros (dt : dtype) (sh : list nat) : @arrval ZKernel :=
  {| av_dtype := dt; av_shape := sh; av_flat := (replicate (prod_shape sh) 0 : list (@elt ZKernel)) |}.

Definition ZService : @TransformService ZKernel := {|
  fft_rfft := fun v n _ _ =>
    zeros complex128 (shape_init (av_shape v) ++ [Z.to_nat (fft__n_bins n)]);
  fft_irfft := fun v n _ _ =>
    zeros float64 (shape_init (av_shape v) ++ [Z.to_nat n]);
  fft_normalization := fun v _ _ _ _ => v
|}.

Definition empty_world `{Kernel} : world :=
  {| bufs := []; objs := []; log := [] |}.


(** ** Concrete worlds, built by running the constructors *)

Section ConcreteWorlds.
#[local] Existing Instance ZKernel.
#[local] Existing Instance ZService.

(** [np.arange(n).reshape(sh)] of dtype [dt] *)
Definition arange (dt : dtype) (sh : list nat) : M ndarray :=
  np_alloc dt sh (map Z.of_nat (seq 0 (prod_shape sh))).

(** a time-domain Signal of the given buffer shape *)
Definition signal_of_shape (sh : list nat) (sr : rate)
           (norm : option string) : M ref :=
  do a <- arange float64 sh;
  Signal.new a sr None "time" norm None float64.

(** one Signal of shape (2, 8) sampled at 8 Hz, in the time domain *)
Definition world_2x8 : world :=
  Eval vm_compute in fst (signal_of_shape [2; 8]%nat (Hz 8) None empty_world).

(** the same Signal after its frequency data was read *)
Definition world_2x8_freq : world :=
  Eval vm_compute in fst (Signal.freq 0%nat world_2x8).


(** a Signal sampled at 48000 Hz and one sampled at 44100 Hz, of four
    samples each, and a boolean scalar *)
Definition world_two_rates : world :=
  Eval vm_compute in
    fst ((do_ signal_of_shape [1; 4]%nat (Hz 48000) None;
          do_ signal_of_shape [1; 4]%nat (Hz 44100) None;
          np_alloc bool_ [] [1]) empty_world).

Definition true_scalar : ndarray :=
  {| base := 6; offs := [0%nat]; shape := []; dtype_of := bool_ |}.

(** a Signal with 1024 samples at 48000 Hz with normalization "rms",
    and the scalar 2.0 *)
Definition world_rms : world :=
  Eval vm_compute in
    fst ((do_ signal_of_shape [1; 1024]%nat (Hz 48000) (Some "rms");
          np_alloc float64 [] [2]) empty_world).

Definition two_scalar : ndarray :=
  {| base := 3; offs := [0%nat]; shape := []; dtype_of := float64 |}.

(** a Signal with a single sample, and an array of three numbers *)
Definition world_one_sample : world :=
  Eval vm_compute in
    fst ((do_ signal_of_shape [1; 1]%nat (Hz 48000) None;
          np_alloc float64 [3%nat] [1; 2; 3]) empty_world).

Definition three_numbers : ndarray :=
  {| base := 3; offs := [0; 1; 2]%nat; shape := [3%nat];
     dtype_of := float64 |}.

(** a Signal of shape (2, 4) and a Signal of shape (1, 4) holding
    nines, both at 48000 Hz *)
Definition world_assign : world :=
  Eval vm_compute in
    fst ((do_ signal_of_shape [2; 4]%nat (Hz 48000) None;
          do a <- np_alloc float64 [1; 4]%nat [9; 9; 9; 9];
          Signal.new a (Hz 48000) None "time" None None float64)
           empty_world).

(** an unsigned 8-bit scalar *)
Definition world_uint8 : world :=
  Eval vm_compute in
    fst ((do_ signal_of_shape [1; 4]%nat (Hz 48000) None;
          np_alloc uint8 [] [2]) empty_world).

Definition uint8_scalar : ndarray :=
  {| base := 3; offs := [0%nat]; shape := []; dtype_of := uint8 |}.



Definition sig_2x8 : SignalObj :=
  Eval vm_compute in nth 0 (objs world_2x8) uninitialised.

Definition sig_2x8_freq : SignalObj :=
  Eval vm_compute in nth 0 (objs world_2x8_freq) uninitialised.

(** four bins written into the Signal of eight samples (five bins);
    the array lives in the buffer of the Signal's own data *)
Definition four_bins : ndarray :=
  {| base := 0; offs := seq 0 8; shape := [2; 4]%nat;
     dtype_of := complex128 |}.

Definition sig_48000 : SignalObj :=
  Eval vm_compute in nth 0 (objs world_two_rates) uninitialised.

Definition sig_44100 : SignalObj :=
  Eval vm_compute in nth 1 (objs world_two_rates) uninitialised.

Definition sig_2x4 : SignalObj :=
  Eval vm_compute in nth 0 (objs world_assign) uninitialised.

Definition sig_nines : SignalObj :=
  Eval vm_compute in nth 1 (objs world_assign) uninitialised.



Definition sig_rms : SignalObj :=
  Eval vm_compute in nth 0 (objs world_rms) uninitialised.

Definition world_rms_product : world :=
  Eval vm_compute in
    fst (multiply (Tuple [Sig 0%nat; Arr two_scalar]) "freq" world_rms).

Definition sig_rms_product : SignalObj :=
  Eval vm_compute in nth 1 (objs world_rms_product) uninitialised.

Definition world_one_sample_sum : world :=
  Eval vm_compute in
    fst (add (Tuple [Sig 0%nat; Arr three_numbers]) "time" world_one_sample).

Definition world_sliced : world :=
  Eval vm_compute in fst (Signal.__getitem__ 0%nat (KInt 0) world_assign).

Definition world_sliced_assigned : world :=
  Eval vm_compute in
    fst (Signal.__setitem__ 2%nat (KInt 0) (Sig 1%nat) world_sliced).

Definition yielded_assign : list (ref * SignalObj) :=
  Eval vm_compute in
    match snd (iterate 3 0%nat world_assign) with
    | Return l => l
    | Raise _ => []
    end.

Definition world_assign_copied : world :=
  Eval vm_compute in fst (Signal.copy 0%nat world_assign).

(** a Signal of one channel with seven samples, sampled at 7 Hz *)
Definition world_1x7 : world :=
  Eval vm_compute in fst (signal_of_shape [1; 7]%nat (Hz 7) None empty_world).

Definition sig_1x7 : SignalObj :=
  Eval vm_compute in nth 0 (objs world_1x7) uninitialised.

(** [np.arange(16).reshape(2, 8)] on its own *)
Definition world_arange_2x8 : world :=
  Eval vm_compute in fst (arange float64 [2; 8]%nat empty_world).

Definition arange_2x8 : ndarray :=
  {| base := 0; offs := seq 0 16; shape := [2; 8]%nat; dtype_of := float64 |}.


(** an iterator over the Signal of shape (2, 4), and the world after
    the Signal was then converted to the frequency domain *)
Definition world_iter : world :=
  Eval vm_compute in fst (Signal__iter__ 0%nat world_assign).

Definition iter_2x4 : SignalIteratorObj :=
  {| _array_iterator := {| it_array := _data sig_2x4; it_pos := 0 |};
     _signal := 0%nat; _iterated_sig := 2%nat |}.

Definition world_iter_converted : world :=
  Eval vm_compute in fst (Signal.domain_setter 0%nat "freq" world_iter).

(** the array of three numbers added to itself *)
Definition world_arrays_sum : world :=
  Eval vm_compute in
    fst (add (Tuple [Arr three_numbers; Arr three_numbers]) "time"
             world_one_sample).

Definition arrays_sum : ndarray :=
  {| base := 4; offs := [0; 1; 2]%nat; shape := [3%nat];
     dtype_of := float64 |}.

(** a Signal of channel shape (2, 3) with four samples *)
Definition world_2x3x4 : world :=
  Eval vm_compute in
    fst (signal_of_shape [2; 3; 4]%nat (Hz 48000) None empty_world).

Definition sig_2x3x4 : SignalObj :=
  Eval vm_compute in nth 0 (objs world_2x3x4) uninitialised.
End ConcreteWorlds.

(** * Properties *)

Local Open Scope list_scope.

(** ** The monad *)

Section MonadFacts.
Context `{Kernel}.

Lemma bind_Return {A B} (m : M A) (k : A -> M B) w w1 a :
  m w = (w1, Return a) -> bind m k w = k a w1.
Proof. intros E. unfold bind. now rewrite E. Qed.

Lemma bind_Raise {A B} (m : M A) (k : A -> M B) w w1 e :
  m w = (w1, Raise e) -> bind m k w = (w1, Raise e).
Proof. intros E. unfold bind. now rewrite E. Qed.

Lemma bind_inv {A B} (m : M A) (k : A -> M B) w w' o :
  bind m k w = (w', o) ->
  (exists w1 a, m w = (w1, Return a) /\ k a w1 = (w', o)) \/
  (exists e, m w = (w', Raise e) /\ o = Raise e).
Proof.
  unfold bind. destruct (m w) as [w1 [e|a]]; intros E.
  - right. exists e. now inversion E.
  - left. now exists w1, a.
Qed.

Lemma bind_inv_Return {A B} (m : M A) (k : A -> M B) w w' b :
  bind m k w = (w', Return b) ->
  exists w1 a, m w = (w1, Return a) /\ k a w1 = (w', Return b).
Proof.
  intros E. apply bind_inv in E as [E|(e & _ & E)]; [exact E|discriminate].
Qed.

Lemma np_atleast_2d_idem a : np_atleast_2d (np_atleast_2d a) = np_atleast_2d a.
Proof.
  unfold np_atleast_2d. destruct a as [b o sh dt]; simpl.
  destruct sh as [|x [|y sh]]; reflexivity.
Qed.

Lemma np_atleast_2d_base a : base (np_atleast_2d a) = base a.
Proof.
  unfold np_atleast_2d. destruct (shape a) as [|x [|y sh]]; reflexivity.
Qed.

Lemma np_atleast_2d_offs a : offs (np_atleast_2d a) = offs a.
Proof.
  unfold np_atleast_2d. destruct (shape a) as [|x [|y sh]]; reflexivity.
Qed.

Lemma np_atleast_2d_dtype a : dtype_of (np_atleast_2d a) = dtype_of a.
Proof.
  unfold np_atleast_2d. destruct (shape a) as [|x [|y sh]]; reflexivity.
Qed.

Lemma buf_read_atleast_2d h a : buf_read h (np_atleast_2d a) = buf_read h a.
Proof.
  unfold buf_read. now rewrite np_atleast_2d_base, np_atleast_2d_offs.
Qed.
End MonadFacts.

(** ** Running the primitives *)

Section RunFacts.
Context `{Kernel}.

Lemma run_ret {A B} (a : A) (k : A -> M B) w : bind (ret a) k w = k a w.
Proof. reflexivity. Qed.

Lemma run_raise {A B} e (k : A -> M B) w : bind (raise e) k w = (w, Raise e).
Proof. reflexivity. Qed.



Lemma run_get_obj {B} r s (k : SignalObj -> M B) w :
  objs w !! r = Some s -> bind (get_obj r) k w = k s w.
Proof. intros E. unfold bind, get_obj. now rewrite E. Qed.

Lemma run_put_obj {B} r s (k : unit -> M B) w :
  bind (put_obj r s) k w =
  k tt {| bufs := bufs w; objs := <[r := s]> (objs w); log := log w |}.
Proof. reflexivity. Qed.

Lemma run_emit {B} ev (k : unit -> M B) w :
  bind (emit ev) k w =
  k tt {| bufs := bufs w; objs := objs w; log := log w ++ [ev] |}.
Proof. reflexivity. Qed.

Lemma run_bind_assoc {A B C} (m : M A) (f : A -> M B) (g : B -> M C) w :
  bind (bind m f) g w = bind m (fun a => bind (f a) g) w.
Proof. unfold bind. destruct (m w) as [w1 [e|a]]; reflexivity. Qed.

Lemma lookup_put r s (l : list SignalObj) s0 :
  l !! r = Some s0 -> <[r := s]> l !! r = Some s.
Proof.
  intros E. apply list_lookup_insert_eq. eapply lookup_lt_Some; eauto.
Qed.

Lemma run_np_alloc {B} dt sh flat (k : ndarray -> M B) w :
  bind (np_alloc dt sh flat) k w =
  k {| base := length (bufs w); offs := seq 0 (length flat);
       shape := sh; dtype_of := dt |}
    {| bufs := bufs w ++ [flat]; objs := objs w; log := log w |}.
Proof. reflexivity. Qed.

Lemma run_np_read {B} a flat (k : list elt -> M B) w :
  buf_read (bufs w) a = Some flat -> bind (np_read a) k w = k flat w.
Proof. intros E. unfold bind, np_read. now rewrite E. Qed.

Lemma mapM_lookup_seq (pre l : list elt) :
  mapM (fun i => (pre ++ l) !! i) (seq (length pre) (length l)) = Some l.
Proof.
  revert pre. induction l as [|x l IH]; intros pre; [reflexivity|].
  cbn [length seq mapM].
  rewrite lookup_app_r by lia. rewrite Nat.sub_diag. cbn [lookup list_lookup].
  specialize (IH (pre ++ [x])).
  rewrite <- app_assoc, length_app in IH. cbn [length app] in IH.
  rewrite Nat.add_1_r in IH. rewrite IH. reflexivity.
Qed.

(** a freshly allocated array reads back what was stored *)
Lemma buf_read_fresh (h : list (list elt)) ext sh dt flat :
  buf_read (h ++ flat :: ext)
           {| base := length h; offs := seq 0 (length flat);
              shape := sh; dtype_of := dt |} = Some flat.
Proof.
  unfold buf_read. cbn [base offs].
  rewrite lookup_app_r by lia. rewrite Nat.sub_diag. cbn [lookup list_lookup].
  apply (mapM_lookup_seq [] flat).
Qed.

Lemma buf_read_fresh_array (w : world) (v : arrval) ext :
  buf_read (bufs w ++ av_flat v :: ext) (fresh_array w v) = Some (av_flat v).
Proof. apply buf_read_fresh. Qed.

(** allocation does not disturb what existing views read *)
Lemma buf_read_extend (h ext : list (list elt)) a flat :
  buf_read h a = Some flat -> buf_read (h ++ ext) a = Some flat.
Proof.
  unfold buf_read. destruct (h !! base a) as [b|] eqn:E; [|discriminate].
  rewrite lookup_app_l by (eapply lookup_lt_Some; eauto). now rewrite E.
Qed.

Lemma count_rfft_app l1 l2 :
  count_rfft (l1 ++ l2) = (count_rfft l1 + count_rfft l2)%nat.
Proof.
  induction l1 as [|ev l1 IH]; [reflexivity|].
  destruct ev; cbn; rewrite IH; reflexivity.
Qed.
End RunFacts.

(** one step of symbolic execution of the primitives that need no side
    condition *)
Ltac mrun :=
  repeat first
    [ rewrite run_bind_assoc | rewrite run_ret | rewrite run_raise
    | rewrite run_put_obj | rewrite run_emit | rewrite run_np_alloc ].

(** reduce the projections of updated objects *)
Ltac sig_simpl :=
  cbn [_data _domain _dtype _comment _sampling_rate _n_samples _fft_norm
       set__data set__domain set__dtype set__comment set__sampling_rate
       set__n_samples set__fft_norm].

Section RunCalls.
Context `{TransformService}.

Lemma run_fft__rfft {B} data n sr norm flat (k : ndarray -> M B) w :
  buf_read (bufs w) data = Some flat ->
  bind (fft__rfft data n sr norm) k w =
  k (fresh_array w (fft_rfft (value_of data flat) n sr norm))
    {| bufs := bufs w ++ [av_flat (fft_rfft (value_of data flat) n sr norm)];
       objs := objs w; log := log w ++ [Call_rfft n sr norm] |}.
Proof.
  intros E. unfold fft__rfft, np_value.
  mrun. rewrite (run_np_read _ _ _ _ E). unfold np_of_value. mrun.
  reflexivity.
Qed.

Lemma run_fft__irfft {B} data n sr norm flat (k : ndarray -> M B) w :
  buf_read (bufs w) data = Some flat ->
  bind (fft__irfft data n sr norm) k w =
  k (fresh_array w (fft_irfft (value_of data flat) n sr norm))
    {| bufs := bufs w ++ [av_flat (fft_irfft (value_of data flat) n sr norm)];
       objs := objs w; log := log w ++ [Call_irfft n sr norm] |}.
Proof.
  intros E. unfold fft__irfft, np_value.
  mrun. rewrite (run_np_read _ _ _ _ E). unfold np_of_value. mrun.
  reflexivity.
Qed.

Lemma run_fft__normalization {B} data n sr norm inv flat
      (k : ndarray -> M B) w :
  buf_read (bufs w) data = Some flat ->
  bind (fft__normalization data n sr norm inv) k w =
  k (fresh_array w (fft_normalization (value_of data flat) n sr norm inv))
    {| bufs := bufs w ++
               [av_flat (fft_normalization (value_of data flat) n sr norm inv)];
       objs := objs w;
       log := log w ++ [Call_normalization n sr norm inv] |}.
Proof.
  intros E. unfold fft__normalization, np_value.
  mrun. rewrite (run_np_read _ _ _ _ E). unfold np_of_value. mrun.
  reflexivity.
Qed.
End RunCalls.

(** ** Writing the frequency data *)

Section FreqWrite.
Context `{TransformService}.

Lemma run_freq_setter (w : world) (self : ref) (s : SignalObj)
        (value : ndarray) :
  objs w !! self = Some s ->
  let new_bins := Z.of_nat (shape_last (shape (np_atleast_2d value))) in
  exists w' s',
    Signal.freq_setter self value w = (w', Return tt) /\
    objs w' = <[self := s']> (objs w) /\
    bufs w' = bufs w /\
    _data s' = np_atleast_2d value /\
    _domain s' = "freq" /\
    (new_bins <> Signal.n_bins s ->
       _n_samples s' = 2 * (new_bins - 1) /\
       exists msg, log w' = log w ++ [Warning msg]) /\
    (new_bins = Signal.n_bins s ->
       _n_samples s' = _n_samples s /\ log w' = log w).
Proof.
  intros Hs new_bins.
  unfold Signal.freq_setter, FrequencyData.freq_setter.
  rewrite run_bind_assoc, (run_get_obj _ _ _ _ Hs), run_put_obj.
  erewrite run_get_obj by (cbn [objs]; eapply lookup_put; eauto).
  cbn [_data set__domain set__data]. rewrite np_atleast_2d_idem.
  fold new_bins.
  change (Signal.n_bins (set__domain (set__data s (np_atleast_2d value)) "freq"))
    with (Signal.n_bins s).
  destruct (new_bins =? Signal.n_bins s) eqn:E.
  - apply Z.eqb_eq in E.
    rewrite run_ret.
    erewrite run_get_obj by (cbn [objs]; eapply lookup_put; eauto).
    eexists _, _. split; [reflexivity|]. cbn [objs bufs log].
    rewrite list_insert_insert_eq.
    do 4 (split; [reflexivity|]).
    split; intros E'; [contradiction|]. split; reflexivity.
  - apply Z.eqb_neq in E.
    unfold warnings_warn.
    rewrite run_bind_assoc, run_emit, run_ret.
    erewrite run_get_obj by (cbn [objs]; eapply lookup_put; eauto).
    eexists _, _. split; [reflexivity|]. cbn [objs bufs log].
    rewrite list_insert_insert_eq.
    do 4 (split; [reflexivity|]).
    split; intros E'; [|contradiction].
    split; [cbn; lia|eexists; reflexivity].
Qed.

(** C5: a frequency-domain write replaces the buffer without any
    transform: no buffer is allocated and the log gains no call into
    the transform service; when the trailing-axis length of the
    written data differs from the current bin count the sample count
    becomes 2*(new_bin_count - 1) and one warning is emitted; when it
    equals the current bin count the sample count is kept and nothing
    is logged. *)
Theorem freq_write_sample_count (w : world) (self : ref) (s : SignalObj)
        (value : ndarray) :
  objs w !! self = Some s ->
  let new_bins := Z.of_nat (shape_last (shape (np_atleast_2d value))) in
  exists w' s',
    Signal.freq_setter self value w = (w', Return tt) /\
    objs w' = <[self := s']> (objs w) /\
    bufs w' = bufs w /\
    count_rfft (log w') = count_rfft (log w) /\
    (forall ev, In ev (log w') ->
       In ev (log w) \/ exists msg, ev = Warning msg) /\
    _data s' = np_atleast_2d value /\
    _domain s' = "freq" /\
    (new_bins <> Signal.n_bins s ->
       _n_samples s' = 2 * (new_bins - 1) /\
       exists msg, log w' = log w ++ [Warning msg]) /\
    (new_bins = Signal.n_bins s ->
       _n_samples s' = _n_samples s /\ log w' = log w).
Proof.
  intros Hs new_bins.
  destruct (run_freq_setter w self s value Hs)
    as (w' & s' & R & O & B & D & Dom & Hne & Heq).
  exists w', s'. do 3 (split; [assumption|]).
  assert (Hlog : log w' = log w \/ exists msg, log w' = log w ++ [Warning msg]).
  { destruct (Z.eq_dec
                (Z.of_nat (shape_last (shape (np_atleast_2d value))))
                (Signal.n_bins s)) as [E|E].
    - left. apply (Heq E).
    - right. apply (Hne E). }
  split.
  { destruct Hlog as [->|[msg ->]]; [reflexivity|].
    rewrite count_rfft_app. cbn. lia. }
  split.
  { intros ev Hin. destruct Hlog as [E|[msg E]]; rewrite E in Hin; [auto|].
    apply in_app_or in Hin as [Hin|[<-|[]]]; eauto. }
  split; [exact D|]. split; [exact Dom|]. split; [exact Hne|exact Heq].
Qed.
End FreqWrite.

(** ** Reading the frequency data *)

Section FreqRead.
Context `{TransformService}.

(** C3: for a Signal in the time domain, the first read of the
    frequency data calls the forward transform once, stores its result
    as the buffer and sets the domain tag to "freq"; a second read
    returns the same buffer and leaves the world, hence the log of
    transform calls, as it is. *)
Theorem freq_read_twice_transforms_once (w : world) (self : ref)
        (s : SignalObj) (flat : list elt) :
  objs w !! self = Some s ->
  _domain s = "time" ->
  buf_read (bufs w) (_data s) = Some flat ->
  let spectrum :=
    fft_rfft (value_of (_data s) flat) (_n_samples s) (_sampling_rate s)
             (_fft_norm s) in
  exists w1 s1,
    (* the first read converts the buffer and updates the domain tag *)
    Signal.freq self w = (w1, Return (_data s1)) /\
    objs w1 !! self = Some s1 /\
    _domain s1 = "freq" /\
    _data s1 = np_atleast_2d (fresh_array w spectrum) /\
    buf_read (bufs w1) (_data s1) = Some (av_flat spectrum) /\
    count_rfft (log w1) = S (count_rfft (log w)) /\
    (* the second read returns the cached buffer and changes nothing *)
    Signal.freq self w1 = (w1, Return (_data s1)).
Proof.
  intros Hs Hdom Hbuf spectrum.
  unfold Signal.freq at 1, Signal.domain_setter.
  cbn [str_in existsb _VALID_DOMAINS negb].
  replace (String.eqb "freq" "time") with false by reflexivity.
  replace (String.eqb "freq" "freq") with true by reflexivity.
  cbn [orb negb].
  mrun. rewrite (run_get_obj _ _ _ _ Hs). rewrite Hdom.
  replace (String.eqb "time" "freq") with false by reflexivity.
  cbn [negb]. mrun.
  rewrite (run_fft__rfft _ _ _ _ _ _ _ Hbuf).
  fold (Signal.n_samples s). 
  destruct (run_freq_setter
              {| bufs := bufs w ++ [av_flat spectrum]; objs := objs w;
                 log := log w ++ [Call_rfft (_n_samples s) (_sampling_rate s) (_fft_norm s)] |}
              self s (fresh_array w spectrum) Hs)
    as (w1 & s1 & Hrun & Hobjs & Hbufs & Hdata & Hdom1 & Hne & Heq).
  cbn [bufs objs log] in *.
  change (Signal.n_samples s) with (_n_samples s).
  fold spectrum.
  rewrite (bind_Return _ _ _ _ _ Hrun).
  assert (Hs1 : objs w1 !! self = Some s1)
    by (rewrite Hobjs; eapply lookup_put; eauto).
  rewrite (run_get_obj _ _ _ _ Hs1). 
  exists w1, s1. split; [reflexivity|].
  split; [exact Hs1|]. split; [exact Hdom1|]. split; [exact Hdata|].
  split.
  { rewrite Hdata, buf_read_atleast_2d, Hbufs. apply (buf_read_fresh _ []). }
  split.
  { destruct (Z.eq_dec (Z.of_nat (shape_last (shape (np_atleast_2d (fresh_array w spectrum)))))
                       (Signal.n_bins s)) as [E|E].
    - destruct (Heq E) as [_ ->]. rewrite count_rfft_app. cbn. lia.
    - destruct (Hne E) as [_ [msg ->]]. rewrite !count_rfft_app. cbn. lia. }
  unfold Signal.freq, Signal.domain_setter.
  cbn [str_in existsb _VALID_DOMAINS negb].
  replace (String.eqb "freq" "time") with false by reflexivity.
  replace (String.eqb "freq" "freq") with true by reflexivity.
  cbn [orb negb].
  mrun. rewrite (run_get_obj _ _ _ _ Hs1). rewrite Hdom1.
  replace (String.eqb "freq" "freq") with true by reflexivity.
  cbn [negb]. mrun. rewrite (run_get_obj _ _ _ _ Hs1). reflexivity.
Qed.
End FreqRead.

(** ** Setting the normalization *)

Section NormWrite.
Context `{TransformService}.

Lemma str_eqb_neq (a b : string) : a <> b -> String.eqb a b = false.
Proof. intros E. now apply String.eqb_neq. Qed.

(** C4: setting a recognized normalization different from the current
    one transforms the buffer exactly when the signal is in the
    frequency domain, by one inverse normalization with the old
    convention followed by one forward normalization with the new one;
    in any other domain only the label changes; an unrecognized name
    raises ValueError and leaves the world as it is. *)
Theorem fft_norm_write (w : world) (self : ref) (s : SignalObj)
        (flat : list elt) (value : string) :
  objs w !! self = Some s ->
  buf_read (bufs w) (_data s) = Some flat ->
  let n := _n_samples s in
  let sr := _sampling_rate s in
  let denormalized :=
    fft_normalization (value_of (_data s) flat) n sr (_fft_norm s) true in
  let renormalized :=
    fft_normalization
      (value_of (fresh_array w denormalized) (av_flat denormalized))
      n sr value false in
  (* an unrecognized name: ValueError, nothing changed *)
  (str_in value _VALID_FFT_NORMS = false ->
     Signal.fft_norm_setter self value w =
     (w, Raise (ValueError (invalid_fft_norm_message value)))) /\
  (str_in value _VALID_FFT_NORMS = true -> value <> _fft_norm s ->
     (* frequency domain: inverse with the old, forward with the new *)
     (_domain s = "freq" ->
        Signal.fft_norm_setter self value w =
        ({| bufs := bufs w ++ [av_flat denormalized; av_flat renormalized];
            objs := <[self :=
                        set__fft_norm
                          (set__data s
                             {| base := S (length (bufs w));
                                offs := seq 0 (length (av_flat renormalized));
                                shape := av_shape renormalized;
                                dtype_of := av_dtype renormalized |})
                          value]> (objs w);
            log := log w ++ [Call_normalization n sr (_fft_norm s) true;
                             Call_normalization n sr value false] |},
         Return tt)) /\
     (* any other domain: only the label changes *)
     (_domain s <> "freq" ->
        Signal.fft_norm_setter self value w =
        ({| bufs := bufs w;
            objs := <[self := set__fft_norm s value]> (objs w);
            log := log w |}, Return tt))).
Proof.
  intros Hs Hbuf n sr denormalized renormalized. split.
  - intros Hbad. unfold Signal.fft_norm_setter. now rewrite Hbad.
  - intros Hok Hne. unfold Signal.fft_norm_setter. rewrite Hok. cbn [negb].
    rewrite (run_get_obj _ _ _ _ Hs).
    rewrite (str_eqb_neq (_fft_norm s) value) by congruence. cbn [negb andb].
    split.
    + intros Hdom. rewrite Hdom.
      replace (String.eqb "freq" "freq") with true by reflexivity.
      mrun.
      rewrite (run_fft__normalization _ _ _ _ _ _ _ _ Hbuf). mrun.
      erewrite run_get_obj by (cbn [objs]; eapply lookup_put; eauto).
      cbn [_data set__data _n_samples _sampling_rate _fft_norm bufs objs log].
      mrun.
      erewrite run_fft__normalization
        by (cbn [bufs]; apply buf_read_fresh_array).
      mrun.
      erewrite run_get_obj
        by (cbn [objs]; rewrite list_insert_insert_eq; eapply lookup_put;
            eauto).
      cbn [bufs objs log]. unfold put_obj. cbn [bufs objs log].
      rewrite !list_insert_insert_eq, <- !app_assoc.
      subst denormalized renormalized n sr. unfold fresh_array. cbn [bufs].
      rewrite length_app. cbn [length app]. rewrite Nat.add_1_r.
      reflexivity.
    + intros Hdom. rewrite (str_eqb_neq _ _ Hdom).
      mrun. rewrite (run_get_obj _ _ _ _ Hs). reflexivity.
Qed.
End NormWrite.

(** ** Validation of the operands of the arithmetic functions *)

Section Validation.
Context `{TransformService}.

Lemma check_operands_Arr a rest domain meta w :
  check_operands (Arr a :: rest) domain meta w =
  if negb (dtype_in (dtype_of a) dtypes) then
    (w, Raise (ValueError ("Input must be of type Signal, " +:+
                           join ", " dtypes)))
  else if dtype_in (dtype_of a) ["complex64"; "complex128"]
          && String.eqb domain "time" then
    (w, Raise (ValueError
                 "Complex input can not be applied in the time domain."))
  else check_operands rest domain meta w.
Proof.
  cbn [check_operands].
  destruct (negb (dtype_in (dtype_of a) dtypes)); [reflexivity|].
  destruct (dtype_in (dtype_of a) ["complex64"; "complex128"]
            && String.eqb domain "time"); reflexivity.
Qed.

Lemma check_operands_Sig r s rest domain meta w :
  objs w !! r = Some s ->
  check_operands (Sig r :: rest) domain meta w =
  match meta with
  | None =>
      check_operands rest domain
        (Some (_sampling_rate s, _n_samples s, _fft_norm s)) w
  | Some (sampling_rate, n_samples, fft_norm) =>
      if negb (rate_eqb sampling_rate (_sampling_rate s)) then
        (w, Raise (ValueError "The sampling rates do not match."))
      else if negb (n_samples =? _n_samples s) then
        (w, Raise (ValueError "The number of samples does not match."))
      else
        check_operands rest domain
          (Some (sampling_rate, n_samples,
                 if negb (String.eqb (_fft_norm s) "none")
                    && String.eqb fft_norm "none"
                 then _fft_norm s else fft_norm)) w
  end.
Proof.
  intros Hs. cbn [check_operands]. rewrite (run_get_obj _ _ _ _ Hs).
  unfold Signal.sampling_rate, Signal.n_samples, TimeData.n_samples,
    FrequencyData.fft_norm.
  destruct meta as [[[sr n] norm]|].
  - destruct (negb (rate_eqb sr (_sampling_rate s))); [reflexivity|].
    destruct (negb (n =? _n_samples s)); reflexivity.
  - mrun.
    destruct (negb (String.eqb (_fft_norm s) "none")
              && String.eqb (_fft_norm s) "none"); reflexivity.
Qed.

Lemma check_operands_dangling r rest domain meta w :
  objs w !! r = None ->
  check_operands (Sig r :: rest) domain meta w = (w, Raise DanglingReference).
Proof.
  intros Hr. cbn [check_operands]. unfold bind at 1, get_obj.
  now rewrite Hr.
Qed.

(** validation never changes the world *)
Lemma check_operands_world items domain meta w w' o :
  check_operands items domain meta w = (w', o) -> w' = w.
Proof.
  revert meta. induction items as [|[r|a] rest IH]; intros meta E.
  - now inversion E.
  - destruct (objs w !! r) as [s|] eqn:Hr.
    + rewrite (check_operands_Sig _ _ _ _ _ _ Hr) in E.
      destruct meta as [[[sr n] norm]|]; [|eauto].
      destruct (negb (rate_eqb sr (_sampling_rate s))); [now inversion E|].
      destruct (negb (n =? _n_samples s)); [now inversion E|]. eauto.
    + rewrite (check_operands_dangling _ _ _ _ _ Hr) in E. now inversion E.
  - rewrite check_operands_Arr in E.
    destruct (negb (dtype_in (dtype_of a) dtypes)); [now inversion E|].
    destruct (dtype_in (dtype_of a) ["complex64"; "complex128"]
              && String.eqb domain "time"); [now inversion E|]. eauto.
Qed.

Lemma _assert_match_world data domain w w' o :
  _assert_match_for_arithmetic data domain w = (w', o) -> w' = w.
Proof.
  unfold _assert_match_for_arithmetic. destruct data as [items|].
  - destruct (negb (str_in domain ["time"; "freq"])).
    + intros E; now inversion E.
    + apply check_operands_world.
  - intros E; now inversion E.
Qed.

Lemma accepted_kind_checks dt domain :
  accepted_kind dt domain = true ->
  negb (dtype_in dt dtypes) = false /\
  dtype_in dt ["complex64"; "complex128"] && String.eqb domain "time" = false.
Proof.
  destruct dt; cbn [accepted_kind]; intros E; try discriminate E;
    (split; [reflexivity|]); try reflexivity.
  all: apply negb_true_iff in E; rewrite E; reflexivity.
Qed.

Lemma rejected_kind_checks dt domain :
  accepted_kind dt domain = false ->
  negb (dtype_in dt dtypes) = true \/
  (negb (dtype_in dt dtypes) = false /\
   dtype_in dt ["complex64"; "complex128"] && String.eqb domain "time" = true).
Proof.
  destruct dt; cbn [accepted_kind]; intros E; try discriminate E;
    try (left; reflexivity).
  all: right; apply negb_false_iff in E; rewrite E; split; reflexivity.
Qed.

(** an operand of an accepted kind is passed over by the loop *)
Lemma check_operands_skip pre a post domain meta w :
  accepted_kind (dtype_of a) domain = true ->
  check_operands (pre ++ Arr a :: post) domain meta w =
  check_operands (pre ++ post) domain meta w.
Proof.
  intros Hacc. revert meta.
  induction pre as [|[r|b] pre IH]; intros meta; cbn [app].
  - rewrite check_operands_Arr.
    destruct (accepted_kind_checks _ _ Hacc) as [-> ->]. reflexivity.
  - destruct (objs w !! r) as [s|] eqn:Hr.
    + rewrite !(check_operands_Sig _ _ _ _ _ _ Hr).
      destruct meta as [[[sr n] norm]|]; [|apply IH].
      destruct (negb (rate_eqb sr (_sampling_rate s))); [reflexivity|].
      destruct (negb (n =? _n_samples s)); [reflexivity|]. apply IH.
    + now rewrite !(check_operands_dangling _ _ _ _ _ Hr).
  - rewrite !check_operands_Arr.
    destruct (negb (dtype_in (dtype_of b) dtypes)); [reflexivity|].
    destruct (dtype_in (dtype_of b) ["complex64"; "complex128"]
              && String.eqb domain "time"); [reflexivity|]. apply IH.
Qed.

(** an operand of any other kind makes the loop raise ValueError *)
Lemma check_operands_reject pre a post domain meta w :
  accepted_kind (dtype_of a) domain = false ->
  operands_live w pre ->
  exists msg,
    check_operands (pre ++ Arr a :: post) domain meta w =
    (w, Raise (ValueError msg)).
Proof.
  intros Hrej Hlive. revert meta.
  induction pre as [|[r|b] pre IH]; intros meta; cbn [app].
  - rewrite check_operands_Arr.
    destruct (rejected_kind_checks _ _ Hrej) as [->|[-> ->]]; eauto.
  - destruct (Hlive r (or_introl eq_refl)) as [s Hr].
    rewrite (check_operands_Sig _ _ _ _ _ _ Hr).
    assert (Hlive' : operands_live w pre)
      by (intros r' Hin; apply Hlive; now right).
    destruct meta as [[[sr n] norm]|]; [|now apply IH].
    destruct (negb (rate_eqb sr (_sampling_rate s))); [eauto|].
    destruct (negb (n =? _n_samples s)); [eauto|]. now apply IH.
  - rewrite check_operands_Arr.
    assert (Hlive' : operands_live w pre)
      by (intros r' Hin; apply Hlive; now right).
    destruct (negb (dtype_in (dtype_of b) dtypes)); [eauto|].
    destruct (dtype_in (dtype_of b) ["complex64"; "complex128"]
              && String.eqb domain "time"); [eauto|]. now apply IH.
Qed.

(** C7 (as amended): a non-Signal operand of kind int8..int64, float32
    or float64, and in the frequency domain also complex64 or
    complex128, is accepted: validation goes on as if the operand were
    not there; a non-Signal operand of any other kind, unsigned
    integers included, and a complex operand in the time domain, make
    validation fail with ValueError. *)
Theorem non_signal_operand_kinds (pre post : list pyobj) (a : ndarray)
        (domain : string) (w : world) :
  operands_live w pre ->
  (accepted_kind (dtype_of a) domain = true ->
     _assert_match_for_arithmetic (Tuple (pre ++ Arr a :: post)) domain w =
     _assert_match_for_arithmetic (Tuple (pre ++ post)) domain w) /\
  (accepted_kind (dtype_of a) domain = false ->
     exists msg,
       _assert_match_for_arithmetic (Tuple (pre ++ Arr a :: post)) domain w =
       (w, Raise (ValueError msg))).
Proof.
  intros Hlive. unfold _assert_match_for_arithmetic. split; intros Hk.
  - destruct (negb (str_in domain ["time"; "freq"])); [reflexivity|].
    now apply check_operands_skip.
  - destruct (negb (str_in domain ["time"; "freq"])); [eauto|].
    now apply check_operands_reject.
Qed.
End Validation.

(** ** Signals that disagree on sampling rate or sample count *)

Section Mismatch.
Context `{TransformService}.

Lemma rate_eqb_refl a : rate_eqb a a = true.
Proof. unfold rate_eqb. apply Pos.eqb_refl. Qed.

Lemma rate_eqb_sym a b : rate_eqb a b = rate_eqb b a.
Proof. unfold rate_eqb. apply Pos.eqb_sym. Qed.

Lemma rate_eqb_trans a b c :
  rate_eqb a b = true -> rate_eqb b c = true -> rate_eqb a c = true.
Proof.
  unfold rate_eqb. rewrite !Pos.eqb_eq. intros E1 E2.
  apply (Pos.mul_reg_r _ _ (rate_den b)).
  rewrite <- Pos.mul_assoc, (Pos.mul_comm (rate_den c)), Pos.mul_assoc, E1.
  rewrite <- Pos.mul_assoc, (Pos.mul_comm (rate_den a)), Pos.mul_assoc, E2.
  rewrite <- !Pos.mul_assoc. f_equal. apply Pos.mul_comm.
Qed.

(** when validation returns, every Signal operand agrees with the
    returned sampling rate and sample count, which are those already
    fixed when the loop started, if any *)
Lemma check_operands_agree items domain meta w w' meta' :
  check_operands items domain meta w = (w', Return meta') ->
  (forall r s, In (Sig r) items -> objs w !! r = Some s ->
     exists sr n norm,
       meta' = Some (sr, n, norm) /\
       rate_eqb sr (_sampling_rate s) = true /\ n = _n_samples s) /\
  (forall sr n norm, meta = Some (sr, n, norm) ->
     exists norm', meta' = Some (sr, n, norm')).
Proof.
  revert meta. induction items as [|[r|a] rest IH]; intros meta E.
  - inversion E; subst. split; [intros ? ? []|]. intros sr n norm ->. eauto.
  - destruct (objs w !! r) as [s0|] eqn:Hr;
      [|rewrite (check_operands_dangling _ _ _ _ _ Hr) in E; discriminate E].
    rewrite (check_operands_Sig _ _ _ _ _ _ Hr) in E.
    destruct meta as [[[sr n] norm]|].
    + destruct (negb (rate_eqb sr (_sampling_rate s0))) eqn:Er;
        [discriminate E|].
      destruct (negb (n =? _n_samples s0)) eqn:En; [discriminate E|].
      apply negb_false_iff in Er. apply negb_false_iff, Z.eqb_eq in En.
      destruct (IH _ E) as [IH1 IH2].
      destruct (IH2 _ _ _ eq_refl) as [norm' ->].
      split.
      * intros r' s [Hin|Hin] Hs; [|exact (IH1 _ _ Hin Hs)].
        inversion Hin; subst r'. rewrite Hr in Hs. inversion Hs; subst s.
        eauto 6.
      * intros sr' n' norm'' Em. inversion Em; subst. eauto.
    + destruct (IH _ E) as [IH1 IH2].
      destruct (IH2 _ _ _ eq_refl) as [norm' ->].
      split; [|intros ? ? ? Em; discriminate Em].
      intros r' s [Hin|Hin] Hs; [|exact (IH1 _ _ Hin Hs)].
      inversion Hin; subst r'. rewrite Hr in Hs. inversion Hs; subst s.
      exists (_sampling_rate s0), (_n_samples s0), norm'.
      split; [reflexivity|]. split; [apply rate_eqb_refl|reflexivity].
  - rewrite check_operands_Arr in E.
    destruct (negb (dtype_in (dtype_of a) dtypes)); [discriminate E|].
    destruct (dtype_in (dtype_of a) ["complex64"; "complex128"]
              && String.eqb domain "time"); [discriminate E|].
    destruct (IH _ E) as [IH1 IH2]. split; [|exact IH2].
    intros r s [Hin|Hin] Hs; [discriminate Hin|exact (IH1 _ _ Hin Hs)].
Qed.

(** with live operands, validation raises nothing but ValueError; when
    moreover every non-Signal operand is of an accepted kind, it raises
    nothing but the two mismatch errors *)
Lemma check_operands_raises items domain meta w w' e :
  operands_live w items ->
  check_operands items domain meta w = (w', Raise e) ->
  (exists msg, e = ValueError msg) /\
  ((forall a, In (Arr a) items -> accepted_kind (dtype_of a) domain = true) ->
   metadata_mismatch e).
Proof.
  revert meta. induction items as [|[r|a] rest IH]; intros meta Hlive E.
  - discriminate E.
  - assert (Hlive' : operands_live w rest)
      by (intros r' Hin; apply Hlive; now right).
    destruct (Hlive r (or_introl eq_refl)) as [s0 Hr].
    rewrite (check_operands_Sig _ _ _ _ _ _ Hr) in E.
    assert (Hrest : forall m,
               check_operands rest domain m w = (w', Raise e) ->
               (exists msg, e = ValueError msg) /\
               ((forall a, In (Arr a) (Sig r :: rest) ->
                           accepted_kind (dtype_of a) domain = true) ->
                metadata_mismatch e)).
    { intros m Em. destruct (IH _ Hlive' Em) as [I1 I2]. split; [exact I1|].
      intros Hall. apply I2. intros a Hin. apply Hall. now right. }
    destruct meta as [[[sr n] norm]|]; [|eauto].
    destruct (negb (rate_eqb sr (_sampling_rate s0))).
    { inversion E; subst. split; [eauto|]. intros _. now left. }
    destruct (negb (n =? _n_samples s0)).
    { inversion E; subst. split; [eauto|]. intros _. now right. }
    eauto.
  - assert (Hlive' : operands_live w rest)
      by (intros r' Hin; apply Hlive; now right).
    rewrite check_operands_Arr in E.
    destruct (accepted_kind (dtype_of a) domain) eqn:Hk.
    + destruct (accepted_kind_checks _ _ Hk) as [E1 E2].
      rewrite E1, E2 in E. destruct (IH _ Hlive' E) as [I1 I2].
      split; [exact I1|]. intros Hall. apply I2. intros b Hin. apply Hall.
      now right.
    + assert (exists msg, e = ValueError msg) as Hv.
      { destruct (rejected_kind_checks _ _ Hk) as [E1|[E1 E2]].
        - rewrite E1 in E. inversion E; eauto.
        - rewrite E1, E2 in E. inversion E; eauto. }
      split; [exact Hv|]. intros Hall.
      rewrite (Hall a (or_introl eq_refl)) in Hk. discriminate Hk.
Qed.

(** validation cannot return when two Signal operands disagree *)
Lemma check_operands_disagree items domain w w' meta' r1 r2 s1 s2 :
  In (Sig r1) items -> In (Sig r2) items ->
  objs w !! r1 = Some s1 -> objs w !! r2 = Some s2 ->
  rate_eqb (_sampling_rate s1) (_sampling_rate s2) = false \/
  _n_samples s1 <> _n_samples s2 ->
  check_operands items domain None w <> (w', Return meta').
Proof.
  intros Hin1 Hin2 Hs1 Hs2 Hdiff E.
  destruct (check_operands_agree _ _ _ _ _ _ E) as [Hag _].
  destruct (Hag _ _ Hin1 Hs1) as (sr & n & norm & Em & Er1 & En1).
  destruct (Hag _ _ Hin2 Hs2) as (sr' & n' & norm' & Em' & Er2 & En2).
  rewrite Em in Em'. inversion Em'; subst sr' n' norm'.
  destruct Hdiff as [Hd|Hd].
  - rewrite rate_eqb_sym in Er1.
    rewrite (rate_eqb_trans _ _ _ Er1 Er2) in Hd. discriminate Hd.
  - apply Hd. congruence.
Qed.

(** C6 (as amended): when two Signal operands differ in sampling rate
    or in sample count, every arithmetic operation raises ValueError
    and leaves the world as it was, so that no transform and no numeric
    combination has taken place; the error is one of the two mismatch
    errors whenever the domain name is valid and every non-Signal
    operand is of an accepted kind. *)
Theorem mismatched_signals_rejected (items : list pyobj) (domain : string)
        (op : operation) (w : world) (r1 r2 : ref) (s1 s2 : SignalObj) :
  operands_live w items ->
  In (Sig r1) items -> In (Sig r2) items ->
  objs w !! r1 = Some s1 -> objs w !! r2 = Some s2 ->
  rate_eqb (_sampling_rate s1) (_sampling_rate s2) = false \/
  _n_samples s1 <> _n_samples s2 ->
  exists e,
    _arithmetic (Tuple items) domain op w = (w, Raise e) /\
    (exists msg, e = ValueError msg) /\
    (str_in domain ["time"; "freq"] = true ->
     (forall a, In (Arr a) items -> accepted_kind (dtype_of a) domain = true) ->
     metadata_mismatch e).
Proof.
  intros Hlive Hin1 Hin2 Hs1 Hs2 Hdiff.
  unfold _arithmetic, _assert_match_for_arithmetic.
  destruct (str_in domain ["time"; "freq"]) eqn:Hdom; cbn [negb].
  - destruct (check_operands items domain None w) as [w' [e|meta']] eqn:E.
    + pose proof (check_operands_world _ _ _ _ _ _ E) as ->.
      destruct (check_operands_raises _ _ _ _ _ _ Hlive E) as [Hv Hm].
      exists e. rewrite (bind_Raise _ _ _ _ _ E).
      split; [reflexivity|]. split; [exact Hv|]. intros _. exact Hm.
    + exfalso.
      exact (check_operands_disagree _ _ _ _ _ _ _ _ _
               Hin1 Hin2 Hs1 Hs2 Hdiff E).
  - eexists. split; [reflexivity|]. split; [eauto|]. intros Hd; discriminate Hd.
Qed.
End Mismatch.

(** ** Construction *)

Section TimeStamps.








End TimeStamps.

Section Allocation.
Context `{Kernel}.

Lemma dtype_eqb_eq a b : dtype_eqb a b = true <-> a = b.
Proof. destruct a, b; cbn; split; intros E; congruence. Qed.

Lemma allocates_refl w : allocates w w.
Proof. repeat split. exists []. now rewrite app_nil_r. Qed.

Lemma allocates_trans w1 w2 w3 :
  allocates w1 w2 -> allocates w2 w3 -> allocates w1 w3.
Proof.
  intros (O1 & L1 & e1 & B1) (O2 & L2 & e2 & B2).
  repeat split; [congruence|congruence|].
  exists (e1 ++ e2). now rewrite B2, B1, app_assoc.
Qed.

Lemma allocates_alloc w flat :
  allocates w {| bufs := bufs w ++ [flat]; objs := objs w; log := log w |}.
Proof. repeat split. now exists [flat]. Qed.

Lemma allocates_buf_read w w' a flat :
  allocates w w' -> buf_read (bufs w) a = Some flat ->
  buf_read (bufs w') a = Some flat.
Proof. intros (_ & _ & e & ->). apply buf_read_extend. Qed.

Lemma allocates_length w w' :
  allocates w w' -> (length (bufs w) <= length (bufs w'))%nat.
Proof. intros (_ & _ & e & ->). rewrite length_app. lia. Qed.

Lemma buf_read_base h a flat :
  buf_read h a = Some flat -> (base a < length h)%nat.
Proof.
  unfold buf_read. destruct (h !! base a) eqn:E; [|discriminate].
  intros _. eapply lookup_lt_Some; eauto.
Qed.

Lemma np_asarray_run a dt w flat :
  buf_read (bufs w) a = Some flat ->
  exists w' d,
    np_asarray a dt w = (w', Return d) /\
    allocates w w' /\ asarray_of w w' a dt d.
Proof.
  intros Hbuf. unfold np_asarray.
  destruct (dtype_eqb (dtype_of a) dt) eqn:E.
  - apply dtype_eqb_eq in E. exists w, a. split; [reflexivity|].
    split; [apply allocates_refl|].
    pose proof (buf_read_base _ _ _ Hbuf).
    repeat split; auto; try contradiction; rewrite Hbuf; eauto.
  - assert (Hne : dtype_of a <> dt).
    { intros Heq. apply dtype_eqb_eq in Heq. congruence. }
    eexists _, _. rewrite (run_np_read _ _ _ _ Hbuf).
    split; [reflexivity|]. split; [apply allocates_alloc|].
    repeat split; cbn [shape dtype_of base bufs]; auto; try contradiction;
      try (rewrite length_app; cbn; lia).
    rewrite (buf_read_fresh _ []). eauto.
Qed.

Lemma _Audio_init_run self domain c dt w :
  str_in domain _VALID_DOMAINS = true ->
  exists w' nan,
    _Audio.__init__ self domain c dt w =
    (w', Return (set__data
                   (set__domain
                      (set__dtype (set__comment self (default "none" c)) dt)
                      domain) nan)) /\
    allocates w w'.
Proof.
  intros Hd. unfold _Audio.__init__. rewrite Hd. rewrite run_np_alloc.
  eexists _, _. split; [reflexivity|]. apply allocates_alloc.
Qed.
End Allocation.

Section Constructor.
Context `{TransformService}.





End Constructor.

Section New.
Context `{TransformService}.



End New.

(** ** What a returned call tells about the worlds around it *)

Section Inversion.
Context `{TransformService}.

Lemma get_obj_inv r w w' s :
  get_obj r w = (w', Return s) -> w' = w /\ objs w !! r = Some s.
Proof.
  unfold get_obj. destruct (objs w !! r); intros E; inversion E; auto.
Qed.

Lemma np_read_inv a w w' l :
  np_read a w = (w', Return l) -> w' = w /\ buf_read (bufs w) a = Some l.
Proof.
  unfold np_read. destruct (buf_read (bufs w) a); intros E; inversion E; auto.
Qed.

Lemma buffers_allocated_alloc w flat :
  buffers_allocated w ->
  buffers_allocated
    {| bufs := bufs w ++ [flat]; objs := objs w; log := log w |}.
Proof.
  intros Hw r s Hs. specialize (Hw r s Hs). cbn [bufs].
  rewrite length_app. lia.
Qed.

Lemma buffers_allocated_log w l :
  buffers_allocated w ->
  buffers_allocated {| bufs := bufs w; objs := objs w; log := l |}.
Proof. intros Hw r s Hs. exact (Hw r s Hs). Qed.

Lemma unshared_alloc w dt sh flat l :
  buffers_allocated w ->
  unshared {| bufs := bufs w ++ [flat]; objs := objs w; log := l |}
           {| base := length (bufs w); offs := seq 0 (length flat);
              shape := sh; dtype_of := dt |}.
Proof.
  intros Hw. split; cbn [base bufs].
  - intros r s Hs. exact (Hw r s Hs).
  - rewrite length_app. cbn. lia.
Qed.

Lemma buffers_allocated_ext w w' :
  objs w' = objs w -> (length (bufs w) <= length (bufs w'))%nat ->
  buffers_allocated w -> buffers_allocated w'.
Proof.
  intros O L Hw r s Hs. rewrite O in Hs. specialize (Hw r s Hs). lia.
Qed.

Lemma unshared_fresh w w' d :
  objs w' = objs w -> base d = length (bufs w) ->
  (base d < length (bufs w'))%nat ->
  buffers_allocated w -> unshared w' d.
Proof.
  intros O B L Hw. split; [|exact L].
  intros r s Hs. rewrite O in Hs. specialize (Hw r s Hs). lia.
Qed.

Lemma unshared_allocated w d : unshared w d -> buffers_allocated w.
Proof. intros [Hb Hl] r s Hs. specialize (Hb r s Hs). lia. Qed.

(** replacing the buffer of an object by a newly allocated one *)
Lemma buffers_allocated_put w r s l h :
  buffers_allocated {| bufs := h; objs := objs w; log := l |} ->
  (base (_data s) < length h)%nat ->
  buffers_allocated {| bufs := h; objs := <[r := s]> (objs w); log := l |}.
Proof.
  intros Hw Hs r' s' Hl. cbn [objs bufs] in *.
  apply list_lookup_insert_Some in Hl as [(-> & <- & _)|[_ Hl]]; [exact Hs|].
  exact (Hw r' s' Hl).
Qed.

Lemma np_copy_inv a w w' d :
  np_copy a w = (w', Return d) ->
  exists flat,
    w' = {| bufs := bufs w ++ [flat]; objs := objs w; log := log w |} /\
    d = {| base := length (bufs w); offs := seq 0 (length flat);
           shape := shape a; dtype_of := dtype_of a |}.
Proof.
  unfold np_copy. intros E.
  apply bind_inv_Return in E as (w1 & flat & R & E).
  apply np_read_inv in R as [-> R]. unfold np_alloc in E.
  inversion E; subst. eauto.
Qed.

Lemma np_operate_inv op a b w w' d :
  np_operate op a b w = (w', Return d) ->
  exists flat sh dt,
    w' = {| bufs := bufs w ++ [flat]; objs := objs w;
            log := log w ++ [Call_operation op] |} /\
    broadcast_shapes (shape a) (shape b) = Some sh /\
    d = {| base := length (bufs w); offs := seq 0 (length flat);
           shape := sh; dtype_of := dt |}.
Proof.
  unfold np_operate. intros E.
  rewrite run_emit in E.
  apply bind_inv_Return in E as (w1 & fa & R & E).
  apply np_read_inv in R as [-> R].
  apply bind_inv_Return in E as (w1 & fb & R' & E).
  apply np_read_inv in R' as [-> R'].
  destruct (broadcast_shapes (shape a) (shape b)) as [sh|]; [|discriminate E].
  destruct (broadcast_to fa (shape a) sh); [|discriminate E].
  destruct (broadcast_to fb (shape b) sh); [|discriminate E].
  destruct (np_binop op (dtype_of a) l (dtype_of b) l0) as [e|[dt flat]];
    [discriminate E|].
  unfold np_alloc in E. cbn [bufs objs log] in E. inversion E; subst.
  eauto 6.
Qed.

Lemma fft__normalization_inv data n sr norm inv w w' d :
  fft__normalization data n sr norm inv w = (w', Return d) ->
  exists flat,
    buf_read (bufs w) data = Some flat /\
    w' = {| bufs := bufs w ++
                    [av_flat (fft_normalization (value_of data flat) n sr
                                                norm inv)];
            objs := objs w;
            log := log w ++ [Call_normalization n sr norm inv] |} /\
    d = fresh_array w (fft_normalization (value_of data flat) n sr norm inv).
Proof.
  intros E. destruct (buf_read (bufs w) data) as [flat|] eqn:Hb.
  - pose proof (run_fft__normalization data n sr norm inv flat ret w Hb) as R.
    unfold bind in R at 1. rewrite E in R. unfold ret in R.
    inversion R; subst. eauto.
  - unfold fft__normalization, np_value in E. rewrite run_bind_assoc in E.
    unfold bind at 1, np_read in E. rewrite Hb in E. discriminate E.
Qed.

Lemma fft__rfft_inv data n sr norm w w' d :
  fft__rfft data n sr norm w = (w', Return d) ->
  exists flat,
    buf_read (bufs w) data = Some flat /\
    w' = {| bufs := bufs w ++
                    [av_flat (fft_rfft (value_of data flat) n sr norm)];
            objs := objs w; log := log w ++ [Call_rfft n sr norm] |} /\
    d = fresh_array w (fft_rfft (value_of data flat) n sr norm).
Proof.
  intros E. destruct (buf_read (bufs w) data) as [flat|] eqn:Hb.
  - pose proof (run_fft__rfft data n sr norm flat ret w Hb) as R.
    unfold bind in R at 1. rewrite E in R. unfold ret in R.
    inversion R; subst. eauto.
  - unfold fft__rfft, np_value in E. rewrite run_bind_assoc in E.
    unfold bind at 1, np_read in E. rewrite Hb in E. discriminate E.
Qed.

Lemma fft__irfft_inv data n sr norm w w' d :
  fft__irfft data n sr norm w = (w', Return d) ->
  exists flat,
    buf_read (bufs w) data = Some flat /\
    w' = {| bufs := bufs w ++
                    [av_flat (fft_irfft (value_of data flat) n sr norm)];
            objs := objs w; log := log w ++ [Call_irfft n sr norm] |} /\
    d = fresh_array w (fft_irfft (value_of data flat) n sr norm).
Proof.
  intros E. destruct (buf_read (bufs w) data) as [flat|] eqn:Hb.
  - pose proof (run_fft__irfft data n sr norm flat ret w Hb) as R.
    unfold bind in R at 1. rewrite E in R. unfold ret in R.
    inversion R; subst. eauto.
  - unfold fft__irfft, np_value in E. rewrite run_bind_assoc in E.
    unfold bind at 1, np_read in E. rewrite Hb in E. discriminate E.
Qed.
End Inversion.

Section InitInversion.
Context `{TransformService}.

Lemma str_in_domains d :
  str_in d _VALID_DOMAINS = true -> d = "time" \/ d = "freq".
Proof.
  unfold str_in, _VALID_DOMAINS. cbn [existsb]. rewrite orb_false_r.
  intros E. apply orb_true_iff in E as [E|E]; apply String.eqb_eq in E; auto.
Qed.

Lemma np_asarray_inv a dt w w' d :
  np_asarray a dt w = (w', Return d) ->
  allocates w w' /\ shape d = shape a /\
  (d = a \/ (length (bufs w) <= base d)%nat).
Proof.
  unfold np_asarray. destruct (dtype_eqb (dtype_of a) dt).
  - intros E; inversion E; subst. split; [apply allocates_refl|]. auto.
  - intros E. apply bind_inv_Return in E as (w1 & flat & R & E).
    apply np_read_inv in R as [-> R]. unfold np_alloc in E.
    inversion E; subst. split; [apply allocates_alloc|]. cbn. auto.
Qed.

Lemma _Audio_init_inv self domain c dt w w' s' :
  _Audio.__init__ self domain c dt w = (w', Return s') ->
  allocates w w' /\ str_in domain _VALID_DOMAINS = true /\
  exists nan,
    s' = set__data
           (set__domain
              (set__dtype (set__comment self (default "none" c)) dt) domain)
           nan.
Proof.
  unfold _Audio.__init__.
  destruct (str_in domain _VALID_DOMAINS); [|discriminate].
  rewrite run_np_alloc. intros E. inversion E; subst.
  split; [apply allocates_alloc|]. eauto.
Qed.

(** what [Signal.__init__] leaves in the object when it returns *)
Lemma Signal_init_inv self data sr n domain norm c dt w w' s' :
  Signal.__init__ self data sr n domain norm c dt w = (w', Return s') ->
  objs w' = objs w /\
  (exists ext, bufs w' = bufs w ++ ext) /\
  (n <> None -> log w' = log w) /\
  (domain = "time" \/ domain = "freq") /\
  _sampling_rate s' = sr /\ _domain s' = domain /\ _dtype s' = dt /\
  _fft_norm s' = default "none" norm /\
  (domain = "time" ->
     _n_samples s' = Z.of_nat (shape_last (shape (_data s')))) /\
  (domain = "freq" -> forall k, n = Some k -> _n_samples s' = k) /\
  exists d,
    _data s' = np_atleast_2d d /\ shape d = shape data /\
    (d = data \/ (length (bufs w) <= base d)%nat).
Proof.
  unfold Signal.__init__. intros E.
  apply bind_inv_Return in E as (w1 & s1 & R1 & E).
  apply _Audio_init_inv in R1 as (A1 & Hd & nan1 & ->).
  destruct (str_in_domains _ Hd) as [->| ->].
  - replace (String.eqb "time" "time") with true in E by reflexivity.
    apply bind_inv_Return in E as (w2 & d1 & R2 & E).
    apply np_asarray_inv in R2 as (A2 & _ & _).
    destruct (str_in (default "none" norm) _VALID_FFT_NORMS);
      [|discriminate E].
    unfold TimeData.__init__ in E.
    apply bind_inv_Return in E as (w3 & s3 & R3 & E).
    apply _Audio_init_inv in R3 as (A3 & _ & nan3 & ->).
    apply bind_inv_Return in E as (w4 & d & R4 & E).
    apply np_asarray_inv in R4 as (A4 & Hsh & Hbase).
    match type of E with
    | (if ?b then _ else _) _ = _ => destruct b; [discriminate E|]
    end.
    match type of E with
    | (if ?b then _ else _) _ = _ => destruct b; [discriminate E|]
    end.
    inversion E; subst w' s'. clear E.
    pose proof (allocates_trans _ _ _ A1 (allocates_trans _ _ _ A2 A3)) as A'.
    destruct (allocates_trans _ _ _ A' A4) as (O & L & B).
    split; [exact O|]. split; [exact B|]. split; [auto|]. split; [auto|].
    sig_simpl. do 4 (split; [reflexivity|]).
    split; [reflexivity|]. split; [intros Hf; discriminate Hf|].
    exists d. split; [reflexivity|]. split; [exact Hsh|].
    destruct Hbase as [->|Hb]; [auto|]. right.
    pose proof (allocates_length _ _ A'). lia.
  - replace (String.eqb "freq" "time") with false in E by reflexivity.
    replace (String.eqb "freq" "freq") with true in E by reflexivity.
    apply bind_inv_Return in E as (w2 & d1 & R2 & E).
    apply np_asarray_inv in R2 as (A2 & _ & _).
    apply bind_inv_Return in E as (w2' & k & Rn & E).
    assert (Hn : objs w2' = objs w2 /\ bufs w2' = bufs w2 /\
                 (forall k', n = Some k' -> k = k') /\
                 (n <> None -> log w2' = log w2)).
    { destruct n as [k'|].
      - match type of Rn with
        | (if ?b then _ else _) _ = _ => destruct b; [discriminate Rn|]
        end.
        inversion Rn; subst. do 2 (split; [reflexivity|]).
        split; [|reflexivity]. intros ? Hk. now inversion Hk.
      - unfold warnings_warn in Rn. rewrite run_emit in Rn.
        inversion Rn; subst. cbn [objs bufs log].
        do 2 (split; [reflexivity|]).
        split; [intros ? Hk; discriminate Hk|]. intros Hk; contradiction. }
    destruct Hn as (On & Bn & Hk & Ln).
    unfold FrequencyData.__init__ in E.
    apply bind_inv_Return in E as (w3 & s3 & R3 & E).
    apply _Audio_init_inv in R3 as (A3 & _ & nan3 & ->).
    apply bind_inv_Return in E as (w4 & d & R4 & E).
    apply np_asarray_inv in R4 as (A4 & Hsh & Hbase).
    match type of E with
    | (if ?b then _ else _) _ = _ => destruct b; [discriminate E|]
    end.
    match type of E with
    | (if ?b then _ else _) _ = _ => destruct b; [discriminate E|]
    end.
    destruct (str_in (default "none" norm) _VALID_FFT_NORMS);
      [|discriminate E].
    inversion E; subst w' s'. clear E.
    destruct (allocates_trans _ _ _ A1 A2) as (O12 & L12 & e12 & B12).
    destruct (allocates_trans _ _ _ A3 A4) as (O34 & L34 & e34 & B34).
    split; [congruence|].
    split; [exists (e12 ++ e34); rewrite B34, Bn, B12, app_assoc; reflexivity|].
    split; [intros Hnn; rewrite L34, (Ln Hnn); exact L12|].
    split; [auto|].
    sig_simpl. do 4 (split; [reflexivity|]).
    split; [intros Hf; discriminate Hf|]. split; [intros _; exact Hk|].
    exists d. split; [reflexivity|]. split; [exact Hsh|].
    destruct Hbase as [->|Hb]; [auto|]. right.
    destruct A3 as (_ & _ & e3 & B3). rewrite B3, Bn, B12 in Hb.
    rewrite !length_app in Hb. lia.
Qed.

Lemma Signal_new_inv data sr n domain norm c dt w w' r :
  Signal.new data sr n domain norm c dt w = (w', Return r) ->
  r = length (objs w) /\
  (exists ext, bufs w' = bufs w ++ ext) /\
  (n <> None -> log w' = log w) /\
  (domain = "time" \/ domain = "freq") /\
  exists s' d,
    objs w' = objs w ++ [s'] /\
    _sampling_rate s' = sr /\ _domain s' = domain /\ _dtype s' = dt /\
    _fft_norm s' = default "none" norm /\
    (domain = "time" ->
       _n_samples s' = Z.of_nat (shape_last (shape (_data s')))) /\
    (domain = "freq" -> forall k, n = Some k -> _n_samples s' = k) /\
    _data s' = np_atleast_2d d /\ shape d = shape data /\
    (d = data \/ (length (bufs w) <= base d)%nat).
Proof.
  unfold Signal.new. intros E.
  apply bind_inv_Return in E as (w1 & s' & R & E).
  apply Signal_init_inv in R
    as (O & B & L & Hd & F1 & F2 & F3 & F4 & F5 & F6 & d & D1 & D2 & D3).
  unfold new_obj in E. inversion E; subst w' r. cbn [objs bufs log].
  rewrite O. split; [reflexivity|]. split; [exact B|]. split; [exact L|].
  split; [exact Hd|]. exists s', d. auto 12.
Qed.
End InitInversion.

Section ArithmeticInversion.
Context `{TransformService}.

Lemma operand_signals_Sig w r s rest :
  objs w !! r = Some s ->
  operand_signals w (Sig r :: rest) = s :: operand_signals w rest.
Proof. intros E. unfold operand_signals. cbn. now rewrite E. Qed.

Lemma operand_signals_Arr w a rest :
  operand_signals w (Arr a :: rest) = operand_signals w rest.
Proof. reflexivity. Qed.

(** validation returns the metadata of the first Signal operand, with
    the first normalization that is not "none" *)
Lemma check_operands_meta items domain meta w w' meta' :
  check_operands items domain meta w = (w', Return meta') ->
  meta' = validated_meta (operand_signals w items) meta.
Proof.
  revert meta. induction items as [|[r|a] rest IH]; intros meta E.
  - injection E as _ <-.
    destruct meta as [[[sr n] norm]|]; cbn; [|reflexivity].
    destruct (String.eqb norm "none") eqn:En; [|reflexivity].
    apply String.eqb_eq in En. now subst.
  - destruct (objs w !! r) as [s0|] eqn:Hr;
      [|rewrite (check_operands_dangling _ _ _ _ _ Hr) in E; discriminate E].
    rewrite (check_operands_Sig _ _ _ _ _ _ Hr) in E.
    rewrite (operand_signals_Sig _ _ _ _ Hr).
    destruct meta as [[[sr n] norm]|].
    + destruct (negb (rate_eqb sr (_sampling_rate s0))); [discriminate E|].
      destruct (negb (n =? _n_samples s0)); [discriminate E|].
      rewrite (IH _ E). cbn [validated_meta map first_non_none].
      destruct (String.eqb norm "none") eqn:En;
        destruct (String.eqb (_fft_norm s0) "none") eqn:E0;
        cbn [negb andb]; rewrite ?En, ?E0; reflexivity.
    + rewrite (IH _ E). cbn [validated_meta map first_non_none].
      destruct (String.eqb (_fft_norm s0) "none"); reflexivity.
  - rewrite check_operands_Arr in E.
    destruct (negb (dtype_in (dtype_of a) dtypes)); [discriminate E|].
    destruct (dtype_in (dtype_of a) ["complex64"; "complex128"]
              && String.eqb domain "time"); [discriminate E|].
    rewrite operand_signals_Arr. now apply IH.
Qed.

Lemma run_time_setter self s v w :
  objs w !! self = Some s ->
  TimeData.time_setter self v w =
  ({| bufs := bufs w;
      objs := <[self :=
                  set__domain
                    (set__n_samples
                       (set__data s (np_atleast_2d v))
                       (Z.of_nat (shape_last (shape (np_atleast_2d v)))))
                    "time"]> (objs w);
      log := log w |}, Return tt).
Proof.
  intros Hs. unfold TimeData.time_setter.
  rewrite (run_get_obj _ _ _ _ Hs). reflexivity.
Qed.

(** a domain change replaces the buffer of the object by a newly
    allocated one, or changes nothing *)
Lemma domain_setter_inv self domain w w' :
  Signal.domain_setter self domain w = (w', Return tt) ->
  buffers_allocated w ->
  buffers_allocated w' /\
  length (objs w') = length (objs w) /\
  exists s', objs w' !! self = Some s' /\ _domain s' = domain.
Proof.
  unfold Signal.domain_setter. intros E Hw.
  destruct (str_in domain _VALID_DOMAINS) eqn:Hd; [|discriminate E].
  cbn [negb] in E.
  apply bind_inv_Return in E as (w1 & s & R & E).
  apply get_obj_inv in R as [-> Hs].
  destruct (String.eqb (_domain s) domain) eqn:Hsd; cbn [negb] in E.
  { inversion E; subst w'. apply String.eqb_eq in Hsd. eauto. }
  assert (Hlt : (self < length (objs w))%nat)
    by (eapply lookup_lt_Some; eauto).
  destruct (str_in_domains _ Hd) as [->| ->].
  - replace (String.eqb "time" "time") with true in E by reflexivity.
    apply bind_inv_Return in E as (w1 & v & R & E).
    apply fft__irfft_inv in R as (flat & Hb & -> & ->).
    rewrite (run_time_setter self s) in E by exact Hs.
    cbn [bufs objs log] in E. inversion E; subst w'.
    split.
    + apply buffers_allocated_put.
      * apply (buffers_allocated_log
                 {| bufs := _; objs := objs w; log := log w |}),
          buffers_allocated_alloc, Hw.
      * sig_simpl. rewrite np_atleast_2d_base. cbn [fresh_array base].
        rewrite length_app. cbn. lia.
    + split; [apply length_insert|].
      eexists. split; [apply list_lookup_insert_eq, Hlt|reflexivity].
  - replace (String.eqb "freq" "time") with false in E by reflexivity.
    replace (String.eqb "freq" "freq") with true in E by reflexivity.
    apply bind_inv_Return in E as (w1 & v & R & E).
    apply fft__rfft_inv in R as (flat & Hb & -> & ->).
    match type of E with
    | Signal.freq_setter self ?v ?w1 = _ =>
        destruct (run_freq_setter w1 self s v Hs)
          as (w2 & s2 & R & O & B & D & Dom & _)
    end.
    rewrite R in E. inversion E; subst w'.
    split.
    + intros r' s' Hl. rewrite O in Hl. rewrite B. cbn [bufs objs] in *.
      apply list_lookup_insert_Some in Hl as [(-> & <- & _)|[_ Hl]].
      * rewrite D, np_atleast_2d_base. cbn [fresh_array base].
        rewrite length_app. cbn. lia.
      * specialize (Hw r' s' Hl). rewrite length_app. lia.
    + rewrite O. cbn [objs]. split; [apply length_insert|].
      exists s2. split; [apply list_lookup_insert_eq, Hlt|exact Dom].
Qed.

Lemma getter_inv (getter : ref -> M ndarray) self domain w w' t :
  (getter = Signal.time /\ domain = "time") \/
  (getter = Signal.freq /\ domain = "freq") ->
  getter self w = (w', Return t) ->
  buffers_allocated w ->
  buffers_allocated w' /\ length (objs w') = length (objs w).
Proof.
  intros Hg E Hw.
  destruct Hg as [[-> ->]|[-> ->]];
    [unfold Signal.time in E|unfold Signal.freq in E];
    apply bind_inv_Return in E as (w1 & [] & R & E);
    apply domain_setter_inv in R as (Hw1 & Hl & _); try exact Hw;
    apply bind_inv_Return in E as (w2 & s & R & E);
    apply get_obj_inv in R as [-> _]; inversion E; subst; auto.
Qed.

(** the data of a Signal operand is handed over in a newly allocated
    buffer; array operands are handed over as they are *)
Lemma _get_arithmetic_data_inv d n domain w w' x :
  _get_arithmetic_data d n domain w = (w', Return x) ->
  buffers_allocated w ->
  buffers_allocated w' /\ length (objs w') = length (objs w) /\
  match d with
  | Sig _ => unshared w' x
  | Arr a => x = a /\ w' = w
  end.
Proof.
  intros E Hw. destruct d as [r|a]; cbn [_get_arithmetic_data] in E.
  - destruct (String.eqb domain "time").
    + apply bind_inv_Return in E as (w1 & t & R & E).
      eapply getter_inv in R as (Hw1 & Hl); [|left; eauto|exact Hw].
      apply np_copy_inv in E as (flat & -> & ->).
      split; [apply buffers_allocated_alloc, Hw1|]. split; [exact Hl|].
      apply unshared_alloc, Hw1.
    + destruct (String.eqb domain "freq"); [|discriminate E].
      apply bind_inv_Return in E as (w1 & t & R & E).
      eapply getter_inv in R as (Hw1 & Hl); [|right; eauto|exact Hw].
      apply bind_inv_Return in E as (w2 & c & R & E).
      apply np_copy_inv in R as (flat & -> & ->).
      apply bind_inv_Return in E as (w3 & s & R & E).
      apply get_obj_inv in R as [-> _].
      destruct (negb (String.eqb (FrequencyData.fft_norm s) "none")).
      * destruct n as [n|]; [|discriminate E].
        apply fft__normalization_inv in E as (fl & _ & -> & ->).
        cbn [bufs objs log].
        split; [|split; [exact Hl|]].
        -- eapply buffers_allocated_ext; [| |exact Hw1]; cbn [objs bufs];
             [reflexivity|rewrite !length_app; lia].
        -- eapply (unshared_fresh
                     {| bufs := bufs w1 ++ [flat]; objs := objs w1;
                        log := log w1 |});
             cbn [objs bufs fresh_array base]; [reflexivity|reflexivity| |].
           ++ rewrite !length_app. cbn. lia.
           ++ apply buffers_allocated_alloc, Hw1.
      * inversion E; subst.
        split; [apply buffers_allocated_alloc, Hw1|]. split; [exact Hl|].
        apply unshared_alloc, Hw1.
  - inversion E; subst. auto.
Qed.

(** after at least one combination the running result is in a newly
    allocated buffer *)
Lemma fold_operands_inv op result rest n domain w w' res :
  fold_operands op result rest n domain w = (w', Return res) ->
  buffers_allocated w ->
  buffers_allocated w' /\ length (objs w') = length (objs w) /\
  (rest = [] -> res = result /\ w' = w) /\
  (rest <> [] -> unshared w' res).
Proof.
  revert result w. induction rest as [|d rest IH]; intros result w E Hw.
  - inversion E; subst. split; [exact Hw|]. split; [reflexivity|].
    split; [auto|]. intros Hne; contradiction.
  - cbn [fold_operands] in E.
    apply bind_inv_Return in E as (w1 & x & R & E).
    apply _get_arithmetic_data_inv in R as (Hw1 & Hl1 & _); [|exact Hw].
    apply bind_inv_Return in E as (w2 & r' & R & E).
    apply np_operate_inv in R as (flat & sh & dt & -> & _ & ->).
    pose proof (unshared_alloc w1 dt sh flat
                  (log w1 ++ [Call_operation op]) Hw1) as Hu.
    apply IH in E as (Hw' & Hl' & Hnil & Hcons);
      [|exact (unshared_allocated _ _ Hu)].
    split; [exact Hw'|]. split; [cbn [objs] in Hl'; congruence|].
    split; [intros Hd; discriminate Hd|]. intros _.
    destruct rest as [|d' rest'].
    + destruct (Hnil eq_refl) as [-> ->]. exact Hu.
    + apply Hcons. discriminate.
Qed.
End ArithmeticInversion.

(** ** The result of an arithmetic operation *)

Section ArithmeticResult.
Context `{TransformService}.

(** the steps of a returned [_arithmetic] call *)
Lemma arithmetic_steps items domain op w w' res :
  _arithmetic (Tuple items) domain op w = (w', Return res) ->
  exists meta d0 rest w1 r0 w2 r1,
    items = d0 :: rest /\
    check_operands items domain None w = (w, Return meta) /\
    (domain = "time" \/ domain = "freq") /\
    _get_arithmetic_data d0 (option_map (fun m => snd (fst m)) meta) domain w
    = (w1, Return r0) /\
    fold_operands op r0 rest (option_map (fun m => snd (fst m)) meta)
                  domain w1 = (w2, Return r1) /\
    match meta with
    | None => res = Arr r1 /\ w' = w2
    | Some (sr, n, norm) =>
        exists w3 r2 r,
          (if String.eqb domain "freq"
           then fft__normalization r1 n sr norm false else ret r1) w2
          = (w3, Return r2) /\
          Signal.new r2 sr (Some n) domain (Some norm) None float64 w3
          = (w', Return r) /\
          res = Sig r
    end.
Proof.
  unfold _arithmetic. intros E.
  apply bind_inv_Return in E as (w0 & meta & R & E).
  pose proof (_assert_match_world _ _ _ _ _ R) as ->.
  unfold _assert_match_for_arithmetic in R.
  destruct (str_in domain ["time"; "freq"]) eqn:Hd; [|discriminate R].
  cbn [negb] in R.
  destruct items as [|d0 rest]; [discriminate E|].
  apply bind_inv_Return in E as (w1 & r0 & R0 & E).
  apply bind_inv_Return in E as (w2 & r1 & R1 & E).
  exists meta, d0, rest, w1, r0, w2, r1.
  split; [reflexivity|]. split; [exact R|].
  split; [exact (str_in_domains _ Hd)|]. split; [exact R0|].
  split; [exact R1|].
  destruct meta as [[[sr n] norm]|].
  - apply bind_inv_Return in E as (w3 & r2 & R2 & E).
    apply bind_inv_Return in E as (w4 & r & R3 & E).
    inversion E; subst. eauto 8.
  - inversion E; subst. auto.
Qed.

Lemma operand_signals_nonempty items domain meta w w' meta' :
  check_operands items domain meta w = (w', Return meta') ->
  signal_operands items <> [] ->
  operand_signals w items <> [].
Proof.
  revert meta. induction items as [|[r|a] rest IH]; intros meta E Hne.
  - contradiction.
  - destruct (objs w !! r) as [s0|] eqn:Hr;
      [|rewrite (check_operands_dangling _ _ _ _ _ Hr) in E; discriminate E].
    rewrite (operand_signals_Sig _ _ _ _ Hr). discriminate.
  - rewrite check_operands_Arr in E.
    destruct (negb (dtype_in (dtype_of a) dtypes)); [discriminate E|].
    destruct (dtype_in (dtype_of a) ["complex64"; "complex128"]
              && String.eqb domain "time"); [discriminate E|].
    rewrite operand_signals_Arr. eapply IH; eauto.
Qed.

Lemma check_operands_all_agree items domain meta w w' meta' :
  check_operands items domain meta w = (w', Return meta') ->
  forall s, In s (operand_signals w items) ->
    exists sr n norm,
      meta' = Some (sr, n, norm) /\
      rate_eqb sr (_sampling_rate s) = true /\ n = _n_samples s.
Proof.
  intros E s Hin.
  destruct (check_operands_agree _ _ _ _ _ _ E) as [Hag _].
  unfold operand_signals in Hin. apply list_elem_of_In in Hin.
  apply list_elem_of_omap in Hin as (r & Hr & Hs).
  apply (Hag r s); [|exact Hs].
  clear -Hr. apply list_elem_of_In in Hr.
  induction items as [|[r'|a] rest IH]; cbn in *; [contradiction| |auto].
  destruct Hr as [->|Hr]; auto.
Qed.

(** C2 (as amended): when an arithmetic operation on a tuple with at
    least one Signal returns, the result is a new Signal whose sampling
    rate is that of the first Signal operand, with which every Signal
    operand agrees in sampling rate and sample count, whose domain is
    the target domain, and whose normalization is the first one among
    the Signal operands that is not "none" ("none" if all are); in the
    frequency domain its sample count is the common sample count; in
    the time domain its sample count is the trailing-axis length of
    its buffer. *)
Theorem arithmetic_result_metadata (items : list pyobj) (domain : string)
        (op : operation) (w w' : world) (res : pyobj) :
  _arithmetic (Tuple items) domain op w = (w', Return res) ->
  signal_operands items <> [] ->
  exists s0 sigs r s',
    operand_signals w items = s0 :: sigs /\
    (forall s, In s (s0 :: sigs) ->
       rate_eqb (_sampling_rate s0) (_sampling_rate s) = true /\
       _n_samples s = _n_samples s0) /\
    res = Sig r /\ objs w' !! r = Some s' /\
    _sampling_rate s' = _sampling_rate s0 /\
    _domain s' = domain /\
    _fft_norm s' = first_non_none (map _fft_norm (s0 :: sigs)) /\
    (domain = "freq" -> _n_samples s' = _n_samples s0) /\
    (domain = "time" ->
       _n_samples s' = Z.of_nat (shape_last (shape (_data s')))).
Proof.
  intros E Hsig.
  apply arithmetic_steps in E
    as (meta & d0 & rest & w1 & r0 & w2 & r1 & -> & C & Hd & _ & _ & E).
  pose proof (operand_signals_nonempty _ _ _ _ _ _ C Hsig) as Hne.
  pose proof (check_operands_meta _ _ _ _ _ _ C) as Hm.
  pose proof (check_operands_all_agree _ _ _ _ _ _ C) as Hag.
  destruct (operand_signals w (d0 :: rest)) as [|s0 sigs]; [contradiction|].
  cbn [validated_meta] in Hm. subst meta.
  destruct E as (w3 & r2 & r & _ & N & ->).
  apply Signal_new_inv in N
    as (-> & _ & _ & _ & s' & d & O & F1 & F2 & _ & F4 & F5 & F6 & _).
  exists s0, sigs, (length (objs w3)), s'.
  split; [reflexivity|]. split.
  { intros s Hin. destruct (Hag s Hin) as (sr & n & norm & Em & Er & En).
    inversion Em; subst. auto. }
  split; [reflexivity|].
  split; [rewrite O, lookup_app_r, Nat.sub_diag by lia; reflexivity|].
  split; [exact F1|]. split; [exact F2|]. split; [exact F4|].
  split; [intros Hf; exact (F6 Hf _ eq_refl)|exact F5].
Qed.
End ArithmeticResult.

(** ** Who shares a buffer with whom *)

Section Sharing.
Context `{TransformService}.

(** writing through a view leaves the views on other buffers as they
    are *)
Lemma np_write_other_buffer a b vals w w' :
  np_write a vals w = (w', Return tt) ->
  base a <> base b ->
  buf_read (bufs w') b = buf_read (bufs w) b.
Proof.
  unfold np_write. destruct (bufs w !! base a) as [buf|]; [|discriminate].
  intros E Hne. inversion E; subst w'. cbn [bufs]. unfold buf_read.
  now rewrite list_lookup_insert_ne by exact Hne.
Qed.

Lemma copy_unshared self w w' r :
  buffers_allocated w ->
  Signal.copy self w = (w', Return r) ->
  exists s',
    objs w' !! r = Some s' /\
    forall r2 s2, r2 <> r -> objs w' !! r2 = Some s2 ->
      base (_data s2) <> base (_data s').
Proof.
  intros Hw E. unfold Signal.copy in E.
  apply bind_inv_Return in E as (w1 & s & R & E).
  apply get_obj_inv in R as [-> Hs].
  apply bind_inv_Return in E as (w1 & d & R & E).
  apply np_copy_inv in R as (flat & -> & ->).
  unfold new_obj in E. inversion E; subst w' r. cbn [objs bufs log].
  eexists. split; [rewrite lookup_app_r, Nat.sub_diag by lia; reflexivity|].
  intros r2 s2 Hne Hl. sig_simpl. cbn [base].
  apply lookup_app_Some in Hl as [Hl|[Hge Hl]].
  - specialize (Hw r2 s2 Hl). lia.
  - destruct (r2 - length (objs w))%nat eqn:Hk; [lia|].
    cbn in Hl. destruct n; discriminate Hl.
Qed.

Lemma arithmetic_unshared items domain op w w' r :
  buffers_allocated w ->
  _arithmetic (Tuple items) domain op w = (w', Return (Sig r)) ->
  exists s',
    objs w' !! r = Some s' /\
    forall r2 s2, r2 <> r -> objs w' !! r2 = Some s2 ->
      base (_data s2) <> base (_data s').
Proof.
  intros Hw E.
  apply arithmetic_steps in E
    as (meta & d0 & rest & w1 & r0 & w2 & r1 & -> & C & Hd & G & F & E).
  pose proof (check_operands_meta _ _ _ _ _ _ C) as Hm.
  destruct meta as [[[sr n] norm]|]; [|destruct E as [E _]; discriminate E].
  destruct E as (w3 & r2 & r' & Nz & N & Er). inversion Er; subst r'.
  apply _get_arithmetic_data_inv in G as (Hw1 & _ & G0); [|exact Hw].
  apply fold_operands_inv in F as (Hw2 & _ & Fnil & Fcons); [|exact Hw1].
  assert (Hu1 : unshared w2 r1).
  { destruct rest as [|d1 rest]; [|apply Fcons; discriminate].
    destruct (Fnil eq_refl) as [-> ->].
    destruct d0 as [r0'|a]; [exact G0|].
    rewrite operand_signals_Arr in Hm. discriminate Hm. }
  assert (Hu2 : unshared w3 r2).
  { destruct (String.eqb domain "freq").
    - apply fft__normalization_inv in Nz as (fl & _ & -> & ->).
      eapply unshared_fresh; cbn [objs bufs fresh_array base];
        [reflexivity|reflexivity| |exact Hw2].
      rewrite length_app. cbn. lia.
    - inversion Nz; subst. exact Hu1. }
  apply Signal_new_inv in N
    as (-> & _ & _ & _ & s' & d & O & _ & _ & _ & _ & _ & _ & D & _ & Hb).
  exists s'. split; [rewrite O, lookup_app_r, Nat.sub_diag by lia;
                     reflexivity|].
  intros r3 s3 Hne Hl. rewrite O in Hl. rewrite D, np_atleast_2d_base.
  destruct Hu2 as [Hbelow Hlt].
  apply lookup_app_Some in Hl as [Hl|[Hge Hl]].
  - specialize (Hbelow r3 s3 Hl). destruct Hb as [->|Hb]; lia.
  - destruct (r3 - length (objs w3))%nat eqn:Hk; [lia|].
    cbn in Hl. destruct n0; discriminate Hl.
Qed.

(** C9 (as amended): a copy and the result of an arithmetic operation
    never share a buffer with another signal: in a world where every
    object's buffer is allocated, the Signal returned by [copy] or by
    an arithmetic operation holds a buffer that no other object holds,
    and a write through a view on one buffer does not change what is
    read through a view on another buffer. *)
Theorem copies_and_results_own_their_buffer (w : world) :
  buffers_allocated w ->
  (forall self w' r,
     Signal.copy self w = (w', Return r) ->
     exists s',
       objs w' !! r = Some s' /\
       forall r2 s2, r2 <> r -> objs w' !! r2 = Some s2 ->
         base (_data s2) <> base (_data s')) /\
  (forall items domain op w' r,
     _arithmetic (Tuple items) domain op w = (w', Return (Sig r)) ->
     exists s',
       objs w' !! r = Some s' /\
       forall r2 s2, r2 <> r -> objs w' !! r2 = Some s2 ->
         base (_data s2) <> base (_data s')) /\
  (forall a b vals w',
     np_write a vals w = (w', Return tt) -> base a <> base b ->
     buf_read (bufs w') b = buf_read (bufs w) b).
Proof.
  intros Hw. split; [|split].
  - intros self w' r. now apply copy_unshared.
  - intros items domain op w' r. now apply arithmetic_unshared.
  - intros a b vals w'. apply np_write_other_buffer.
Qed.
End Sharing.

(** ** Assigning channels *)

Section Assignment.
Context `{TransformService}.

Lemma run_assert_matching self v s sv w :
  objs w !! self = Some s -> objs w !! v = Some sv ->
  Signal._assert_matching_meta_data self (Sig v) w =
  if meta_data_match s sv then (w, Return tt)
  else if negb (rate_eqb (_sampling_rate s) (_sampling_rate sv)) then
    (w, Raise (ValueError "The sampling rates do not match."))
  else if negb (_n_samples s =? _n_samples sv) then
    (w, Raise (ValueError "The number of samples does not match."))
  else (w, Raise (ValueError "The FFT norms do not match.")).
Proof.
  intros Hs Hv. unfold Signal._assert_matching_meta_data, meta_data_match.
  rewrite (run_get_obj _ _ _ _ Hs), (run_get_obj _ _ _ _ Hv).
  unfold Signal.sampling_rate, Signal.n_samples, TimeData.n_samples.
  destruct (rate_eqb (_sampling_rate s) (_sampling_rate sv)); [|reflexivity].
  destruct (_n_samples s =? _n_samples sv); [|reflexivity].
  destruct (String.eqb (_fft_norm s) (_fft_norm sv)); reflexivity.
Qed.

(** C8 (as amended): for a key that is an integer or a slice,
    [signal[key] = value] with value a Signal returns, having written
    the broadcast data of value into the selected channels of signal's
    buffer and nothing else, when sample count, sampling rate and
    normalization of value match those of signal exactly, the key
    selects channels of signal and value's data can be broadcast to
    them; whatever the key, it raises ValueError and changes nothing
    when value's metadata do not match or value is not a Signal. *)
Theorem channel_assignment (w : world) (self v : ref) (s sv : SignalObj)
        (k : key) :
  objs w !! self = Some s ->
  objs w !! v = Some sv ->
  (meta_data_match s sv = false ->
     exists msg,
       Signal.__setitem__ self k (Sig v) w = (w, Raise (ValueError msg))) /\
  (forall a,
     exists msg,
       Signal.__setitem__ self k (Arr a) w = (w, Raise (ValueError msg))) /\
  (meta_data_match s sv = true ->
   forall items tgt fv vals buf,
     (exists i, k = KInt i) \/ (exists a b c, k = KSlice a b c) ->
     _Audio.items_of_key k = Some items ->
     np_getitem (_data s) items = Return tgt ->
     buf_read (bufs w) (_data sv) = Some fv ->
     broadcast_to fv (strip_leading_ones (length (shape tgt))
                                         (shape (_data sv)))
                  (shape tgt) = Some vals ->
     bufs w !! base (_data s) = Some buf ->
     Signal.__setitem__ self k (Sig v) w =
     ({| bufs := <[base (_data s) :=
                     store_at buf (offs tgt)
                       (map (np_cast (dtype_of (_data sv))
                                     (dtype_of (_data s))) vals)]> (bufs w);
         objs := objs w; log := log w |}, Return tt)).
Proof.
  intros Hs Hv. unfold Signal.__setitem__, _Audio.__setitem__.
  split; [|split].
  - intros Hm. unfold bind at 1.
    rewrite (run_assert_matching _ _ _ _ _ Hs Hv), Hm.
    destruct (negb (rate_eqb (_sampling_rate s) (_sampling_rate sv)));
      [eauto|].
    destruct (negb (_n_samples s =? _n_samples sv)); eauto.
  - intros a. eexists. reflexivity.
  - intros Hm items tgt fv vals buf Hk Hitems Hget Hread Hb Hbuf.
    unfold bind at 1.
    rewrite (run_assert_matching _ _ _ _ _ Hs Hv), Hm.
    assert (Hbody :
              (bind (get_obj self)
                 (fun s0 => bind (get_obj v)
                    (fun sv0 =>
                       np_setitem (_data s0)
                         (default [] (_Audio.items_of_key k)) (_data sv0)))) w
              = ({| bufs := <[base (_data s) :=
                                store_at buf (offs tgt)
                                  (map (np_cast (dtype_of (_data sv))
                                                (dtype_of (_data s))) vals)]>
                              (bufs w);
                    objs := objs w; log := log w |}, Return tt)).
    { rewrite (run_get_obj _ _ _ _ Hs), (run_get_obj _ _ _ _ Hv).
      rewrite Hitems. change (default [] (Some items)) with items.
      unfold np_setitem. rewrite Hget.
      rewrite (run_np_read _ _ _ _ Hread). rewrite Hb.
      unfold np_write.
      assert (Hbase : base tgt = base (_data s)).
      { unfold np_getitem in Hget.
        destruct (index_shape items (shape (_data s))); [discriminate|].
        inversion Hget; reflexivity. }
      rewrite Hbase, Hbuf. reflexivity. }
    destruct Hk as [[i ->]|(a & b & c & ->)];
      unfold except_KeyError; rewrite Hbody; reflexivity.
Qed.
End Assignment.

(** ** Iterating over a Signal *)

Section IterationFacts.
Context `{TransformService}.

Lemma buf_read_is_Some h a :
  is_Some (buf_read h a) <->
  exists b, h !! base a = Some b /\ Forall (fun i => (i < length b)%nat) (offs a).
Proof.
  unfold buf_read. destruct (h !! base a) as [b|].
  - rewrite mapM_is_Some. split.
    + intros Hf. exists b. split; [reflexivity|].
      eapply Forall_impl; [exact Hf|]. intros i [x Hx]. cbn in Hx.
      eapply lookup_lt_Some; eauto.
    + intros (b' & Eb & Hf). inversion Eb; subst b'.
      eapply Forall_impl; [exact Hf|]. intros i Hi. cbn.
      apply lookup_lt_is_Some. exact Hi.
  - split; [intros [x Hx]; discriminate|intros (b & Eb & _); discriminate].
Qed.



Lemma last_app_singleton (pre : list nat) n d : List.last (pre ++ [n]) d = n.
Proof. apply last_last. Qed.






End IterationFacts.

Section IterationTheorem.
Context `{TransformService}.


End IterationTheorem.

(** * The properties at concrete inputs *)

Section Concrete.
#[local] Existing Instance ZKernel.
#[local] Existing Instance ZService.

Lemma freq_write_sample_count_witness :
  objs world_2x8 !! 0%nat = Some sig_2x8 /\
  exists w' s',
    Signal.freq_setter 0%nat four_bins world_2x8 = (w', Return tt) /\
    objs w' = <[0%nat := s']> (objs world_2x8) /\
    _n_samples s' = 6 /\
    exists msg, log w' = log world_2x8 ++ [Warning msg].
Proof.
  split; [reflexivity|].
  destruct (freq_write_sample_count world_2x8 0%nat sig_2x8 four_bins
              eq_refl)
    as (w' & s' & R & O & _ & _ & _ & _ & _ & Hne & _).
  exists w', s'. split; [exact R|]. split; [exact O|].
  apply Hne. vm_compute. discriminate.
Defined.

Lemma freq_read_twice_transforms_once_witness :
  objs world_2x8 !! 0%nat = Some sig_2x8 /\
  _domain sig_2x8 = "time" /\
  buf_read (bufs world_2x8) (_data sig_2x8) =
    Some (map Z.of_nat (seq 0 16)) /\
  exists w1 s1,
    Signal.freq 0%nat world_2x8 = (w1, Return (_data s1)) /\
    objs w1 !! 0%nat = Some s1 /\ _domain s1 = "freq" /\
    shape (_data s1) = [2; 5]%nat /\
    count_rfft (log w1) = 1%nat /\
    Signal.freq 0%nat w1 = (w1, Return (_data s1)).
Proof.
  split; [reflexivity|]. split; [reflexivity|]. split; [reflexivity|].
  destruct (freq_read_twice_transforms_once world_2x8 0%nat sig_2x8
              (map Z.of_nat (seq 0 16)) eq_refl eq_refl eq_refl)
    as (w1 & s1 & R1 & O & Dom & D & _ & C & R2).
  exists w1, s1. split; [exact R1|]. split; [exact O|]. split; [exact Dom|].
  split; [rewrite D; reflexivity|]. split; [exact C|exact R2].
Defined.

Lemma fft_norm_write_witness :
  objs world_2x8_freq !! 0%nat = Some sig_2x8_freq /\
  buf_read (bufs world_2x8_freq) (_data sig_2x8_freq) =
    Some (replicate 10 0) /\
  Signal.fft_norm_setter 0%nat "loud" world_2x8_freq =
    (world_2x8_freq,
     Raise (ValueError (invalid_fft_norm_message "loud"))) /\
  exists w',
    Signal.fft_norm_setter 0%nat "amplitude" world_2x8_freq = (w', Return tt)
    /\ log w' = log world_2x8_freq ++
                [Call_normalization 8 (Hz 8) "none" true;
                 Call_normalization 8 (Hz 8) "amplitude" false].
Proof.
  split; [reflexivity|]. split; [reflexivity|].
  destruct (fft_norm_write world_2x8_freq 0%nat sig_2x8_freq
              (replicate 10 0) "loud" eq_refl eq_refl) as [Hbad _].
  destruct (fft_norm_write world_2x8_freq 0%nat sig_2x8_freq
              (replicate 10 0) "amplitude" eq_refl eq_refl) as [_ Hok].
  split; [exact (Hbad eq_refl)|].
  destruct (Hok eq_refl ltac:(discriminate)) as [Hfreq _].
  eexists. split; [exact (Hfreq eq_refl)|reflexivity].
Defined.

(** [add((s1, True, s2))] with s1 at 48000 Hz and s2 at 44100 Hz is
    rejected for the boolean operand, before s2 is looked at: the
    error is not one of the mismatch errors *)
Lemma mismatch_after_invalid_operand :
  rate_eqb (_sampling_rate sig_48000) (_sampling_rate sig_44100) = false /\
  add (Tuple [Sig 0%nat; Arr true_scalar; Sig 1%nat]) "freq" world_two_rates
  = (world_two_rates,
     Raise (ValueError
              ("Input must be of type Signal, int8, int16, int32, int64, " +:+
               "float32, float64, complex64, complex128"))) /\
  ~ metadata_mismatch
      (ValueError
         ("Input must be of type Signal, int8, int16, int32, int64, " +:+
          "float32, float64, complex64, complex128")).
Proof.
  split; [reflexivity|]. split; [reflexivity|].
  intros [E|E]; discriminate E.
Qed.

Lemma operands_live_two_rates :
  operands_live world_two_rates [Sig 0%nat; Sig 1%nat].
Proof.
  intros r [E|[E|[]]]; inversion E; subst; eexists; reflexivity.
Defined.

Lemma mismatched_signals_rejected_witness :
  operands_live world_two_rates [Sig 0%nat; Sig 1%nat] /\
  rate_eqb (_sampling_rate sig_48000) (_sampling_rate sig_44100) = false /\
  exists e,
    add (Tuple [Sig 0%nat; Sig 1%nat]) "freq" world_two_rates =
    (world_two_rates, Raise e) /\
    metadata_mismatch e.
Proof.
  split; [exact operands_live_two_rates|]. split; [reflexivity|].
  destruct (mismatched_signals_rejected [Sig 0%nat; Sig 1%nat] "freq" _add
              world_two_rates 0%nat 1%nat sig_48000 sig_44100
              operands_live_two_rates
              (or_introl eq_refl) (or_intror (or_introl eq_refl))
              eq_refl eq_refl (or_introl eq_refl))
    as (e & R & _ & Hm).
  exists e. split; [exact R|]. apply Hm; [reflexivity|].
  intros a [E|[E|[]]]; discriminate E.
Defined.

(** [multiply((s, np.uint8(2)))] is rejected *)
Lemma unsigned_operand_rejected :
  dtype_of uint8_scalar = uint8 /\
  multiply (Tuple [Sig 0%nat; Arr uint8_scalar]) "freq" world_uint8 =
  (world_uint8,
   Raise (ValueError
            ("Input must be of type Signal, int8, int16, int32, int64, " +:+
             "float32, float64, complex64, complex128"))).
Proof. split; reflexivity. Qed.

Lemma operands_live_uint8 : operands_live world_uint8 [Sig 0%nat].
Proof. intros r [E|[]]; inversion E; subst; eexists; reflexivity. Defined.

Lemma non_signal_operand_kinds_witness :
  operands_live world_uint8 [Sig 0%nat] /\
  (exists msg,
     _assert_match_for_arithmetic
       (Tuple ([Sig 0%nat] ++ [Arr uint8_scalar])) "freq" world_uint8 =
     (world_uint8, Raise (ValueError msg))) /\
  _assert_match_for_arithmetic
    (Tuple ([Sig 0%nat] ++ [Arr two_scalar])) "time" world_rms =
  _assert_match_for_arithmetic (Tuple ([Sig 0%nat] ++ [])) "time" world_rms.
Proof.
  split; [exact operands_live_uint8|]. split.
  - destruct (non_signal_operand_kinds [Sig 0%nat] [] uint8_scalar "freq"
                world_uint8 operands_live_uint8) as [_ Hrej].
    exact (Hrej eq_refl).
  - assert (Hl : operands_live world_rms [Sig 0%nat])
      by (intros r [E|[]]; inversion E; subst; eexists; reflexivity).
    destruct (non_signal_operand_kinds [Sig 0%nat] [] two_scalar "time"
                world_rms Hl) as [Hacc _].
    exact (Hacc eq_refl).
Defined.

(** with matching metadata, [signal[(0,)] = value] raises TypeError
    and [signal[5] = value] on two channels raises IndexError *)
Lemma tuple_key_assignment_fails :
  meta_data_match sig_2x4 sig_nines = true /\
  Signal.__setitem__ 0%nat (KTuple [Int 0]) (Sig 1%nat) world_assign =
  (world_assign, Raise (TypeError "Index must be int, not tuple")) /\
  Signal.__setitem__ 0%nat (KInt 5) (Sig 1%nat) world_assign =
  (world_assign, Raise (IndexError "index is out of bounds for axis")).
Proof. split; [reflexivity|]. split; reflexivity. Qed.

Lemma channel_assignment_witness :
  objs world_assign !! 0%nat = Some sig_2x4 /\
  objs world_assign !! 1%nat = Some sig_nines /\
  meta_data_match sig_2x4 sig_nines = true /\
  exists w',
    Signal.__setitem__ 0%nat (KInt 0) (Sig 1%nat) world_assign =
    (w', Return tt) /\
    objs w' = objs world_assign /\
    bufs w' !! 0%nat = Some [9; 9; 9; 9; 4; 5; 6; 7].
Proof.
  split; [reflexivity|]. split; [reflexivity|]. split; [reflexivity|].
  destruct (channel_assignment world_assign 0%nat 1%nat sig_2x4 sig_nines
              (KInt 0) eq_refl eq_refl) as (_ & _ & Hok).
  eexists. split.
  - apply (Hok eq_refl [Int 0]
             {| base := 0; offs := seq 0 4; shape := [4%nat];
                dtype_of := float64 |}
             [9; 9; 9; 9] [9; 9; 9; 9] [0; 1; 2; 3; 4; 5; 6; 7]);
      [left; eexists; reflexivity|reflexivity..].
  - split; reflexivity.
Defined.




(** [multiply((s, 2.0))] keeps sampling rate, sample count and
    normalization of s *)
Example multiply_keeps_metadata :
  multiply (Tuple [Sig 0%nat; Arr two_scalar]) "freq" world_rms =
  (world_rms_product, Return (Sig 1%nat)) /\
  objs world_rms_product !! 1%nat = Some sig_rms_product /\
  (_sampling_rate sig_rms, _n_samples sig_rms, _fft_norm sig_rms) =
  (Hz 48000, 1024, "rms") /\
  (_sampling_rate sig_rms_product, _n_samples sig_rms_product,
   _fft_norm sig_rms_product) = (Hz 48000, 1024, "rms").
Proof.
  split; [exact eq_refl|]. split; [reflexivity|].
  split; reflexivity.
Qed.

Lemma arithmetic_result_metadata_witness :
  _arithmetic (Tuple [Sig 0%nat; Arr two_scalar]) "freq" _multiply world_rms
  = (world_rms_product, Return (Sig 1%nat)) /\
  signal_operands [Sig 0%nat; Arr two_scalar] <> [] /\
  exists s0 sigs r s',
    operand_signals world_rms [Sig 0%nat; Arr two_scalar] = s0 :: sigs /\
    Sig 1%nat = Sig r /\ objs world_rms_product !! r = Some s' /\
    _sampling_rate s' = _sampling_rate s0 /\
    _domain s' = "freq" /\
    _fft_norm s' = first_non_none (map _fft_norm (s0 :: sigs)) /\
    _n_samples s' = _n_samples s0.
Proof.
  assert (R : _arithmetic (Tuple [Sig 0%nat; Arr two_scalar]) "freq"
                          _multiply world_rms
              = (world_rms_product, Return (Sig 1%nat)))
    by exact eq_refl.
  split; [exact R|]. split; [discriminate|].
  destruct (arithmetic_result_metadata _ _ _ _ _ _ R ltac:(discriminate))
    as (s0 & sigs & r & s' & Hops & _ & Er & Hobj & F1 & F2 & F3 & F4 & _).
  exists s0, sigs, r, s'.
  split; [exact Hops|]. split; [exact Er|]. split; [exact Hobj|].
  split; [exact F1|]. split; [exact F2|]. split; [exact F3|].
  exact (F4 eq_refl).
Defined.

(** [add((s, [1, 2, 3]), 'time')] with s of one sample gives a Signal
    of three samples *)
Lemma time_domain_sum_takes_broadcast_length :
  exists s s',
    objs world_one_sample !! 0%nat = Some s /\ _n_samples s = 1 /\
    add (Tuple [Sig 0%nat; Arr three_numbers]) "time" world_one_sample =
    (world_one_sample_sum, Return (Sig 1%nat)) /\
    objs world_one_sample_sum !! 1%nat = Some s' /\
    _n_samples s' = 3.
Proof.
  eexists _, _. split; [reflexivity|]. split; [reflexivity|].
  split; [exact eq_refl|]. split; reflexivity.
Qed.

(** [t = s[0]; t[0] = nines] changes the data of s: the slice is a
    view on the buffer of s; so is every element an iteration over s
    yields *)
Lemma slice_shares_parent_buffer :
  Signal.__getitem__ 0%nat (KInt 0) world_assign =
    (world_sliced, Return 2%nat) /\
  (exists st,
     objs world_sliced !! 0%nat = Some sig_2x4 /\
     objs world_sliced !! 2%nat = Some st /\
     base (_data st) = base (_data sig_2x4)) /\
  Signal.__setitem__ 2%nat (KInt 0) (Sig 1%nat) world_sliced =
    (world_sliced_assigned, Return tt) /\
  objs world_sliced_assigned !! 0%nat = Some sig_2x4 /\
  buf_read (bufs world_sliced) (_data sig_2x4) =
    Some [0; 1; 2; 3; 4; 5; 6; 7] /\
  buf_read (bufs world_sliced_assigned) (_data sig_2x4) =
    Some [9; 9; 9; 9; 4; 5; 6; 7] /\
  exists w' l,
    iterate 3 0%nat world_assign = (w', Return l) /\
    map (fun p => base (_data (snd p))) l =
    [base (_data sig_2x4); base (_data sig_2x4)].
Proof.
  split; [exact eq_refl|].
  split; [eexists; split; [reflexivity|split; reflexivity]|].
  split; [exact eq_refl|].
  split; [reflexivity|]. split; [reflexivity|]. split; [reflexivity|].
  exists (fst (iterate 3 0%nat world_assign)), yielded_assign.
  split; [exact eq_refl|reflexivity].
Qed.

Lemma buffers_allocated_world_assign : buffers_allocated world_assign.
Proof.
  intros r s Hs. destruct r as [|[|r]]; cbn in Hs; inversion Hs; cbn; lia.
Defined.

Lemma copies_and_results_own_their_buffer_witness :
  buffers_allocated world_assign /\
  exists s',
    Signal.copy 0%nat world_assign = (world_assign_copied, Return 2%nat) /\
    objs world_assign_copied !! 2%nat = Some s' /\
    forall r2 s2, r2 <> 2%nat -> objs world_assign_copied !! r2 = Some s2 ->
      base (_data s2) <> base (_data s').
Proof.
  split; [exact buffers_allocated_world_assign|].
  destruct (copies_and_results_own_their_buffer world_assign
              buffers_allocated_world_assign) as (Hcopy & _ & _).
  assert (R : Signal.copy 0%nat world_assign
              = (world_assign_copied, Return 2%nat))
    by exact eq_refl.
  destruct (Hcopy _ _ _ R) as (s' & Hobj & Hfresh).
  exists s'. split; [exact R|]. split; [exact Hobj|exact Hfresh].
Defined.
End Concrete.

(** * Further properties of the code *)

(** ** Lazy conversion between the domains *)

Section DomainConversion.
Context `{TransformService}.

Lemma time_read_cached w self s :
  objs w !! self = Some s -> _domain s = "time" ->
  Signal.time self w = (w, Return (_data s)).
Proof.
  intros Hs Hdom. unfold Signal.time, Signal.domain_setter.
  cbn [str_in existsb _VALID_DOMAINS negb].
  replace (String.eqb "time" "time") with true by reflexivity.
  cbn [orb negb]. mrun. rewrite (run_get_obj _ _ _ _ Hs), Hdom.
  replace (String.eqb "time" "time") with true by reflexivity.
  cbn [negb]. mrun. rewrite (run_get_obj _ _ _ _ Hs). reflexivity.
Qed.

Lemma freq_read_cached w self s :
  objs w !! self = Some s -> _domain s = "freq" ->
  Signal.freq self w = (w, Return (_data s)).
Proof.
  intros Hs Hdom. unfold Signal.freq, Signal.domain_setter.
  cbn [str_in existsb _VALID_DOMAINS negb].
  replace (String.eqb "freq" "time") with false by reflexivity.
  replace (String.eqb "freq" "freq") with true by reflexivity.
  cbn [orb negb]. mrun. rewrite (run_get_obj _ _ _ _ Hs), Hdom.
  replace (String.eqb "freq" "freq") with true by reflexivity.
  cbn [negb]. mrun. rewrite (run_get_obj _ _ _ _ Hs). reflexivity.
Qed.

(** the object a Signal becomes when its time data is read while it
    holds a spectrum whose inverse transform is [v] *)
Lemma time_read_converts w self s flat :
  objs w !! self = Some s -> _domain s = "freq" ->
  buf_read (bufs w) (_data s) = Some flat ->
  let v := fft_irfft (value_of (_data s) flat) (_n_samples s)
                     (_sampling_rate s) (_fft_norm s) in
  let d := np_atleast_2d (fresh_array w v) in
  let s1 := set__domain
              (set__n_samples (set__data s d)
                              (Z.of_nat (shape_last (shape d)))) "time" in
  Signal.time self w =
  ({| bufs := bufs w ++ [av_flat v]; objs := <[self := s1]> (objs w);
      log := log w ++ [Call_irfft (_n_samples s) (_sampling_rate s)
                                  (_fft_norm s)] |},
   Return d).
Proof.
  intros Hs Hdom Hbuf v d s1.
  unfold Signal.time, Signal.domain_setter.
  cbn [str_in existsb _VALID_DOMAINS negb].
  replace (String.eqb "time" "time") with true by reflexivity.
  cbn [orb negb]. mrun. rewrite (run_get_obj _ _ _ _ Hs), Hdom.
  replace (String.eqb "freq" "time") with false by reflexivity.
  cbn [negb]. mrun.
  rewrite (run_fft__irfft _ _ _ _ _ _ _ Hbuf).
  change (Signal.n_samples s) with (_n_samples s). fold v.
  unfold Signal.time_setter.
  erewrite bind_Return by (apply run_time_setter; cbn [objs]; exact Hs).
  cbn [bufs objs log]. fold d. fold s1.
  erewrite run_get_obj by (cbn [objs]; eapply lookup_put; eauto).
  reflexivity.
Qed.

(** X1: for a Signal in the frequency domain, reading the time data
    calls the inverse transform once, with the stored sample count,
    sampling rate and normalization; the result becomes the buffer,
    the domain tag becomes "time" and the sample count is taken from
    the trailing axis of the result; the other attributes and all
    other objects are kept; a second read returns the same buffer and
    changes nothing. *)
Theorem time_read_twice_inverts_once (w : world) (self : ref)
        (s : SignalObj) (flat : list elt) :
  objs w !! self = Some s ->
  _domain s = "freq" ->
  buf_read (bufs w) (_data s) = Some flat ->
  let v := fft_irfft (value_of (_data s) flat) (_n_samples s)
                     (_sampling_rate s) (_fft_norm s) in
  exists w1 s1,
    Signal.time self w = (w1, Return (_data s1)) /\
    objs w1 = <[self := s1]> (objs w) /\
    _domain s1 = "time" /\
    _data s1 = np_atleast_2d (fresh_array w v) /\
    _n_samples s1 = Z.of_nat (shape_last (shape (_data s1))) /\
    _sampling_rate s1 = _sampling_rate s /\
    _fft_norm s1 = _fft_norm s /\
    _dtype s1 = _dtype s /\ _comment s1 = _comment s /\
    buf_read (bufs w1) (_data s1) = Some (av_flat v) /\
    log w1 = log w ++ [Call_irfft (_n_samples s) (_sampling_rate s)
                                  (_fft_norm s)] /\
    Signal.time self w1 = (w1, Return (_data s1)).
Proof.
  intros Hs Hdom Hbuf v.
  pose proof (time_read_converts w self s flat Hs Hdom Hbuf) as R.
  cbv zeta in R. fold v in R.
  set (s1 := set__domain
               (set__n_samples
                  (set__data s (np_atleast_2d (fresh_array w v)))
                  (Z.of_nat
                     (shape_last (shape (np_atleast_2d (fresh_array w v))))))
               "time") in *.
  eexists _, s1.
  split; [exact R|]. cbn [objs bufs log].
  do 8 (split; [reflexivity|]).
  split.
  { change (_data s1) with (np_atleast_2d (fresh_array w v)).
    rewrite buf_read_atleast_2d. apply (buf_read_fresh _ []). }
  split; [reflexivity|].
  apply time_read_cached; [|reflexivity].
  cbn [objs]. eapply lookup_put; eauto.
Qed.
End DomainConversion.

Section RoundTrip.
Context `{TransformService}.

Lemma run_freq_setter_explicit w self s value :
  objs w !! self = Some s ->
  let d := np_atleast_2d value in
  let nb := Z.of_nat (shape_last (shape d)) in
  Signal.freq_setter self value w =
  if nb =? Signal.n_bins s then
    ({| bufs := bufs w;
        objs := <[self := set__n_samples (set__domain (set__data s d) "freq")
                                         (_n_samples s)]> (objs w);
        log := log w |}, Return tt)
  else
    ({| bufs := bufs w;
        objs := <[self := set__n_samples (set__domain (set__data s d) "freq")
                                         ((nb - 1) * 2)]> (objs w);
        log := log w ++
               [Warning ("Number of frequency bins changed, assuming an even " ++
                         "number of samples from the number of frequency bins.")] |},
     Return tt).
Proof.
  intros Hs d nb.
  unfold Signal.freq_setter, FrequencyData.freq_setter.
  rewrite run_bind_assoc, (run_get_obj _ _ _ _ Hs), run_put_obj.
  erewrite run_get_obj by (cbn [objs]; eapply lookup_put; eauto).
  cbn [_data set__domain set__data]. rewrite np_atleast_2d_idem.
  fold d. fold nb.
  change (Signal.n_bins (set__domain (set__data s d) "freq"))
    with (Signal.n_bins s).
  destruct (nb =? Signal.n_bins s) eqn:E.
  - rewrite run_ret.
    erewrite run_get_obj by (cbn [objs]; eapply lookup_put; eauto).
    unfold put_obj. cbn [objs bufs log].
    rewrite list_insert_insert_eq. reflexivity.
  - unfold warnings_warn.
    rewrite run_bind_assoc, run_emit, run_ret.
    erewrite run_get_obj by (cbn [objs]; eapply lookup_put; eauto).
    unfold put_obj. cbn [objs bufs log].
    rewrite list_insert_insert_eq. reflexivity.
Qed.

(** reading the frequency data of a time-domain Signal *)
Lemma freq_read_converts w self s flat :
  objs w !! self = Some s -> _domain s = "time" ->
  buf_read (bufs w) (_data s) = Some flat ->
  let v := fft_rfft (value_of (_data s) flat) (_n_samples s)
                    (_sampling_rate s) (_fft_norm s) in
  let d := np_atleast_2d (fresh_array w v) in
  exists n l,
    Signal.freq self w =
    ({| bufs := bufs w ++ [av_flat v];
        objs := <[self := set__n_samples (set__domain (set__data s d) "freq")
                                         n]> (objs w);
        log := log w ++ Call_rfft (_n_samples s) (_sampling_rate s)
                                  (_fft_norm s) :: l |},
     Return d) /\
    (Z.of_nat (shape_last (shape d)) = Signal.n_bins s ->
     n = _n_samples s /\ l = []) /\
    (forall ev, In ev l -> exists msg, ev = Warning msg).
Proof.
  intros Hs Hdom Hbuf v d.
  unfold Signal.freq, Signal.domain_setter.
  cbn [str_in existsb _VALID_DOMAINS negb].
  replace (String.eqb "freq" "time") with false by reflexivity.
  replace (String.eqb "freq" "freq") with true by reflexivity.
  cbn [orb negb]. mrun. rewrite (run_get_obj _ _ _ _ Hs), Hdom.
  replace (String.eqb "time" "freq") with false by reflexivity.
  cbn [negb]. mrun.
  rewrite (run_fft__rfft _ _ _ _ _ _ _ Hbuf).
  change (Signal.n_samples s) with (_n_samples s). fold v.
  pose proof (run_freq_setter_explicit
                {| bufs := bufs w ++ [av_flat v]; objs := objs w;
                   log := log w ++ [Call_rfft (_n_samples s)
                                              (_sampling_rate s)
                                              (_fft_norm s)] |}
                self s (fresh_array w v) Hs) as R.
  cbv zeta in R. fold d in R. cbn [bufs objs log] in R.
  destruct (Z.of_nat (shape_last (shape d)) =? Signal.n_bins s) eqn:E;
    rewrite (bind_Return _ _ _ _ _ R).
  - erewrite run_get_obj by (cbn [objs]; eapply lookup_put; eauto).
    exists (_n_samples s), []. cbn [bufs objs log].
    split; [reflexivity|]. split; [auto|]. intros ev [].
  - erewrite run_get_obj by (cbn [objs]; eapply lookup_put; eauto).
    eexists _, [_]. cbn [bufs objs log]. rewrite <- app_assoc.
    split; [reflexivity|]. split.
    + intros E'. apply Z.eqb_neq in E. contradiction.
    + intros ev [<-|[]]. eexists; reflexivity.
Qed.

Lemma shape_last_app (pre : list nat) n : shape_last (pre ++ [n]) = n.
Proof. apply last_app_singleton. Qed.

Lemma shape_init_app (pre : list nat) n : shape_init (pre ++ [n]) = pre.
Proof. apply removelast_last. Qed.

Lemma shape_init_last (sh : list nat) :
  sh <> [] -> shape_init sh ++ [shape_last sh] = sh.
Proof. intros E. symmetry. apply app_removelast_last. exact E. Qed.

Lemma np_atleast_2d_rank2 a :
  (2 <= length (shape a))%nat -> np_atleast_2d a = a.
Proof.
  unfold np_atleast_2d. destruct (shape a) as [|x [|y sh]]; cbn; intros; try lia.
  reflexivity.
Qed.

(** X2: converting a time-domain Signal to the frequency domain and
    back, with transforms that return the documented shapes, calls the
    forward and the inverse transform once each with the Signal's
    sample count, emits no warning, and gives back a time-domain
    Signal with the same buffer shape, sample count (odd counts
    included), sampling rate and normalization. *)
Theorem domain_round_trip (w : world) (self : ref) (s : SignalObj)
        (flat : list elt) :
  transform_shapes ->
  objs w !! self = Some s ->
  _domain s = "time" ->
  buf_read (bufs w) (_data s) = Some flat ->
  (2 <= length (shape (_data s)))%nat ->
  _n_samples s = Z.of_nat (shape_last (shape (_data s))) ->
  exists w1 w2 f t s2,
    Signal.freq self w = (w1, Return f) /\
    Signal.time self w1 = (w2, Return t) /\
    objs w2 = <[self := s2]> (objs w) /\
    _data s2 = t /\
    shape t = shape (_data s) /\
    _domain s2 = "time" /\
    _n_samples s2 = _n_samples s /\
    _sampling_rate s2 = _sampling_rate s /\
    _fft_norm s2 = _fft_norm s /\
    log w2 = log w ++
             [Call_rfft (_n_samples s) (_sampling_rate s) (_fft_norm s);
              Call_irfft (_n_samples s) (_sampling_rate s) (_fft_norm s)].
Proof.
  intros Hsvc Hs Hdom Hbuf Hrank Hn.
  assert (Hne : shape (_data s) <> [])
    by (destruct (shape (_data s)); [cbn in Hrank; lia|discriminate]).
  destruct (freq_read_converts w self s flat Hs Hdom Hbuf)
    as (n & l & R1 & Hsame & _).
  set (v := fft_rfft (value_of (_data s) flat) (_n_samples s)
                     (_sampling_rate s) (_fft_norm s)) in *.
  set (d := np_atleast_2d (fresh_array w v)) in *.
  assert (Hshv : shape (fresh_array w v) =
                 shape_init (shape (_data s)) ++
                 [Z.to_nat (fft__n_bins (_n_samples s))]).
  { unfold v. cbn [fresh_array shape].
    destruct (Hsvc (value_of (_data s) flat) (_n_samples s)
                   (_sampling_rate s) (_fft_norm s)) as [-> _].
    reflexivity. }
  assert (Hrankv : (2 <= length (shape (fresh_array w v)))%nat).
  { rewrite Hshv, length_app. cbn [length].
    rewrite <- (shape_init_last _ Hne), length_app in Hrank.
    cbn [length] in Hrank. lia. }
  assert (Hd : d = fresh_array w v) by (apply np_atleast_2d_rank2, Hrankv).
  assert (Hbins : Z.of_nat (shape_last (shape d)) = Signal.n_bins s).
  { rewrite Hd, Hshv, shape_last_app. unfold Signal.n_bins, Signal.n_samples,
      TimeData.n_samples, fft__n_bins.
    assert (0 <= _n_samples s / 2) by (apply Z.div_pos; lia). lia. }
  destruct (Hsame Hbins) as [-> ->].
  set (s1 := set__n_samples (set__domain (set__data s d) "freq")
                            (_n_samples s)) in *.
  assert (Hs1 : <[self := s1]> (objs w) !! self = Some s1)
    by (eapply lookup_put; eauto).
  pose proof (time_read_converts
                {| bufs := bufs w ++ [av_flat v];
                   objs := <[self := s1]> (objs w);
                   log := log w ++
                          [Call_rfft (_n_samples s) (_sampling_rate s)
                                     (_fft_norm s)] |}
                self s1 (av_flat v) Hs1 eq_refl) as R2.
  cbn [bufs objs log] in R2.
  assert (Hbuf1 : buf_read (bufs w ++ [av_flat v]) (_data s1)
                  = Some (av_flat v)).
  { change (_data s1) with d. unfold d. rewrite buf_read_atleast_2d.
    apply (buf_read_fresh _ []). }
  specialize (R2 Hbuf1). cbv zeta in R2.
  change (_n_samples s1) with (_n_samples s) in R2.
  change (_sampling_rate s1) with (_sampling_rate s) in R2.
  change (_fft_norm s1) with (_fft_norm s) in R2.
  set (v2 := fft_irfft (value_of (_data s1) (av_flat v)) (_n_samples s)
                       (_sampling_rate s) (_fft_norm s)) in *.
  set (w1 := {| bufs := bufs w ++ [av_flat v];
                objs := <[self := s1]> (objs w);
                log := log w ++ [Call_rfft (_n_samples s) (_sampling_rate s)
                                           (_fft_norm s)] |}) in *.
  set (d2 := np_atleast_2d (fresh_array w1 v2)) in *.
  assert (Hshv2 : shape (fresh_array w1 v2) = shape (_data s)).
  { unfold v2. cbn [fresh_array shape].
    destruct (Hsvc (value_of (_data s1) (av_flat v)) (_n_samples s)
                   (_sampling_rate s) (_fft_norm s)) as [_ ->].
    cbn [value_of av_shape]. change (_data s1) with d.
    rewrite Hd, Hshv, shape_init_app, Hn, Nat2Z.id.
    apply shape_init_last, Hne. }
  assert (Hd2 : d2 = fresh_array w1 v2)
    by (apply np_atleast_2d_rank2; rewrite Hshv2; exact Hrank).
  eexists w1, _, d, d2, _.
  split; [exact R1|]. split; [exact R2|].
  cbn [objs log]. rewrite list_insert_insert_eq.
  split; [reflexivity|]. sig_simpl.
  split; [reflexivity|].
  split; [rewrite Hd2; exact Hshv2|].
  split; [reflexivity|].
  split; [rewrite Hd2, Hshv2; symmetry; exact Hn|].
  split; [reflexivity|]. split; [reflexivity|].
  rewrite <- app_assoc. reflexivity.
Qed.
End RoundTrip.

(** ** What the constructor establishes *)

Ltac sig_simpl_in H :=
  cbn [_data _domain _dtype _comment _sampling_rate _n_samples _fft_norm
       set__data set__domain set__dtype set__comment set__sampling_rate
       set__n_samples set__fft_norm] in H.

Section ConstructorFacts.
Context `{TransformService}.

Lemma bind_inv_Raise {A B} (m : M A) (k : A -> M B) w w' e :
  bind m k w = (w', Raise e) ->
  m w = (w', Raise e) \/
  exists w1 a, m w = (w1, Return a) /\ k a w1 = (w', Raise e).
Proof.
  intros E. apply bind_inv in E as [E|(e' & E & Heq)]; [now right|].
  left. now inversion Heq.
Qed.

Lemma shape_atleast_2d_eq a b :
  shape a = shape b -> shape (np_atleast_2d a) = shape (np_atleast_2d b).
Proof.
  intros E. unfold np_atleast_2d. rewrite E.
  destruct (shape b) as [|x [|y sh]] eqn:Eb; cbn [shape with_shape];
    congruence.
Qed.

Lemma rank_atleast_2d a : (2 <= length (shape (np_atleast_2d a)))%nat.
Proof.
  unfold np_atleast_2d.
  destruct (shape a) as [|x [|y sh]] eqn:E; cbn [shape with_shape length];
    try lia.
  rewrite E. cbn [length]. lia.
Qed.

(** the guards a returning [Signal.__init__] has passed *)
Lemma Signal_init_guards self data sr n domain norm c dt w w' s' :
  Signal.__init__ self data sr n domain norm c dt w = (w', Return s') ->
  let bins := Z.of_nat (shape_last (shape (np_atleast_2d data))) in
  str_in (default "none" norm) _VALID_FFT_NORMS = true /\
  _comment s' = default "none" c /\
  shape (_data s') = shape (np_atleast_2d data) /\
  (domain = "freq" -> forall k, n = Some k -> k <= 2 * bins - 1) /\
  (domain = "freq" -> n = None ->
     _n_samples s' = (bins - 1) * 2 /\
     exists msg, log w' = log w ++ [Warning msg]).
Proof.
  intros E bins. unfold Signal.__init__ in E.
  apply bind_inv_Return in E as (w1 & s1 & R1 & E).
  apply _Audio_init_inv in R1 as (A1 & Hd & nan1 & ->).
  destruct (str_in_domains _ Hd) as [->| ->].
  - replace (String.eqb "time" "time") with true in E by reflexivity.
    apply bind_inv_Return in E as (w2 & d1 & R2 & E).
    destruct (str_in (default "none" norm) _VALID_FFT_NORMS);
      [|discriminate E].
    unfold TimeData.__init__ in E.
    apply bind_inv_Return in E as (w3 & s3 & R3 & E).
    apply _Audio_init_inv in R3 as (A3 & _ & nan3 & ->).
    apply bind_inv_Return in E as (w4 & d & R4 & E).
    apply np_asarray_inv in R4 as (A4 & Hsh & Hbase).
    match type of E with
    | (if ?b then _ else _) _ = _ => destruct b; [discriminate E|]
    end.
    match type of E with
    | (if ?b then _ else _) _ = _ => destruct b; [discriminate E|]
    end.
    inversion E; subst w' s'. clear E. sig_simpl.
    split; [reflexivity|]. split; [reflexivity|].
    split; [apply shape_atleast_2d_eq, Hsh|].
    split; intros Hf; discriminate Hf.
  - replace (String.eqb "freq" "time") with false in E by reflexivity.
    replace (String.eqb "freq" "freq") with true in E by reflexivity.
    apply bind_inv_Return in E as (w2 & d1 & R2 & E).
    apply np_asarray_inv in R2 as (A2 & Hsh1 & _).
    apply bind_inv_Return in E as (w2' & k & Rn & E).
    sig_simpl_in Rn.
    rewrite (shape_atleast_2d_eq _ _ Hsh1) in Rn. fold bins in Rn.
    assert (Hn : (forall k', n = Some k' -> k' <= 2 * bins - 1) /\
                 (n = None ->
                  k = (bins - 1) * 2 /\
                  exists msg, log w2' = log w2 ++ [Warning msg])).
    { destruct n as [k'|].
      - destruct (2 * bins - 1 <? k') eqn:Hk; [discriminate Rn|].
        apply Z.ltb_ge in Hk. split; [|intros Hf; discriminate Hf].
        intros ? Hk'. inversion Hk'; subst. exact Hk.
      - unfold warnings_warn in Rn. rewrite run_emit in Rn.
        inversion Rn; subst. cbn [log].
        split; [intros ? Hf; discriminate Hf|]. intros _.
        split; [reflexivity|]. eexists; reflexivity. }
    destruct Hn as (Hk & Hnone).
    unfold FrequencyData.__init__ in E.
    apply bind_inv_Return in E as (w3 & s3 & R3 & E).
    apply _Audio_init_inv in R3 as (A3 & _ & nan3 & ->).
    apply bind_inv_Return in E as (w4 & d & R4 & E).
    apply np_asarray_inv in R4 as (A4 & Hsh & Hbase).
    match type of E with
    | (if ?b then _ else _) _ = _ => destruct b; [discriminate E|]
    end.
    match type of E with
    | (if ?b then _ else _) _ = _ => destruct b; [discriminate E|]
    end.
    destruct (str_in (default "none" norm) _VALID_FFT_NORMS);
      [|discriminate E].
    inversion E; subst w' s'. clear E. sig_simpl.
    split; [reflexivity|]. split; [reflexivity|].
    split; [apply shape_atleast_2d_eq, Hsh|].
    split; [intros _; exact Hk|]. intros _ Hnn.
    destruct (Hnone Hnn) as (-> & msg & L). split; [reflexivity|].
    exists msg. destruct A2 as (_ & L2 & _). destruct A1 as (_ & L1 & _).
    destruct A3 as (_ & L3 & _). destruct A4 as (_ & L4 & _).
    rewrite L4, L3, L, L2, L1. reflexivity.
Qed.

(** X3: every object the constructor returns is well formed: its
    domain is "time" or "freq", its normalization is a known one, its
    buffer has the shape of the data raised to at least two axes, in
    the time domain its sample count is the buffer's trailing length
    (whatever count was passed), in the frequency domain the count is
    at most 2*bins - 1; the new object is appended to the store and
    the existing ones are kept. *)
Theorem constructor_establishes_invariant (w w' : world) (data : ndarray)
        (sr : rate) (n : option Z) (domain : string)
        (norm c : option string) (dt : dtype) (r : ref) :
  Signal.new data sr n domain norm c dt w = (w', Return r) ->
  exists s',
    r = length (objs w) /\ objs w' = objs w ++ [s'] /\
    well_formed s' /\
    shape (_data s') = shape (np_atleast_2d data) /\
    _domain s' = domain /\ _sampling_rate s' = sr /\
    _fft_norm s' = default "none" norm /\
    _comment s' = default "none" c /\ _dtype s' = dt.
Proof.
  unfold Signal.new. intros E.
  apply bind_inv_Return in E as (w1 & s' & R & E).
  pose proof (Signal_init_guards _ _ _ _ _ _ _ _ _ _ _ R)
    as (G1 & G2 & G3 & G4 & G5).
  apply Signal_init_inv in R
    as (O & B & L & Hd & F1 & F2 & F3 & F4 & F5 & F6 & d & D1 & D2 & D3).
  unfold new_obj in E. inversion E; subst w' r. cbn [objs].
  exists s'. rewrite O. split; [reflexivity|]. split; [reflexivity|].
  split.
  { split; [rewrite F2; exact Hd|]. split; [rewrite F4; exact G1|].
    split; [rewrite G3; apply rank_atleast_2d|].
    split; [rewrite F2; exact F5|].
    rewrite F2, G3. intros Hf. destruct n as [k|].
    - rewrite (F6 Hf k eq_refl). apply (G4 Hf k eq_refl).
    - destruct (G5 Hf eq_refl) as [-> _]. lia. }
  auto 10.
Qed.
End ConstructorFacts.

Section ConstructorFailure.
Context `{TransformService}.

Lemma _Audio_init_raise self domain c dt w w' e :
  _Audio.__init__ self domain c dt w = (w', Raise e) ->
  w' = w /\ e = ValueError "Incorrect domain, needs to be time/freq." /\
  str_in domain _VALID_DOMAINS = false.
Proof.
  unfold _Audio.__init__.
  destruct (str_in domain _VALID_DOMAINS).
  - rewrite run_np_alloc. discriminate.
  - intros E. inversion E. auto.
Qed.

Lemma np_asarray_raise a dt w w' e :
  np_asarray a dt w = (w', Raise e) -> w' = w /\ e = DanglingReference.
Proof.
  unfold np_asarray. destruct (dtype_eqb (dtype_of a) dt); [discriminate|].
  unfold bind, np_read. destruct (buf_read (bufs w) a); [discriminate|].
  intros E. inversion E. auto.
Qed.

(** the errors with which construction can fail: an unreadable array,
    or a ValueError other than the one of the last branch of
    [Signal.__init__] *)
Lemma Signal_init_raise self data sr n domain norm c dt w w' e :
  Signal.__init__ self data sr n domain norm c dt w = (w', Raise e) ->
  objs w' = objs w /\
  (e = DanglingReference \/
   exists msg, e = ValueError msg /\
               msg <> "Invalid domain. Has to be 'time' or 'freq'.").
Proof.
  intros E. unfold Signal.__init__ in E.
  apply bind_inv_Raise in E as [E|(w1 & s1 & R1 & E)].
  { apply _Audio_init_raise in E as (-> & -> & _).
    split; [reflexivity|]. right. eexists. split; [reflexivity|discriminate]. }
  apply _Audio_init_inv in R1 as ((O1 & _) & Hd & nan1 & ->).
  destruct (str_in_domains _ Hd) as [->| ->].
  - replace (String.eqb "time" "time") with true in E by reflexivity.
    apply bind_inv_Raise in E as [E|(w2 & d1 & R2 & E)].
    { apply np_asarray_raise in E as (-> & ->). auto. }
    apply np_asarray_inv in R2 as ((O2 & _) & _ & _).
    destruct (str_in (default "none" norm) _VALID_FFT_NORMS).
    2:{ inversion E; subst. split; [congruence|]. right.
        eexists. split; [reflexivity|]. cbn. discriminate. }
    unfold TimeData.__init__ in E.
    apply bind_inv_Raise in E as [E|(w3 & s3 & R3 & E)].
    { apply _Audio_init_raise in E as (_ & _ & Hf). discriminate Hf. }
    apply _Audio_init_inv in R3 as ((O3 & _) & _ & nan3 & ->).
    apply bind_inv_Raise in E as [E|(w4 & d & R4 & E)].
    { apply np_asarray_raise in E as (-> & ->). split; [congruence|auto]. }
    apply np_asarray_inv in R4 as ((O4 & _) & _ & _).
    assert (O : objs w4 = objs w) by congruence.
    match type of E with
    | (if ?b then _ else _) _ = _ => destruct b
    end.
    { inversion E; subst. split; [exact O|]. right.
      eexists. split; [reflexivity|discriminate]. }
    match type of E with
    | (if ?b then _ else _) _ = _ => destruct b; [|discriminate E]
    end.
    inversion E; subst. split; [exact O|]. right.
    eexists. split; [reflexivity|discriminate].
  - replace (String.eqb "freq" "time") with false in E by reflexivity.
    replace (String.eqb "freq" "freq") with true in E by reflexivity.
    apply bind_inv_Raise in E as [E|(w2 & d1 & R2 & E)].
    { apply np_asarray_raise in E as (-> & ->). auto. }
    apply np_asarray_inv in R2 as ((O2 & _) & _ & _).
    apply bind_inv_Raise in E as [E|(w2' & k & Rn & E)].
    { destruct n as [k'|].
      - match type of E with
        | (if ?b then _ else _) _ = _ => destruct b; [|discriminate E]
        end.
        inversion E; subst. split; [congruence|]. right.
        eexists. split; [reflexivity|discriminate].
      - unfold warnings_warn in E. rewrite run_emit in E. discriminate E. }
    assert (On : objs w2' = objs w2).
    { destruct n as [k'|].
      - match type of Rn with
        | (if ?b then _ else _) _ = _ => destruct b; [discriminate Rn|]
        end.
        now inversion Rn.
      - unfold warnings_warn in Rn. rewrite run_emit in Rn.
        now inversion Rn. }
    unfold FrequencyData.__init__ in E.
    apply bind_inv_Raise in E as [E|(w3 & s3 & R3 & E)].
    { apply _Audio_init_raise in E as (_ & _ & Hf). discriminate Hf. }
    apply _Audio_init_inv in R3 as ((O3 & _) & _ & nan3 & ->).
    apply bind_inv_Raise in E as [E|(w4 & d & R4 & E)].
    { apply np_asarray_raise in E as (-> & ->). split; [congruence|auto]. }
    apply np_asarray_inv in R4 as ((O4 & _) & _ & _).
    assert (O : objs w4 = objs w) by congruence.
    match type of E with
    | (if ?b then _ else _) _ = _ => destruct b
    end.
    { inversion E; subst. split; [exact O|]. right.
      eexists. split; [reflexivity|discriminate]. }
    match type of E with
    | (if ?b then _ else _) _ = _ => destruct b
    end.
    { inversion E; subst. split; [exact O|]. right.
      eexists. split; [reflexivity|discriminate]. }
    destruct (str_in (default "none" norm) _VALID_FFT_NORMS);
      [discriminate E|].
    inversion E; subst. split; [exact O|]. right.
    eexists. split; [reflexivity|]. cbn. discriminate.
Qed.

Lemma Signal_new_raise data sr n domain norm c dt w w' e :
  Signal.new data sr n domain norm c dt w = (w', Raise e) ->
  objs w' = objs w /\
  (e = DanglingReference \/
   exists msg, e = ValueError msg /\
               msg <> "Invalid domain. Has to be 'time' or 'freq'.").
Proof.
  unfold Signal.new. intros E.
  apply bind_inv_Raise in E as [E|(w1 & s & _ & E)];
    [|unfold new_obj in E; discriminate E].
  eapply Signal_init_raise; eauto.
Qed.

(** X4: a domain other than "time" and "freq" is rejected with the
    ValueError of [_Audio.__init__], leaving the world untouched; in
    the time domain an unknown normalization is rejected with the
    ValueError naming it; and whenever construction fails no object is
    created and the error is never the "Invalid domain. Has to be
    'time' or 'freq'." of the last branch of [Signal.__init__], which
    cannot be reached. *)
Theorem constructor_failures (w : world) (data : ndarray) (sr : rate)
        (n : option Z) (domain : string) (norm c : option string)
        (dt : dtype) :
  (str_in domain _VALID_DOMAINS = false ->
   Signal.new data sr n domain norm c dt w =
   (w, Raise (ValueError "Incorrect domain, needs to be time/freq."))) /\
  (forall flat,
     buf_read (bufs w) data = Some flat ->
     str_in (default "none" norm) _VALID_FFT_NORMS = false ->
     exists w',
       Signal.new data sr n "time" norm c dt w =
       (w', Raise (ValueError
                     (invalid_fft_norm_message (default "none" norm))))) /\
  (forall w' e,
     Signal.new data sr n domain norm c dt w = (w', Raise e) ->
     objs w' = objs w /\
     e <> ValueError "Invalid domain. Has to be 'time' or 'freq'.").
Proof.
  split; [|split].
  - intros Hd. unfold Signal.new, Signal.__init__, _Audio.__init__.
    rewrite Hd. reflexivity.
  - intros flat Hbuf Hnorm. unfold Signal.new, Signal.__init__.
    destruct (_Audio_init_run uninitialised "time" c dt w eq_refl)
      as (w1 & nan1 & R1 & A1).
    rewrite run_bind_assoc, (bind_Return _ _ _ _ _ R1).
    replace (String.eqb "time" "time") with true by reflexivity.
    destruct (np_asarray_run data dt w1 flat
                (allocates_buf_read _ _ _ _ A1 Hbuf))
      as (w2 & d1 & R2 & A2 & D1).
    rewrite run_bind_assoc, (bind_Return _ _ _ _ _ R2). rewrite Hnorm.
    exists w2. reflexivity.
  - intros w' e E. apply Signal_new_raise in E as (O & [->|(msg & -> & Hm)]).
    + split; [exact O|discriminate].
    + split; [exact O|]. intros Hf. inversion Hf. contradiction.
Qed.
End ConstructorFailure.

Section ConstructorDefaults.
Context `{TransformService}.

End ConstructorDefaults.

(** ** The invariant is kept *)

Section Invariant.
Context `{TransformService}.

(** what a returning [domain.fset] has done: nothing when the Signal
    is in the requested domain already, one transform otherwise *)
Lemma domain_setter_cases self d w w' :
  Signal.domain_setter self d w = (w', Return tt) ->
  (d = "time" \/ d = "freq") /\
  exists s,
    objs w !! self = Some s /\
    ((_domain s = d /\ w' = w) \/
     (_domain s <> d /\
      exists flat v n l,
        buf_read (bufs w) (_data s) = Some flat /\
        w' = {| bufs := bufs w ++ [av_flat v];
                objs := <[self := {| _data := np_atleast_2d (fresh_array w v);
                                     _domain := d; _dtype := _dtype s;
                                     _comment := _comment s;
                                     _sampling_rate := _sampling_rate s;
                                     _n_samples := n;
                                     _fft_norm := _fft_norm s |}]> (objs w);
                log := log w ++ l |} /\
        (d = "time" ->
           v = fft_irfft (value_of (_data s) flat) (_n_samples s)
                         (_sampling_rate s) (_fft_norm s) /\
           n = Z.of_nat (shape_last
                           (shape (np_atleast_2d (fresh_array w v)))) /\
           l = [Call_irfft (_n_samples s) (_sampling_rate s)
                           (_fft_norm s)]) /\
        (d = "freq" ->
           v = fft_rfft (value_of (_data s) flat) (_n_samples s)
                        (_sampling_rate s) (_fft_norm s) /\
           n <= 2 * Z.of_nat (shape_last
                                (shape (np_atleast_2d (fresh_array w v))))
                - 1 /\
           exists l', l = Call_rfft (_n_samples s) (_sampling_rate s)
                                    (_fft_norm s) :: l' /\
                      forall ev, In ev l' -> exists msg, ev = Warning msg))).
Proof.
  unfold Signal.domain_setter. intros E.
  destruct (str_in d _VALID_DOMAINS) eqn:Hd; [|discriminate E].
  cbn [negb] in E. split; [apply str_in_domains, Hd|].
  apply bind_inv_Return in E as (w0 & s & R & E).
  apply get_obj_inv in R as (-> & Hs). exists s. split; [exact Hs|].
  destruct (String.eqb (_domain s) d) eqn:Heq; cbn [negb] in E.
  { apply String.eqb_eq in Heq. inversion E. auto. }
  apply String.eqb_neq in Heq. right. split; [exact Heq|].
  destruct (str_in_domains _ Hd) as [->| ->].
  - replace (String.eqb "time" "time") with true in E by reflexivity.
    apply bind_inv_Return in E as (w1 & v & R & E).
    apply fft__irfft_inv in R as (flat & Hbuf & -> & ->).
    unfold Signal.time_setter in E.
    rewrite (run_time_setter self s) in E by (cbn [objs]; exact Hs).
    inversion E; subst w'. cbn [bufs objs log].
    eexists flat, _, _, _. split; [exact Hbuf|]. split; [reflexivity|].
    split; [intros _; auto|intros Hf; discriminate Hf].
  - replace (String.eqb "freq" "time") with false in E by reflexivity.
    replace (String.eqb "freq" "freq") with true in E by reflexivity.
    apply bind_inv_Return in E as (w1 & v & R & E).
    apply fft__rfft_inv in R as (flat & Hbuf & -> & ->).
    rewrite (run_freq_setter_explicit _ self s) in E
      by (cbn [objs]; exact Hs).
    cbn [bufs objs log] in E.
    change (Signal.n_samples s) with (_n_samples s) in *.
    set (v := fft_rfft (value_of (_data s) flat) (_n_samples s)
                       (_sampling_rate s) (_fft_norm s)) in *.
    set (nb := Z.of_nat (shape_last (shape (np_atleast_2d (fresh_array w v)))))
      in *.
    destruct (nb =? Signal.n_bins s) eqn:Hnb; inversion E; subst w'.
    + exists flat, v, (_n_samples s),
        [Call_rfft (_n_samples s) (_sampling_rate s) (_fft_norm s)].
      split; [exact Hbuf|]. split; [reflexivity|].
      split; [intros Hf; discriminate Hf|]. intros _.
      split; [reflexivity|]. split.
      * apply Z.eqb_eq in Hnb. unfold Signal.n_bins, Signal.n_samples,
          TimeData.n_samples, fft__n_bins in Hnb.
        pose proof (Z.mod_pos_bound (_n_samples s) 2 ltac:(lia)).
        pose proof (Z.div_mod (_n_samples s) 2 ltac:(lia)). lia.
      * exists []. split; [reflexivity|]. intros ev [].
    + eexists flat, v, ((nb - 1) * 2), (_ :: [_]).
      split; [exact Hbuf|]. rewrite <- app_assoc.
      split; [reflexivity|].
      split; [intros Hf; discriminate Hf|]. intros _.
      split; [reflexivity|]. split; [lia|].
      eexists. split; [reflexivity|].
      intros ev [<-|[]]. eexists; reflexivity.
Qed.

(** X6: the invariant of a Signal object is kept by every way its
    buffer is replaced: writing time data, writing frequency data (of
    any shape) and converting between the domains (whatever shape the
    transform returns) leave a well-formed object in the domain that
    was asked for; the sampling rate and the normalization stay. *)
Theorem setters_keep_invariant (w : world) (self : ref) (s : SignalObj) :
  objs w !! self = Some s ->
  well_formed s ->
  (forall value, exists w' s',
     Signal.time_setter self value w = (w', Return tt) /\
     objs w' = <[self := s']> (objs w) /\
     well_formed s' /\ _domain s' = "time" /\
     _sampling_rate s' = _sampling_rate s /\ _fft_norm s' = _fft_norm s) /\
  (forall value, exists w' s',
     Signal.freq_setter self value w = (w', Return tt) /\
     objs w' = <[self := s']> (objs w) /\
     well_formed s' /\ _domain s' = "freq" /\
     _sampling_rate s' = _sampling_rate s /\ _fft_norm s' = _fft_norm s) /\
  (forall d w',
     Signal.domain_setter self d w = (w', Return tt) ->
     exists s',
       objs w' = <[self := s']> (objs w) /\
       well_formed s' /\ _domain s' = d /\
       _sampling_rate s' = _sampling_rate s /\ _fft_norm s' = _fft_norm s).
Proof.
  intros Hs (Wd & Wn & Wr & Wt & Wf). split; [|split].
  - intros value. unfold Signal.time_setter.
    rewrite (run_time_setter _ _ _ _ Hs).
    eexists _, _. split; [reflexivity|]. cbn [objs].
    split; [reflexivity|]. split; [|auto].
    unfold well_formed. sig_simpl.
    split; [auto|]. split; [exact Wn|].
    split; [apply rank_atleast_2d|]. split; [reflexivity|].
    intros Hf; discriminate Hf.
  - intros value.
    pose proof (run_freq_setter_explicit w self s value Hs) as R.
    cbv zeta in R.
    set (nb := Z.of_nat (shape_last (shape (np_atleast_2d value)))) in *.
    destruct (nb =? Signal.n_bins s) eqn:Hnb.
    + eexists _, _. split; [exact R|]. cbn [objs].
      split; [reflexivity|]. split; [|auto].
      unfold well_formed. sig_simpl.
      split; [auto|]. split; [exact Wn|].
      split; [apply rank_atleast_2d|].
      split; [intros Hf; discriminate Hf|]. intros _. fold nb.
      apply Z.eqb_eq in Hnb. unfold Signal.n_bins, Signal.n_samples,
        TimeData.n_samples, fft__n_bins in Hnb.
      pose proof (Z.mod_pos_bound (_n_samples s) 2 ltac:(lia)).
      pose proof (Z.div_mod (_n_samples s) 2 ltac:(lia)). lia.
    + eexists _, _. split; [exact R|]. cbn [objs].
      split; [reflexivity|]. split; [|auto].
      unfold well_formed. sig_simpl.
      split; [auto|]. split; [exact Wn|].
      split; [apply rank_atleast_2d|].
      split; [intros Hf; discriminate Hf|]. intros _. fold nb. lia.
  - intros d w' E.
    apply domain_setter_cases in E as (Hd & s0 & Hs0 & C).
    rewrite Hs in Hs0. inversion Hs0; subst s0. clear Hs0.
    destruct C as [(Hdom & ->)|(Hne & flat & v & n & l & Hbuf & -> & Ht & Hf)].
    + exists s. rewrite list_insert_id by exact Hs.
      split; [reflexivity|]. split; [|auto].
      split; [exact Wd|]. auto.
    + eexists. cbn [objs]. split; [reflexivity|]. sig_simpl.
      split; [|auto]. unfold well_formed. sig_simpl.
      split; [destruct Hd; auto|]. split; [exact Wn|].
      split; [apply rank_atleast_2d|]. split.
      * intros Hd'. destruct (Ht Hd') as (_ & -> & _). reflexivity.
      * intros Hd'. destruct (Hf Hd') as (_ & Hn & _). exact Hn.
Qed.
End Invariant.

(** ** Selecting channels *)

Section GetItem.
Context `{TransformService}.



Lemma np_getitem_int a i d0 rest j :
  shape a = d0 :: rest -> int_index i d0 = Return j ->
  np_getitem a [Int i] = Return (np_row a j).
Proof.
  intros Hsh Hi. unfold np_getitem, np_row. rewrite Hsh.
  cbn [index_shape index_offs tail]. rewrite Hi. reflexivity.
Qed.

Lemma except_KeyError_pass {A} (m : M A) msg w w' o :
  m w = (w', o) -> (forall x, o <> Raise (KeyError x)) ->
  except_KeyError m msg w = (w', o).
Proof.
  intros E Hne. unfold except_KeyError. rewrite E.
  destruct o as [[]|]; try reflexivity. exfalso. eapply Hne. reflexivity.
Qed.




End GetItem.

Section GetItemErrors.
Context `{TransformService}.

Lemma int_index_raise i d e :
  int_index i d = Raise e -> e = IndexError "index is out of bounds for axis".
Proof.
  unfold int_index.
  destruct ((_ <? 0) || (_ <=? _)); intros E; inversion E; reflexivity.
Qed.

Lemma int_index_out i d :
  i < - Z.of_nat d \/ Z.of_nat d <= i ->
  int_index i d = Raise (IndexError "index is out of bounds for axis").
Proof.
  intros Hi. unfold int_index.
  destruct (i <? 0) eqn:Hneg;
    [apply Z.ltb_lt in Hneg|apply Z.ltb_ge in Hneg];
    match goal with
    | |- (if (?a <? 0) || (?b <=? ?c) then _ else _) = _ =>
        destruct (a <? 0) eqn:A; destruct (b <=? c) eqn:B
    end; cbn [orb]; try reflexivity;
    apply Z.ltb_ge in A; apply Z.leb_gt in B; lia.
Qed.

Lemma slice_indices_raise a b c d e :
  slice_indices a b c d = Raise e -> e = ValueError "slice step cannot be zero".
Proof.
  unfold slice_indices.
  destruct (default 1 c =? 0); intros E; inversion E; reflexivity.
Qed.

Lemma index_shape_raise items sh e :
  index_shape items sh = Raise e -> forall msg, e <> KeyError msg.
Proof.
  revert sh. induction items as [|it items IH]; intros sh; cbn [index_shape];
    [discriminate|].
  destruct sh as [|d rest]; [intros E; inversion E; discriminate|].
  destruct it as [i|a b c].
  - destruct (int_index i d) as [e'|j] eqn:Ei.
    + apply int_index_raise in Ei as ->. intros E; inversion E; discriminate.
    + apply IH.
  - destruct (slice_indices a b c d) as [e'|js] eqn:Es.
    + apply slice_indices_raise in Es as ->.
      intros E; inversion E; discriminate.
    + destruct (index_shape items rest) as [e'|sh'] eqn:Ei; [|discriminate].
      intros E. inversion E; subst e'. eapply IH; eauto.
Qed.

Lemma get_obj_raise r w w' e :
  get_obj r w = (w', Raise e) -> w' = w /\ e = DanglingReference.
Proof.
  unfold get_obj. destruct (objs w !! r); [discriminate|].
  intros E. inversion E. auto.
Qed.

(** X9: a key that is not an int, a slice or a tuple is rejected with
    a TypeError naming its type, an int outside the first axis with
    numpy's IndexError, both leaving the world untouched; and however
    [self[key]] fails, no object is created and the error is never a
    KeyError: the handler that rewords a KeyError is never entered. *)
Theorem getitem_errors (w : world) (self : ref) :
  (forall nm,
     Signal.__getitem__ self (KOther nm) w =
     (w, Raise (TypeError ("Index must be int, not " ++ nm)))) /\
  (forall s i d0 rest,
     objs w !! self = Some s ->
     shape (_data s) = d0 :: rest ->
     i < - Z.of_nat d0 \/ Z.of_nat d0 <= i ->
     Signal.__getitem__ self (KInt i) w =
     (w, Raise (IndexError "index is out of bounds for axis"))) /\
  (forall k w' e,
     Signal.__getitem__ self k w = (w', Raise e) ->
     objs w' = objs w /\ forall msg, e <> KeyError msg).
Proof.
  split; [|split].
  - intros nm. reflexivity.
  - intros s i d0 rest Hs Hsh Hi.
    unfold Signal.__getitem__, _Audio.__getitem__.
    assert (Hbody :
              (bind (get_obj self)
                 (fun s0 => lift (np_getitem (_data s0)
                    (default [] (_Audio.items_of_key (KInt i)))))) w
              = (w, Raise (IndexError "index is out of bounds for axis"))).
    { rewrite (run_get_obj _ _ _ _ Hs).
      change (default [] (_Audio.items_of_key (KInt i))) with [Int i].
      unfold np_getitem. rewrite Hsh. cbn [index_shape].
      rewrite (int_index_out _ _ Hi). reflexivity. }
    erewrite bind_Raise; [reflexivity|].
    apply except_KeyError_pass; [exact Hbody|discriminate].
  - intros k w' e E. unfold Signal.__getitem__, _Audio.__getitem__ in E.
    apply bind_inv_Raise in E as [E|(w1 & d & R & E)].
    + destruct k as [i|a b c|its|nm];
        try (inversion E; subst; split; [reflexivity|discriminate]);
        unfold except_KeyError in E;
        match type of E with
        | match ?m with _ => _ end = _ => destruct m as [w1 [e1|x]] eqn:Em
        end;
        try (inversion E; discriminate);
        (apply bind_inv_Raise in Em as [Em|(w2 & s0 & Rg & Em)];
         [apply get_obj_raise in Em as (-> & ->); inversion E; subst;
          split; [reflexivity|discriminate]
         |apply get_obj_inv in Rg as (-> & _);
          unfold lift in Em; inversion Em; subst w1;
          unfold np_getitem in *;
          match goal with
          | Hx : match index_shape ?i ?sh with _ => _ end = _ |- _ =>
              destruct (index_shape i sh) eqn:Ei; [|discriminate Hx];
              inversion Hx; subst;
              pose proof (index_shape_raise _ _ _ Ei) as Hk
          end;
          destruct e1; try (inversion E; subst; split;
                            [reflexivity|discriminate]);
          exfalso; eapply Hk; reflexivity]).
    + assert (O1 : objs w1 = objs w).
      { destruct k as [i|a b c|its|nm]; [| | |discriminate R];
          unfold except_KeyError in R;
          match type of R with
          | match ?m with _ => _ end = _ => destruct m as [w2 [e1|x]] eqn:Em
          end;
          try (destruct e1; discriminate R);
          inversion R; subst;
          apply bind_inv_Return in Em as (w3 & s0 & Rg & Em);
          apply get_obj_inv in Rg as (-> & _);
          unfold lift in Em; now inversion Em. }
      unfold Signal._return_item in E.
      apply bind_inv_Raise in E as [E|(w2 & s0 & Rg & E)].
      * apply get_obj_raise in E as (-> & ->). split; [exact O1|discriminate].
      * apply get_obj_inv in Rg as (-> & _).
        apply Signal_new_raise in E as (O & [->|(msg & -> & _)]);
          (split; [congruence|discriminate]).
Qed.
End GetItemErrors.

(** ** Iteration: what it touches, and its guard *)

Section IterationFrame.
Context `{TransformService}.




(** X11: an iterator refuses to go on once its Signal has changed
    domain: after [iter(signal)], a conversion of the Signal to the
    other domain makes the next step raise RuntimeError, and the
    failing step changes nothing. *)
Theorem iteration_guards_domain_change (w w1 w2 : world) (self : ref)
        (s : SignalObj) (it : SignalIteratorObj) (d : string) :
  objs w !! self = Some s ->
  Signal__iter__ self w = (w1, Return it) ->
  Signal.domain_setter self d w1 = (w2, Return tt) ->
  d <> _domain s ->
  SignalIterator.__next__ it w2 =
  (w2, Raise (RuntimeError "domain changes during iterations break stuff!")).
Proof.
  intros Hs Hiter Hset Hne.
  unfold Signal__iter__ in Hiter.
  apply bind_inv_Return in Hiter as (w0 & s0 & R & Hiter).
  apply get_obj_inv in R as (-> & Hs0).
  rewrite Hs in Hs0. inversion Hs0; subst s0. clear Hs0.
  apply bind_inv_Return in Hiter as (w0 & ai & R & Hiter).
  unfold lift in R. inversion R; subst w0. clear R.
  unfold SignalIterator.__init__ in Hiter.
  apply bind_inv_Return in Hiter as (w0 & s0 & R & Hiter).
  apply get_obj_inv in R as (-> & Hs0).
  rewrite Hs in Hs0. inversion Hs0; subst s0. clear Hs0.
  apply bind_inv_Return in Hiter as (w0 & first & R & Hiter).
  unfold lift in R. inversion R; subst w0. clear R.
  apply bind_inv_Return in Hiter as (w0 & r & R & Hiter).
  unfold ret in Hiter. inversion Hiter; subst w0 it. clear Hiter.
  apply Signal_new_inv in R
    as (-> & _ & _ & _ & s' & d' & O & _ & Hdom' & _).
  assert (Hlt : (self < length (objs w))%nat)
    by (eapply lookup_lt_Some; eauto).
  apply domain_setter_cases in Hset as (_ & s1 & Hs1 & C).
  rewrite O, lookup_app_l in Hs1 by exact Hlt.
  assert (Heq : Some s1 = Some s) by exact (eq_trans (eq_sym Hs1) Hs).
  inversion Heq; subst s1. clear Heq Hs1.
  destruct C as [(Hsame & _)|(_ & flat & v & n & l & _ & -> & _)];
    [congruence|].
  unfold SignalIterator.__next__. cbn [_signal _iterated_sig].
  erewrite run_get_obj
    by (cbn [objs]; apply list_lookup_insert_eq; rewrite O, length_app; lia).
  erewrite run_get_obj
    by (cbn [objs]; rewrite list_lookup_insert_ne by lia;
        rewrite O, lookup_app_r, Nat.sub_diag by lia; reflexivity).
  unfold _Audio.domain in *. sig_simpl. rewrite Hdom'.
  apply String.eqb_neq in Hne. rewrite Hne. reflexivity.
Qed.
End IterationFrame.

(** ** Arithmetic: its effect on the operands *)

Section ArithmeticEffects.
Context `{TransformService}.

Lemma converted_to_refl d s : converted_to d s s.
Proof. unfold converted_to. auto 6. Qed.

Lemma converted_to_trans d s1 s2 s3 :
  converted_to d s1 s2 -> converted_to d s2 s3 -> converted_to d s1 s3.
Proof.
  intros (A1 & A2 & A3 & A4 & A5) (B1 & B2 & B3 & B4 & B5).
  unfold converted_to. repeat split; try congruence.
  destruct B5 as [->|B5]; auto.
Qed.

Lemma converts_to_refl d w : converts_to d w w.
Proof.
  split; [exists []; now rewrite app_nil_r|].
  intros r s Hs. exists s. split; [exact Hs|apply converted_to_refl].
Qed.

Lemma converts_to_trans d w1 w2 w3 :
  converts_to d w1 w2 -> converts_to d w2 w3 -> converts_to d w1 w3.
Proof.
  intros [[e1 B1] O1] [[e2 B2] O2]. split.
  - exists (e1 ++ e2). rewrite B2, B1, app_assoc. reflexivity.
  - intros r s Hs. destruct (O1 r s Hs) as (s2 & Hs2 & C1).
    destruct (O2 r s2 Hs2) as (s3 & Hs3 & C2).
    exists s3. split; [exact Hs3|eapply converted_to_trans; eauto].
Qed.

(** steps that leave the objects alone *)
Lemma converts_to_same_objs d w w' :
  objs w' = objs w -> (exists ext, bufs w' = bufs w ++ ext) ->
  converts_to d w w'.
Proof.
  intros O B. split; [exact B|]. intros r s Hs. exists s.
  rewrite O. split; [exact Hs|apply converted_to_refl].
Qed.

Lemma converts_to_stays d w w' r s :
  converts_to d w w' -> objs w !! r = Some s -> _domain s = d ->
  exists s', objs w' !! r = Some s' /\ _domain s' = d.
Proof.
  intros [_ O] Hs Hd. destruct (O r s Hs) as (s' & Hs' & C).
  exists s'. split; [exact Hs'|].
  destruct C as (_ & _ & _ & _ & [->|C]); auto.
Qed.

Lemma converts_domain_setter self d w w' :
  Signal.domain_setter self d w = (w', Return tt) ->
  converts_to d w w' /\
  exists s', objs w' !! self = Some s' /\ _domain s' = d.
Proof.
  intros E. apply domain_setter_cases in E as (_ & s & Hs & C).
  destruct C as [(Hd & ->)|(_ & flat & v & n & l & _ & -> & _)].
  - split; [apply converts_to_refl|eauto].
  - split.
    + split; [cbn [bufs]; eauto|]. intros r s0 Hs0. cbn [objs].
      destruct (Nat.eq_dec r self) as [->|Hne].
      * assert (Heq : Some s0 = Some s)
          by exact (eq_trans (eq_sym Hs0) Hs).
        inversion Heq; subst s0.
        eexists. split; [eapply lookup_put; eauto|].
        unfold converted_to. sig_simpl. auto 6.
      * exists s0. rewrite list_lookup_insert_ne by auto.
        split; [exact Hs0|apply converted_to_refl].
    + eexists. cbn [objs]. split; [eapply lookup_put; eauto|reflexivity].
Qed.

Lemma converts_getter (getter : ref -> M ndarray) self d w w' t :
  (getter = Signal.time /\ d = "time") \/
  (getter = Signal.freq /\ d = "freq") ->
  getter self w = (w', Return t) ->
  converts_to d w w' /\
  exists s', objs w' !! self = Some s' /\ _domain s' = d.
Proof.
  intros [[-> ->]|[-> ->]] E; unfold Signal.time, Signal.freq in E;
    apply bind_inv_Return in E as (w1 & [] & R & E);
    apply bind_inv_Return in E as (w2 & s & Rg & E);
    apply get_obj_inv in Rg as (-> & _); inversion E; subst w';
    apply converts_domain_setter, R.
Qed.

Lemma converts_get_arithmetic_data x n d w w' a :
  _get_arithmetic_data x n d w = (w', Return a) ->
  converts_to d w w' /\
  forall r, x = Sig r -> exists s', objs w' !! r = Some s' /\ _domain s' = d.
Proof.
  intros E. destruct x as [r|a0]; cbn [_get_arithmetic_data] in E.
  - destruct (String.eqb d "time") eqn:Ht.
    + apply String.eqb_eq in Ht as ->.
      apply bind_inv_Return in E as (w1 & t & R & E).
      eapply converts_getter in R as (C & s' & Hs' & Hd); [|left; eauto].
      apply np_copy_inv in E as (flat & -> & ->).
      split.
      * eapply converts_to_trans; [exact C|].
        apply converts_to_same_objs; cbn [objs bufs]; eauto.
      * intros r0 Hr. inversion Hr; subst r0. cbn [objs]. eauto.
    + destruct (String.eqb d "freq") eqn:Hf; [|discriminate E].
      apply String.eqb_eq in Hf as ->.
      apply bind_inv_Return in E as (w1 & t & R & E).
      eapply converts_getter in R as (C & s' & Hs' & Hd); [|right; eauto].
      apply bind_inv_Return in E as (w2 & c & R & E).
      apply np_copy_inv in R as (flat & -> & ->).
      apply bind_inv_Return in E as (w3 & s & R & E).
      apply get_obj_inv in R as [-> _].
      destruct (negb (String.eqb (FrequencyData.fft_norm s) "none")).
      * destruct n as [n|]; [|discriminate E].
        apply fft__normalization_inv in E as (fl & _ & -> & ->).
        cbn [bufs objs log]. split.
        -- eapply converts_to_trans; [exact C|].
           apply converts_to_same_objs; cbn [objs bufs]; [reflexivity|].
           rewrite <- app_assoc. eauto.
        -- intros r0 Hr. inversion Hr; subst r0. cbn [objs]. eauto.
      * inversion E; subst. split.
        -- eapply converts_to_trans; [exact C|].
           apply converts_to_same_objs; cbn [objs bufs]; eauto.
        -- intros r0 Hr. inversion Hr; subst r0. cbn [objs]. eauto.
  - inversion E; subst. split; [apply converts_to_refl|].
    intros r Hr; discriminate Hr.
Qed.

Lemma converts_fold_operands op result rest n d w w' res :
  fold_operands op result rest n d w = (w', Return res) ->
  converts_to d w w' /\
  forall r, In (Sig r) rest ->
    exists s', objs w' !! r = Some s' /\ _domain s' = d.
Proof.
  revert result w. induction rest as [|x rest IH]; intros result w E.
  - inversion E; subst. split; [apply converts_to_refl|intros r []].
  - cbn [fold_operands] in E.
    apply bind_inv_Return in E as (w1 & a & R & E).
    apply converts_get_arithmetic_data in R as (C1 & Hx).
    apply bind_inv_Return in E as (w2 & r' & R & E).
    apply np_operate_inv in R as (flat & sh & dt & -> & _ & ->).
    apply IH in E as (C2 & Hrest).
    assert (C12 : converts_to d w1 w').
    { eapply converts_to_trans; [|exact C2].
      apply converts_to_same_objs; cbn [objs bufs]; eauto. }
    split; [eapply converts_to_trans; eauto|].
    intros r [->|Hin]; [|apply Hrest, Hin].
    destruct (Hx r eq_refl) as (s1 & Hs1 & Hd1).
    exact (converts_to_stays _ _ _ _ _ C12 Hs1 Hd1).
Qed.

(** X12: arithmetic has a side effect on its operands and only that
    one: every Signal operand of a returned call is left in the domain
    the operation was carried out in (for the operators: the
    frequency domain), its buffer and sample count being those of the
    conversion; the sampling rate, normalization, dtype and comment of
    every object are kept, an object is either untouched or in that
    domain, and no existing buffer is written: buffers are only
    added. *)
Theorem arithmetic_converts_operands (items : list pyobj) (domain : string)
        (op : operation) (w w' : world) (res : pyobj) :
  _arithmetic (Tuple items) domain op w = (w', Return res) ->
  (exists ext, bufs w' = bufs w ++ ext) /\
  (forall r s, objs w !! r = Some s ->
     exists s', objs w' !! r = Some s' /\ converted_to domain s s') /\
  (forall r, In (Sig r) items ->
     exists s', objs w' !! r = Some s' /\ _domain s' = domain).
Proof.
  intros E.
  apply arithmetic_steps in E
    as (meta & d0 & rest & w1 & r0 & w2 & r1 & -> & _ & _ & R0 & R1 & E).
  apply converts_get_arithmetic_data in R0 as (C0 & Hd0).
  apply converts_fold_operands in R1 as (C1 & Hd1r).
  assert (C : converts_to domain w w2)
    by (eapply converts_to_trans; eauto).
  assert (Hops : forall r, In (Sig r) (d0 :: rest) ->
                   exists s', objs w2 !! r = Some s' /\ _domain s' = domain).
  { intros r [->|Hin]; [|apply Hd1r, Hin].
    destruct (Hd0 r eq_refl) as (s1 & Hs1 & Hd1).
    exact (converts_to_stays _ _ _ _ _ C1 Hs1 Hd1). }
  assert (C' : converts_to domain w2 w').
  { destruct meta as [[[sr n] norm]|].
    - destruct E as (w3 & r2 & r & R2 & R3 & _).
      assert (C23 : converts_to domain w2 w3).
      { destruct (String.eqb domain "freq").
        - apply fft__normalization_inv in R2 as (fl & _ & -> & _).
          apply converts_to_same_objs; cbn [objs bufs]; eauto.
        - inversion R2; subst. apply converts_to_refl. }
      eapply converts_to_trans; [exact C23|].
      apply Signal_new_inv in R3
        as (_ & B & _ & _ & s' & d' & O & _).
      split; [exact B|]. intros r3 s3 Hs3. exists s3. rewrite O.
      split; [apply lookup_app_l_Some, Hs3|apply converted_to_refl].
    - destruct E as [_ ->]. apply converts_to_refl. }
  destruct (converts_to_trans _ _ _ _ C C') as [B O].
  split; [exact B|]. split; [exact O|].
  intros r Hin. destruct (Hops r Hin) as (s2 & Hs2 & Hd2).
  exact (converts_to_stays _ _ _ _ _ C' Hs2 Hd2).
Qed.
End ArithmeticEffects.

Section ArithmeticQuiet.
Context `{TransformService}.

Lemma signal_operands_nil_In items r :
  signal_operands items = [] -> ~ In (Sig r) items.
Proof.
  induction items as [|[r0|a] items IH]; cbn; [auto|discriminate|].
  intros E [Hf|Hin]; [discriminate Hf|]. exact (IH E Hin).
Qed.

(** fetching an operand that is an array, or a Signal already in the
    domain of the operation *)
Lemma quiet_get_arithmetic_data x n d w w' a :
  _get_arithmetic_data x n d w = (w', Return a) ->
  (forall r, x = Sig r -> exists s, objs w !! r = Some s /\ _domain s = d) ->
  objs w' = objs w /\ (exists ext, bufs w' = bufs w ++ ext) /\
  exists l, log w' = log w ++ l /\
            Forall (fun ev => is_transform ev = false) l /\
            (d = "time" \/ (exists a0, x = Arr a0) -> l = []).
Proof.
  intros E Hx. destruct x as [r|a0]; cbn [_get_arithmetic_data] in E.
  - destruct (Hx r eq_refl) as (s & Hs & Hd).
    destruct (String.eqb d "time") eqn:Ht.
    + apply String.eqb_eq in Ht. subst d.
      rewrite (bind_Return _ _ _ _ _ (time_read_cached _ _ _ Hs Hd)) in E.
      apply np_copy_inv in E as (flat & -> & ->). cbn [objs bufs log].
      split; [reflexivity|]. split; [eauto|].
      exists []. rewrite app_nil_r. auto.
    + destruct (String.eqb d "freq") eqn:Hf; [|discriminate E].
      apply String.eqb_eq in Hf. subst d.
      rewrite (bind_Return _ _ _ _ _ (freq_read_cached _ _ _ Hs Hd)) in E.
      apply bind_inv_Return in E as (w2 & c & R & E).
      apply np_copy_inv in R as (flat & -> & ->).
      apply bind_inv_Return in E as (w3 & s0 & R & E).
      apply get_obj_inv in R as [-> _].
      destruct (negb (String.eqb (FrequencyData.fft_norm s0) "none")).
      * destruct n as [n|]; [|discriminate E].
        apply fft__normalization_inv in E as (fl & _ & -> & ->).
        cbn [bufs objs log]. split; [reflexivity|].
        split; [rewrite <- app_assoc; eauto|].
        eexists [_]. split; [reflexivity|].
        split; [constructor; [reflexivity|constructor]|].
        intros [Hf|(a0 & Hf)]; discriminate Hf.
      * inversion E; subst. cbn [objs bufs log].
        split; [reflexivity|]. split; [eauto|].
        exists []. rewrite app_nil_r.
        split; [reflexivity|]. split; [constructor|auto].
  - inversion E; subst. split; [reflexivity|].
    split; [exists []; now rewrite app_nil_r|].
    exists []. rewrite app_nil_r. auto.
Qed.

Lemma quiet_fold_operands op result rest n d w w' res :
  fold_operands op result rest n d w = (w', Return res) ->
  (forall r, In (Sig r) rest ->
     exists s, objs w !! r = Some s /\ _domain s = d) ->
  objs w' = objs w /\ (exists ext, bufs w' = bufs w ++ ext) /\
  exists l, log w' = log w ++ l /\
            Forall (fun ev => is_transform ev = false) l /\
            (d = "time" \/ signal_operands rest = [] ->
             l = replicate (length rest) (Call_operation op)).
Proof.
  revert result w. induction rest as [|x rest IH]; intros result w E Hlive.
  - inversion E; subst. split; [reflexivity|].
    split; [exists []; now rewrite app_nil_r|].
    exists []. rewrite app_nil_r. auto.
  - cbn [fold_operands] in E.
    apply bind_inv_Return in E as (w1 & a & R & E).
    apply quiet_get_arithmetic_data in R
      as (O1 & (e1 & B1) & l1 & L1 & F1 & X1);
      [|intros r ->; apply Hlive; left; reflexivity].
    apply bind_inv_Return in E as (w2 & r' & R & E).
    apply np_operate_inv in R as (flat & sh & dt & -> & _ & ->).
    apply IH in E as (O2 & (e2 & B2) & l2 & L2 & F2 & X2);
      [|cbn [objs]; intros r Hin; rewrite O1; apply Hlive; right; exact Hin].
    cbn [objs bufs log] in *.
    split; [congruence|].
    split; [exists (e1 ++ flat :: e2);
            rewrite B2, B1, <- !app_assoc; reflexivity|].
    exists (l1 ++ Call_operation op :: l2).
    split; [rewrite L2, L1, <- !app_assoc; reflexivity|].
    split; [apply Forall_app; split; [exact F1|];
            constructor; [reflexivity|exact F2]|].
    intros Hc. rewrite X1, X2.
    + reflexivity.
    + destruct Hc as [Hc|Hc]; [auto|]. right.
      destruct x as [r|a0]; [discriminate Hc|exact Hc].
    + destruct Hc as [Hc|Hc]; [auto|]. right.
      destruct x as [r|a0]; [discriminate Hc|eauto].
Qed.

(** the steps of a returned call, when every Signal operand is in the
    domain of the operation already *)
Lemma quiet_arithmetic items domain op w w' res :
  _arithmetic (Tuple items) domain op w = (w', Return res) ->
  (forall r, In (Sig r) items ->
     exists s, objs w !! r = Some s /\ _domain s = domain) ->
  (exists ext, bufs w' = bufs w ++ ext) /\
  (exists l, log w' = log w ++ l /\
             Forall (fun ev => is_transform ev = false) l /\
             (domain = "time" \/ signal_operands items = [] ->
              l = replicate (length items - 1) (Call_operation op))) /\
  (signal_operands items = [] ->
     objs w' = objs w /\ exists a, res = Arr a /\
     forall a0, items = [Arr a0] -> a = a0 /\ w' = w) /\
  (signal_operands items <> [] ->
     exists r s', res = Sig r /\ objs w' = objs w ++ [s']).
Proof.
  intros E Hlive.
  apply arithmetic_steps in E
    as (meta & d0 & rest & w1 & r0 & w2 & r1 & -> & Rc & Hd & R0 & R1 & E).
  pose proof (check_operands_meta _ _ _ _ _ _ Rc) as Hmeta.
  pose proof R0 as R0'. pose proof R1 as R1'.
  apply quiet_get_arithmetic_data in R0
    as (O1 & (e1 & B1) & l1 & L1 & F1 & X1);
    [|intros r ->; apply Hlive; left; reflexivity].
  apply quiet_fold_operands in R1 as (O2 & (e2 & B2) & l2 & L2 & F2 & X2);
    [|intros r Hin; rewrite O1; apply Hlive; right; exact Hin].
  replace (length (d0 :: rest) - 1)%nat with (length rest)
    by (cbn [length]; lia).
  destruct meta as [[[sr n] norm]|].
  - destruct E as (w3 & r2 & r & R2 & R3 & ->).
    assert (Hne : signal_operands (d0 :: rest) <> []).
    { intros Hnil. unfold operand_signals in Hmeta. rewrite Hnil in Hmeta.
      discriminate Hmeta. }
    apply Signal_new_inv in R3
      as (_ & (e4 & B4) & L4 & _ & s' & d' & O4 & _).
    specialize (L4 ltac:(discriminate)).
    assert (H3 : objs w3 = objs w2 /\
                 (exists e3, bufs w3 = bufs w2 ++ e3) /\
                 exists l3, log w3 = log w2 ++ l3 /\
                            Forall (fun ev => is_transform ev = false) l3 /\
                            (domain = "time" -> l3 = [])).
    { destruct (String.eqb domain "freq") eqn:Hf.
      - apply String.eqb_eq in Hf.
        apply fft__normalization_inv in R2 as (fl & _ & -> & _).
        cbn [objs bufs log]. split; [reflexivity|]. split; [eauto|].
        eexists [_]. split; [reflexivity|].
        split; [constructor; [reflexivity|constructor]|].
        intros Ht. congruence.
      - inversion R2; subst. split; [reflexivity|].
        split; [exists []; now rewrite app_nil_r|].
        exists []. rewrite app_nil_r. auto. }
    destruct H3 as (O3 & (e3 & B3) & l3 & L3 & F3 & X3).
    split; [exists (e1 ++ e2 ++ e3 ++ e4);
            rewrite B4, B3, B2, B1, <- !app_assoc; reflexivity|].
    split.
    { exists (l1 ++ l2 ++ l3).
      split; [rewrite L4, L3, L2, L1, <- !app_assoc; reflexivity|].
      split; [repeat (apply Forall_app; split); assumption|].
      intros [Ht|Hnil]; [|contradiction].
      rewrite X1, X2, X3 by auto. now rewrite app_nil_r. }
    split; [intros Hnil; contradiction|].
    intros _. exists r, s'. split; [reflexivity|]. congruence.
  - destruct E as [-> ->].
    assert (Hnil : signal_operands (d0 :: rest) = []).
    { destruct (signal_operands (d0 :: rest)) as [|r rs] eqn:Es;
        [reflexivity|].
      pose proof (operand_signals_nonempty _ _ _ _ _ _ Rc
                    ltac:(rewrite Es; discriminate)) as Hne.
      destruct (operand_signals w (d0 :: rest)); [contradiction|].
      discriminate Hmeta. }
    split; [exists (e1 ++ e2); rewrite B2, B1, <- app_assoc; reflexivity|].
    split.
    { exists (l1 ++ l2).
      split; [rewrite L2, L1, <- app_assoc; reflexivity|].
      split; [apply Forall_app; split; assumption|].
      intros Hc. destruct d0 as [r|a0]; [discriminate Hnil|].
      rewrite X1 by eauto. cbn [signal_operands] in Hnil.
      rewrite X2 by auto. reflexivity. }
    split; [|intros Hne; contradiction].
    intros _. split; [congruence|]. exists r1. split; [reflexivity|].
    intros a0 Hi. inversion Hi; subst.
    cbn [_get_arithmetic_data fold_operands] in R0', R1'.
    inversion R0'; subst. inversion R1'; subst. auto.
Qed.

(** X13: when every Signal operand is already in the domain of the
    operation, a returned arithmetic call transforms nothing and
    leaves all operands untouched: the log gains no call of the
    forward or inverse transform, the result is the one object added
    to the store, and no existing buffer is written; in the time
    domain the log gains exactly one entry per combination of two
    operands. *)
Theorem arithmetic_in_the_operands_domain (items : list pyobj)
        (domain : string) (op : operation) (w w' : world) (res : pyobj) :
  _arithmetic (Tuple items) domain op w = (w', Return res) ->
  signal_operands items <> [] ->
  (forall r, In (Sig r) items ->
     exists s, objs w !! r = Some s /\ _domain s = domain) ->
  exists r s' l,
    res = Sig r /\ objs w' = objs w ++ [s'] /\
    (exists ext, bufs w' = bufs w ++ ext) /\
    log w' = log w ++ l /\
    Forall (fun ev => is_transform ev = false) l /\
    (domain = "time" ->
     l = replicate (length items - 1) (Call_operation op)).
Proof.
  intros E Hne Hlive.
  destruct (quiet_arithmetic _ _ _ _ _ _ E Hlive)
    as (B & (l & L & F & X) & _ & Hsig).
  destruct (Hsig Hne) as (r & s' & -> & O).
  exists r, s', l. auto 8.
Qed.

(** X14: arithmetic on arrays alone (no Signal among the operands)
    returns a plain array, creates no Signal object, calls nothing of
    the transform service and logs one combination per further
    operand; a single array operand is returned as it is, not
    copied. *)
Theorem arithmetic_on_arrays_only (items : list pyobj) (domain : string)
        (op : operation) (w w' : world) (res : pyobj) :
  _arithmetic (Tuple items) domain op w = (w', Return res) ->
  signal_operands items = [] ->
  exists a,
    res = Arr a /\ objs w' = objs w /\
    (exists ext, bufs w' = bufs w ++ ext) /\
    log w' = log w ++ replicate (length items - 1) (Call_operation op) /\
    (forall a0, items = [Arr a0] -> a = a0 /\ w' = w).
Proof.
  intros E Hnil.
  assert (Hlive : forall r, In (Sig r) items ->
                    exists s, objs w !! r = Some s /\ _domain s = domain)
    by (intros r Hin; destruct (signal_operands_nil_In _ r Hnil Hin)).
  destruct (quiet_arithmetic _ _ _ _ _ _ E Hlive)
    as (B & (l & L & F & X) & Harr & _).
  destruct (Harr Hnil) as (O & a & -> & Hone).
  exists a. rewrite L, X by auto. auto 8.
Qed.
End ArithmeticQuiet.

(** ** Malformed calls, and the checks of [TimeData] *)

Section Edges.
Context `{TransformService}.

(** X15: the arithmetic functions reject a [data] argument that is not
    a tuple and a domain other than "time" and "freq" with a
    ValueError, the domain being checked before any operand is looked
    at; an empty tuple passes these checks and then fails with the
    IndexError of reading its first element. None of these calls
    changes the world. *)
Theorem arithmetic_rejects_malformed_calls (w : world) (domain : string)
        (op : operation) :
  _arithmetic NotATuple domain op w =
    (w, Raise (ValueError "Input argument 'data' must be a tuple.")) /\
  (forall items,
     str_in domain ["time"; "freq"] = false ->
     _arithmetic (Tuple items) domain op w =
     (w, Raise (ValueError
                  ("domain must be time or freq but is " +:+ domain +:+ ".")))) /\
  (str_in domain ["time"; "freq"] = true ->
   _arithmetic (Tuple []) domain op w =
   (w, Raise (IndexError "tuple index out of range"))).
Proof.
  split; [reflexivity|]. split.
  - intros items Hd. unfold _arithmetic, _assert_match_for_arithmetic.
    rewrite Hd. reflexivity.
  - intros Hd. unfold _arithmetic, _assert_match_for_arithmetic.
    rewrite Hd. reflexivity.
Qed.




End Edges.

(** ** Assigning a channel and reading it back *)

Section AssignRead.
Context `{TransformService}.

Lemma store_at_length (b : list elt) positions vals :
  length (store_at b positions vals) = length b.
Proof.
  revert b vals. induction positions as [|p ps IH]; intros b [|v vs];
    cbn [store_at]; try reflexivity.
  rewrite IH. apply length_insert.
Qed.

Lemma store_at_other (b : list elt) positions vals q :
  q ∉ positions -> store_at b positions vals !! q = b !! q.
Proof.
  revert b vals. induction positions as [|p ps IH]; intros b [|v vs] Hq;
    cbn [store_at]; try reflexivity.
  apply not_elem_of_cons in Hq as [Hne Hq].
  rewrite IH by exact Hq. apply list_lookup_insert_ne. auto.
Qed.

Lemma store_at_read (b : list elt) positions vals :
  NoDup positions -> length positions = length vals ->
  Forall (fun p => (p < length b)%nat) positions ->
  mapM (fun i => store_at b positions vals !! i) positions = Some vals.
Proof.
  intros Hnd Hlen Hin. apply mapM_Some.
  revert b vals Hlen Hin.
  induction Hnd as [|p ps Hp Hnd IH]; intros b [|v vs] Hlen Hin;
    try discriminate Hlen; [constructor|].
  cbn [store_at]. inversion Hin as [|? ? Hpb Hin']; subst.
  constructor.
  - rewrite store_at_other by exact Hp.
    apply list_lookup_insert_eq. exact Hpb.
  - apply IH; [cbn in Hlen; lia|].
    eapply Forall_impl; [exact Hin'|]. intros q Hq.
    rewrite length_insert. exact Hq.
Qed.

Lemma store_at_read_disjoint (b : list elt) positions vals others :
  (forall q, q ∈ others -> q ∉ positions) ->
  mapM (fun i => store_at b positions vals !! i) others =
  mapM (fun i => b !! i) others.
Proof.
  intros Hd. induction others as [|q qs IH]; [reflexivity|].
  cbn [mapM]. rewrite store_at_other by (apply Hd; left).
  rewrite IH by (intros q' Hq'; apply Hd; right; exact Hq').
  reflexivity.
Qed.

(** distinct rows of a view that exposes each position once are
    disjoint *)
Lemma rows_disjoint (l : list nat) n j k x :
  NoDup l -> j <> k ->
  x ∈ take n (drop (j * n) l) -> x ∉ take n (drop (k * n) l).
Proof.
  intros Hnd Hne Hj Hk.
  apply elem_of_take in Hj as (a & Ha & Hlt).
  apply elem_of_take in Hk as (c & Hc & Hlt').
  rewrite lookup_drop in Ha, Hc.
  pose proof (NoDup_lookup _ _ _ _ Hnd Ha Hc). nia.
Qed.

Lemma row_length {A} (l : list A) d0 p j :
  length l = (d0 * p)%nat -> (j < d0)%nat ->
  length (take p (drop (j * p) l)) = p.
Proof.
  intros Hl Hj. rewrite length_take, length_drop.
  assert (j * p + p <= d0 * p)%nat by nia. lia.
Qed.

Lemma prod_shape_app a b :
  prod_shape (a ++ b) = (prod_shape a * prod_shape b)%nat.
Proof.
  unfold prod_shape. induction a as [|x a IH]; cbn [app fold_right]; [lia|].
  rewrite IH. lia.
Qed.

Lemma prod_shape_replicate_1 n : prod_shape (replicate n 1%nat) = 1%nat.
Proof. induction n as [|n IH]; [reflexivity|]. cbn. unfold prod_shape in IH. lia. Qed.

Lemma prod_shape_pad n sh : prod_shape (pad_shape n sh) = prod_shape sh.
Proof.
  unfold pad_shape. rewrite prod_shape_app, prod_shape_replicate_1. lia.
Qed.

Lemma prod_shape_strip n sh :
  prod_shape (strip_leading_ones n sh) = prod_shape sh.
Proof.
  induction sh as [|x sh IH]; [reflexivity|]. cbn [strip_leading_ones].
  destruct x as [|[|x]]; try reflexivity.
  destruct (n <? length (1%nat :: sh))%nat; [|reflexivity].
  rewrite IH. unfold prod_shape. cbn [fold_right]. lia.
Qed.

(** broadcasting fills the target shape *)
Lemma bcast_length {A} (tgt sh : list nat) (flat r : list A) :
  bcast flat sh tgt = Some r -> length flat = prod_shape sh ->
  length r = prod_shape tgt.
Proof.
  revert sh flat r. induction tgt as [|t tgt IH]; intros sh flat r E Hl.
  - destruct sh; [|discriminate E]. cbn in E. inversion E; subst. exact Hl.
  - destruct sh as [|s sh]; [discriminate E|]. cbn [bcast] in E.
    change (prod_shape (t :: tgt)) with (t * prod_shape tgt)%nat.
    change (prod_shape (s :: sh)) with (s * prod_shape sh)%nat in Hl.
    destruct (s =? t)%nat eqn:Hst.
    + apply Nat.eqb_eq in Hst. subst t.
      destruct (mapM (fun c => bcast c sh tgt)
                     (chunks_of (prod_shape sh) s flat)) as [cs|] eqn:Em;
        [|discriminate E].
      inversion E; subst r. clear E.
      apply mapM_Some in Em.
      assert (Hall : Forall (fun c => length c = prod_shape tgt) cs).
      { apply Forall2_Forall_r with (1 := Em).
        unfold chunks_of. apply Forall_forall. intros c Hc.
        apply list_elem_of_In, in_map_iff in Hc as (i & <- & Hi).
        apply in_seq in Hi. intros y Hy. eapply IH; [exact Hy|].
        apply (row_length _ s); [lia|lia]. }
      assert (Hcs : length cs = s).
      { apply Forall2_length in Em. unfold chunks_of in Em.
        rewrite length_map, length_seq in Em. lia. }
      clear Em Hl. subst s.
      induction Hall as [|c cs Hc Hall IHc]; [reflexivity|].
      cbn [concat length]. rewrite length_app, Hc, IHc. lia.
    + destruct (s =? 1)%nat eqn:Hs1; [|discriminate E].
      apply Nat.eqb_eq in Hs1. subst s.
      destruct (bcast flat sh tgt) as [r'|] eqn:Er; [|discriminate E].
      inversion E; subst r. clear E.
      apply IH in Er; [|lia].
      clear -Er. induction t as [|t IHt]; [reflexivity|].
      cbn [replicate concat]. rewrite length_app, IHt, Er. lia.
Qed.

Lemma broadcast_to_length {A} (flat r : list A) sh tgt :
  broadcast_to flat sh tgt = Some r -> length flat = prod_shape sh ->
  length r = prod_shape tgt.
Proof.
  unfold broadcast_to. destruct (length sh <=? length tgt)%nat;
    [|discriminate].
  intros E Hl. eapply bcast_length; [exact E|].
  now rewrite prod_shape_pad.
Qed.

Lemma buf_read_length h a flat :
  buf_read h a = Some flat -> length flat = length (offs a).
Proof.
  unfold buf_read. destruct (h !! base a); [|discriminate].
  intros E. apply mapM_Some, Forall2_length in E. auto.
Qed.

(** a returned assignment [self[i] = value] with an int key *)
Lemma setitem_int_run w self v s sv i j d0 rest fv vals buf :
  objs w !! self = Some s -> objs w !! v = Some sv ->
  meta_data_match s sv = true ->
  shape (_data s) = d0 :: rest -> int_index i d0 = Return j ->
  buf_read (bufs w) (_data sv) = Some fv ->
  broadcast_to fv (strip_leading_ones (length rest) (shape (_data sv)))
               rest = Some vals ->
  bufs w !! base (_data s) = Some buf ->
  Signal.__setitem__ self (KInt i) (Sig v) w =
  ({| bufs := <[base (_data s) :=
                  store_at buf (offs (np_row (_data s) j))
                    (map (np_cast (dtype_of (_data sv))
                                  (dtype_of (_data s))) vals)]> (bufs w);
      objs := objs w; log := log w |}, Return tt).
Proof.
  intros Hs Hv Hm Hsh Hi Hread Hb Hbuf.
  unfold Signal.__setitem__, _Audio.__setitem__.
  unfold bind at 1.
  rewrite (run_assert_matching _ _ _ _ _ Hs Hv), Hm.
  apply except_KeyError_pass; [|discriminate].
  rewrite (run_get_obj _ _ _ _ Hs), (run_get_obj _ _ _ _ Hv).
  change (default [] (_Audio.items_of_key (KInt i))) with [Int i].
  unfold np_setitem. rewrite (np_getitem_int _ _ _ _ _ Hsh Hi).
  rewrite (run_np_read _ _ _ _ Hread).
  change (shape (np_row (_data s) j)) with (tail (shape (_data s))).
  rewrite Hsh. cbn [tail]. rewrite Hb.
  unfold np_write. change (base (np_row (_data s) j)) with (base (_data s)).
  rewrite Hbuf. reflexivity.
Qed.

(** X17: assigning a Signal to channel [i] of another and reading the
    channels back: when the target's buffer is a sound view and the
    value's contents fit its shape, channel [i] afterwards reads the
    value's contents, broadcast to the channel's shape and converted
    to the target's element type; every other channel reads what it
    read before; no other buffer, no object and no log entry is
    changed. *)
Theorem channel_assignment_round_trip (w : world) (self v : ref)
        (s sv : SignalObj) (i : Z) (j d0 : nat) (rest : list nat)
        (fv vals : list elt) :
  objs w !! self = Some s -> objs w !! v = Some sv ->
  meta_data_match s sv = true ->
  shape (_data s) = d0 :: rest -> int_index i d0 = Return j ->
  sound_view (bufs w) (_data s) ->
  buf_read (bufs w) (_data sv) = Some fv ->
  length (offs (_data sv)) = prod_shape (shape (_data sv)) ->
  broadcast_to fv (strip_leading_ones (length rest) (shape (_data sv)))
               rest = Some vals ->
  exists w',
    Signal.__setitem__ self (KInt i) (Sig v) w = (w', Return tt) /\
    objs w' = objs w /\ log w' = log w /\
    length (bufs w') = length (bufs w) /\
    (forall b, b <> base (_data s) -> bufs w' !! b = bufs w !! b) /\
    buf_read (bufs w') (np_row (_data s) j) =
      Some (map (np_cast (dtype_of (_data sv)) (dtype_of (_data s))) vals) /\
    (forall k, k <> j ->
       buf_read (bufs w') (np_row (_data s) k) =
       buf_read (bufs w) (np_row (_data s) k)).
Proof.
  intros Hs Hv Hm Hsh Hi (Hnd & Hlen & Hread) Hfv Hlv Hb.
  apply buf_read_is_Some in Hread as (buf & Hbuf & Hin).
  assert (Hj : (j < d0)%nat).
  { unfold int_index in Hi.
    destruct ((_ <? 0) || (_ <=? _)) eqn:Hc; [discriminate Hi|].
    apply orb_false_iff in Hc as [Hc1 Hc2].
    apply Z.ltb_ge in Hc1. apply Z.leb_gt in Hc2.
    inversion Hi; subst j. lia. }
  rewrite Hsh in Hlen.
  change (prod_shape (d0 :: rest)) with (d0 * prod_shape rest)%nat in Hlen.
  assert (Hvals : length vals = prod_shape rest).
  { eapply broadcast_to_length; [exact Hb|].
    rewrite prod_shape_strip, (buf_read_length _ _ _ Hfv). exact Hlv. }
  eexists. split.
  { eapply setitem_int_run; eauto. }
  cbn [objs log bufs]. split; [reflexivity|]. split; [reflexivity|].
  split; [apply length_insert|].
  split; [intros b Hne; apply list_lookup_insert_ne; auto|].
  assert (Hlt : (base (_data s) < length (bufs w))%nat)
    by (eapply lookup_lt_Some; eauto).
  assert (Hrow : offs (np_row (_data s) j) =
                 take (prod_shape rest)
                      (drop (j * prod_shape rest) (offs (_data s))))
    by (unfold np_row; rewrite Hsh; reflexivity).
  split.
  - unfold buf_read. change (base (np_row (_data s) j)) with (base (_data s)).
    rewrite list_lookup_insert_eq by exact Hlt.
    apply store_at_read.
    + rewrite Hrow.
      eapply sublist_NoDup; [|apply sublist_take].
      eapply sublist_NoDup; [exact Hnd|apply sublist_drop].
    + rewrite length_map, Hvals, Hrow. eapply row_length; eauto.
    + rewrite Hrow. rewrite Forall_forall in *. intros q Hq.
      apply Hin. eapply subseteq_drop, subseteq_take, Hq.
  - intros k Hk. unfold buf_read.
    change (base (np_row (_data s) k)) with (base (_data s)).
    rewrite list_lookup_insert_eq by exact Hlt. rewrite Hbuf.
    apply store_at_read_disjoint. intros q Hq.
    assert (Hrowk : offs (np_row (_data s) k) =
                    take (prod_shape rest)
                         (drop (k * prod_shape rest) (offs (_data s))))
      by (unfold np_row; rewrite Hsh; reflexivity).
    rewrite Hrowk in Hq. rewrite Hrow.
    eapply rows_disjoint; eauto.
Qed.
End AssignRead.


(** ** Reshaped and flattened copies *)

Section Reshape.
Context `{TransformService}.

Lemma run_copy w self s flat :
  objs w !! self = Some s ->
  buf_read (bufs w) (_data s) = Some flat ->
  Signal.copy self w =
  ({| bufs := bufs w ++ [flat];
      objs := objs w ++
              [set__data s {| base := length (bufs w);
                              offs := seq 0 (length flat);
                              shape := shape (_data s);
                              dtype_of := dtype_of (_data s) |}];
      log := log w |}, Return (length (objs w))).
Proof.
  intros Hs Hread. unfold Signal.copy, np_copy.
  rewrite (run_get_obj _ _ _ _ Hs). mrun.
  rewrite (run_np_read _ _ _ _ Hread). mrun. reflexivity.
Qed.

Lemma prod_Z_app a b : prod_Z (a ++ b) = prod_Z a * prod_Z b.
Proof.
  unfold prod_Z. induction a as [|x a IH]; cbn [app fold_right]; [lia|].
  rewrite IH. lia.
Qed.

Lemma prod_shape_init_last sh :
  sh <> [] ->
  prod_shape sh = (prod_shape (shape_init sh) * shape_last sh)%nat.
Proof.
  intros Hne. rewrite <- (shape_init_last sh Hne) at 1.
  rewrite prod_shape_app. unfold prod_shape at 2. cbn [fold_right]. lia.
Qed.

Lemma filter_nonneg dims :
  Forall (fun d => 0 <= d) dims ->
  List.filter (fun d => d <? 0) dims = [] /\
  List.filter (fun d => negb (d <? 0)) dims = dims.
Proof.
  induction 1 as [|d dims Hd _ [IH1 IH2]]; [auto|].
  cbn [List.filter]. apply Z.ltb_ge in Hd. rewrite Hd. cbn [negb].
  rewrite IH1, IH2. auto.
Qed.

(** reshaping to known dimensions succeeds exactly when the sizes
    agree *)
Lemma np_reshape_known a dims :
  Forall (fun d => 0 <= d) dims ->
  np_reshape a dims =
  if Z.of_nat (prod_shape (shape a)) =? prod_Z dims
  then Return (with_shape a (map Z.to_nat dims))
  else Raise (ValueError "cannot reshape array into shape").
Proof.
  intros Hd. unfold np_reshape.
  destruct (filter_nonneg dims Hd) as [-> ->]. reflexivity.
Qed.


(** [self.reshape(dims)] in terms of what numpy makes of the
    dimensions *)
Lemma reshape_tuple_run w self s flat dims :
  objs w !! self = Some s ->
  buf_read (bufs w) (_data s) = Some flat ->
  shape (_data s) <> [] ->
  let c := {| base := length (bufs w); offs := seq 0 (length flat);
              shape := shape (_data s); dtype_of := dtype_of (_data s) |} in
  let wc := {| bufs := bufs w ++ [flat]; objs := objs w ++ [set__data s c];
               log := log w |} in
  Signal.reshape self (ShapeTuple dims) w =
  match np_reshape c (dims ++ [Z.of_nat (shape_last (shape (_data s)))]) with
  | Return d =>
      ({| bufs := bufs w ++ [flat]; objs := objs w ++ [set__data s d];
          log := log w |}, Return (length (objs w)))
  | Raise (ValueError m) =>
      if negb (prod_Z dims =? Z.of_nat (prod_shape (_Audio.cshape s)))
      then (wc, Raise (ValueError
                         ("Can not reshape signal of cshape " +:+
                          repr_tuple (map Z.of_nat (_Audio.cshape s)) +:+
                          " to " +:+ repr_tuple dims)))
      else (wc, Return (length (objs w)))
  | Raise e => (wc, Raise e)
  end.
Proof.
  intros Hs Hread Hne c wc.
  unfold Signal.reshape, _Audio.reshape.
  rewrite (bind_Return _ _ _ _ _ (run_copy _ _ _ _ Hs Hread)).
  fold c. fold wc.
  assert (Hc : objs wc !! length (objs w) = Some (set__data s c)).
  { unfold wc. cbn [objs].
    rewrite lookup_app_r, Nat.sub_diag by lia. reflexivity. }
  rewrite (run_get_obj _ _ _ _ Hc).
  change (shape (_data (set__data s c))) with (shape (_data s)).
  change (_data (set__data s c)) with c.
  destruct (shape (_data s)) as [|x sh] eqn:Esh; [contradiction|].
  destruct (np_reshape c (dims ++ [Z.of_nat (shape_last (x :: sh))]))
    as [e|d] eqn:Er.
  - assert (Hself : objs wc !! self = Some s)
      by (unfold wc; cbn [objs]; apply lookup_app_l_Some, Hs).
    destruct e; try reflexivity.
    rewrite (run_get_obj _ _ _ _ Hself).
    destruct (negb (prod_Z dims =? Z.of_nat (prod_shape (_Audio.cshape s))));
      reflexivity.
  - rewrite run_put_obj. unfold wc. cbn [bufs objs log]. unfold ret.
    rewrite insert_app_r_alt, Nat.sub_diag by lia. cbn [insert list_insert].
    reflexivity.
Qed.

(** reshaping to known dimensions whose product is the number of
    channels *)
Lemma reshape_known_run w self s flat dims :
  objs w !! self = Some s ->
  buf_read (bufs w) (_data s) = Some flat ->
  shape (_data s) <> [] ->
  Forall (fun d => 0 <= d) dims ->
  prod_Z dims = Z.of_nat (prod_shape (_Audio.cshape s)) ->
  Signal.reshape self (ShapeTuple dims) w =
  ({| bufs := bufs w ++ [flat];
      objs := objs w ++
              [set__data s
                 {| base := length (bufs w); offs := seq 0 (length flat);
                    shape := map Z.to_nat dims ++
                             [shape_last (shape (_data s))];
                    dtype_of := dtype_of (_data s) |}];
      log := log w |},
   Return (length (objs w))).
Proof.
  intros Hs Hread Hne Hd Hp.
  pose proof (reshape_tuple_run w self s flat dims Hs Hread Hne) as R.
  cbv zeta in R.
  assert (Hd' : Forall (fun d => 0 <= d)
                       (dims ++ [Z.of_nat (shape_last (shape (_data s)))])).
  { apply Forall_app. split; [exact Hd|]. constructor; [lia|constructor]. }
  rewrite (np_reshape_known _ _ Hd') in R. cbn [shape] in R.
  rewrite prod_Z_app, Hp in R. unfold prod_Z at 1 in R.
  cbn [fold_right] in R.
  rewrite (prod_shape_init_last _ Hne) in R.
  replace (Z.of_nat (prod_shape (shape_init (shape (_data s))) *
                     shape_last (shape (_data s))) =?
           Z.of_nat (prod_shape (_Audio.cshape s)) *
           (Z.of_nat (shape_last (shape (_data s))) * 1))
    with true in R
    by (symmetry; apply Z.eqb_eq; unfold _Audio.cshape; lia).
  rewrite R. unfold with_shape. cbn [base offs dtype_of].
  rewrite map_app. cbn [map]. rewrite Nat2Z.id. reflexivity.
Qed.

(** X18: reshaping to dimensions that are all known (none negative) and
    whose product is the number of channels returns a new object that is
    a deep copy of the Signal with the new channel shape: the samples
    are those of the Signal, in the same row-major order, in a newly
    allocated buffer; the trailing axis, the sample count and all other
    attributes are kept; the Signal itself is not touched and nothing is
    logged. An int stands for the tuple of that one entry. *)
Theorem reshape_gives_reshaped_copy (w : world) (self : ref)
        (s : SignalObj) (flat : list elt) (dims : list Z) :
  objs w !! self = Some s ->
  buf_read (bufs w) (_data s) = Some flat ->
  shape (_data s) <> [] ->
  Forall (fun d => 0 <= d) dims ->
  prod_Z dims = Z.of_nat (prod_shape (_Audio.cshape s)) ->
  exists s',
    Signal.reshape self (ShapeTuple dims) w =
    ({| bufs := bufs w ++ [flat]; objs := objs w ++ [s']; log := log w |},
     Return (length (objs w))) /\
    _Audio.cshape s' = map Z.to_nat dims /\
    shape_last (shape (_data s')) = shape_last (shape (_data s)) /\
    base (_data s') = length (bufs w) /\
    buf_read (bufs w ++ [flat]) (_data s') = Some flat /\
    set__data s' (_data s) = s /\
    (forall n, dims = [n] ->
       Signal.reshape self (ShapeInt n) w =
       Signal.reshape self (ShapeTuple dims) w).
Proof.
  intros Hs Hread Hne Hd Hp.
  eexists. split; [apply reshape_known_run; eassumption|].
  unfold _Audio.cshape. sig_simpl. cbn [shape base].
  split; [apply shape_init_app|]. split; [apply shape_last_app|].
  split; [reflexivity|].
  split; [apply (buf_read_fresh _ [])|].
  split; [destruct s; reflexivity|].
  intros n ->. reflexivity.
Qed.


(** X20: flattening returns a deep copy whose channels are laid out
    along a single axis: the buffer has the shape (number of channels,
    trailing length), the samples are those of the Signal in the same
    order, in a newly allocated buffer, and all other attributes are
    kept; for a readable Signal it does not fail. *)
Theorem flatten_gives_one_channel_axis (w : world) (self : ref)
        (s : SignalObj) (flat : list elt) :
  objs w !! self = Some s ->
  buf_read (bufs w) (_data s) = Some flat ->
  shape (_data s) <> [] ->
  exists s',
    Signal.flatten self w =
    ({| bufs := bufs w ++ [flat]; objs := objs w ++ [s']; log := log w |},
     Return (length (objs w))) /\
    shape (_data s') =
      [prod_shape (_Audio.cshape s); shape_last (shape (_data s))] /\
    base (_data s') = length (bufs w) /\
    buf_read (bufs w ++ [flat]) (_data s') = Some flat /\
    set__data s' (_data s) = s.
Proof.
  intros Hs Hread Hne.
  unfold Signal.flatten, _Audio.flatten.
  rewrite (run_get_obj _ _ _ _ Hs).
  change (Signal.reshape self
            (ShapeInt (Z.of_nat (prod_shape (_Audio.cshape s)))) w)
    with (Signal.reshape self
            (ShapeTuple [Z.of_nat (prod_shape (_Audio.cshape s))]) w).
  rewrite (reshape_known_run w self s flat _ Hs Hread Hne).
  - eexists. split; [reflexivity|]. sig_simpl. cbn [shape base map app].
    rewrite Nat2Z.id. split; [reflexivity|]. split; [reflexivity|].
    split; [apply (buf_read_fresh _ [])|]. destruct s; reflexivity.
  - constructor; [lia|constructor].
  - unfold prod_Z. cbn [fold_right]. lia.
Qed.

(** X21: one entry of the new channel shape may be -1: when the other
    entries are known, their product divides the number of channels and
    there is at least one sample per channel, the copy gets the new
    channel shape with the -1 replaced by the quotient. *)
Theorem reshape_infers_one_dimension (w : world) (self : ref)
        (s : SignalObj) (flat : list elt) (dims : list Z) :
  objs w !! self = Some s ->
  buf_read (bufs w) (_data s) = Some flat ->
  shape (_data s) <> [] ->
  shape_last (shape (_data s)) <> 0%nat ->
  List.filter (fun d => d <? 0) dims = [-1] ->
  let known := prod_Z (List.filter (fun d => negb (d <? 0)) dims) in
  let channels := Z.of_nat (prod_shape (_Audio.cshape s)) in
  known <> 0 -> channels mod known = 0 ->
  exists s',
    Signal.reshape self (ShapeTuple dims) w =
    ({| bufs := bufs w ++ [flat]; objs := objs w ++ [s']; log := log w |},
     Return (length (objs w))) /\
    _Audio.cshape s' =
      map (fun d => Z.to_nat (if d <? 0 then channels / known else d))
          dims /\
    shape_last (shape (_data s')) = shape_last (shape (_data s)) /\
    buf_read (bufs w ++ [flat]) (_data s') = Some flat /\
    set__data s' (_data s) = s.
Proof.
  intros Hs Hread Hne Hlast Hu known channels Hk Hdiv.
  pose proof (reshape_tuple_run w self s flat dims Hs Hread Hne) as R.
  cbv zeta in R. unfold np_reshape in R.
  rewrite !List.filter_app in R. rewrite Hu in R.
  set (last := shape_last (shape (_data s))) in *.
  assert (Hl : 0 < Z.of_nat last) by lia.
  assert (Hlt : (Z.of_nat last <? 0) = false) by (apply Z.ltb_ge; lia).
  cbn [List.filter app] in R. rewrite Hlt in R. cbn [negb app] in R.
  rewrite prod_Z_app in R. fold known in R.
  set (pl := prod_Z [Z.of_nat last]) in R.
  assert (Hpl : pl = Z.of_nat last)
    by (unfold pl, prod_Z; cbn [fold_right]; lia).
  clearbody pl. subst pl.
  cbn [shape] in R. rewrite (prod_shape_init_last _ Hne) in R.
  fold last in R.
  change (shape_init (shape (_data s))) with (_Audio.cshape s) in R.
  rewrite Nat2Z.inj_mul in R. fold channels in R.
  assert (Hmod : (channels * Z.of_nat last) mod (known * Z.of_nat last) = 0).
  { rewrite Zmult_mod_distr_r, Hdiv. lia. }
  assert (Hdivq : channels * Z.of_nat last / (known * Z.of_nat last)
                  = channels / known)
    by (apply Z.div_mul_cancel_r; lia).
  rewrite Hmod in R.
  set (q := channels * Z.of_nat last / (known * Z.of_nat last)) in *.
  clearbody q. subst q.
  replace (known * Z.of_nat last =? 0) with false in R
    by (symmetry; apply Z.eqb_neq; nia).
  cbn [orb negb Z.eqb] in R.
  eexists. split; [exact R|].
  unfold _Audio.cshape. sig_simpl. cbn [with_shape shape base].
  rewrite map_app. cbn [map]. rewrite Hlt, Nat2Z.id.
  split; [apply shape_init_app|]. split; [apply shape_last_app|].
  split; [apply (buf_read_fresh _ [])|]. destruct s; reflexivity.
Qed.
End Reshape.

(** * The further properties at concrete inputs *)

Section ConcreteFurther.
#[local] Existing Instance ZKernel.
#[local] Existing Instance ZService.

Lemma time_read_twice_inverts_once_witness :
  objs world_2x8_freq !! 0%nat = Some sig_2x8_freq /\
  _domain sig_2x8_freq = "freq" /\
  buf_read (bufs world_2x8_freq) (_data sig_2x8_freq) =
    Some (replicate 10 0) /\
  exists w1 s1,
    Signal.time 0%nat world_2x8_freq = (w1, Return (_data s1)) /\
    _domain s1 = "time" /\ _n_samples s1 = 8 /\
    log w1 = log world_2x8_freq ++ [Call_irfft 8 (Hz 8) "none"] /\
    Signal.time 0%nat w1 = (w1, Return (_data s1)).
Proof.
  split; [reflexivity|]. split; [reflexivity|]. split; [reflexivity|].
  destruct (time_read_twice_inverts_once world_2x8_freq 0%nat sig_2x8_freq
              (replicate 10 0) eq_refl eq_refl eq_refl)
    as (w1 & s1 & R & _ & Dom & D & N & _ & _ & _ & _ & _ & L & R2).
  exists w1, s1. split; [exact R|]. split; [exact Dom|].
  split; [rewrite N, D; reflexivity|]. split; [exact L|exact R2].
Defined.

Lemma domain_round_trip_witness :
  transform_shapes /\
  objs world_1x7 !! 0%nat = Some sig_1x7 /\
  _domain sig_1x7 = "time" /\
  buf_read (bufs world_1x7) (_data sig_1x7) = Some (map Z.of_nat (seq 0 7)) /\
  _n_samples sig_1x7 = 7 /\
  exists w1 w2 f t s2,
    Signal.freq 0%nat world_1x7 = (w1, Return f) /\
    Signal.time 0%nat w1 = (w2, Return t) /\
    objs w2 = <[0%nat := s2]> (objs world_1x7) /\
    shape t = [1; 7]%nat /\
    _n_samples s2 = 7 /\
    log w2 = log world_1x7 ++
             [Call_rfft 7 (Hz 7) "none"; Call_irfft 7 (Hz 7) "none"].
Proof.
  assert (Hsvc : transform_shapes)
    by (intros v n sr norm; split; reflexivity).
  split; [exact Hsvc|]. split; [reflexivity|]. split; [reflexivity|].
  split; [reflexivity|]. split; [reflexivity|].
  destruct (domain_round_trip world_1x7 0%nat sig_1x7
              (map Z.of_nat (seq 0 7)) Hsvc eq_refl eq_refl eq_refl
              ltac:(cbn; lia) eq_refl)
    as (w1 & w2 & f & t & s2 & R1 & R2 & O & _ & Sh & _ & N & _ & _ & L).
  exists w1, w2, f, t, s2. split; [exact R1|]. split; [exact R2|].
  split; [exact O|]. split; [exact Sh|]. split; [exact N|exact L].
Defined.

Lemma constructor_establishes_invariant_witness :
  Signal.new arange_2x8 (Hz 8) None "time" None None float64
             world_arange_2x8 = (world_2x8, Return 0%nat) /\
  exists s',
    objs world_2x8 = objs world_arange_2x8 ++ [s'] /\
    well_formed s' /\
    shape (_data s') = [2; 8]%nat /\ _domain s' = "time".
Proof.
  assert (R : Signal.new arange_2x8 (Hz 8) None "time" None None float64
                         world_arange_2x8 = (world_2x8, Return 0%nat))
    by exact eq_refl.
  split; [exact R|].
  destruct (constructor_establishes_invariant _ _ _ _ _ _ _ _ _ _ R)
    as (s' & _ & O & W & Sh & Dom & _).
  exists s'. split; [exact O|]. split; [exact W|].
  split; [exact Sh|exact Dom].
Defined.

Lemma constructor_failures_witness :
  str_in "frequency" _VALID_DOMAINS = false /\
  buf_read (bufs world_arange_2x8) arange_2x8 =
    Some (map Z.of_nat (seq 0 16)) /\
  str_in "loud" _VALID_FFT_NORMS = false /\
  Signal.new arange_2x8 (Hz 8) None "frequency" (Some "loud") None float64
             world_arange_2x8 =
    (world_arange_2x8,
     Raise (ValueError "Incorrect domain, needs to be time/freq.")) /\
  (exists w',
     Signal.new arange_2x8 (Hz 8) None "time" (Some "loud") None float64
                world_arange_2x8 =
     (w', Raise (ValueError (invalid_fft_norm_message "loud")))) /\
  ValueError "Incorrect domain, needs to be time/freq." <>
  ValueError "Invalid domain. Has to be 'time' or 'freq'.".
Proof.
  split; [reflexivity|]. split; [reflexivity|]. split; [reflexivity|].
  destruct (constructor_failures world_arange_2x8 arange_2x8 (Hz 8) None
              "frequency" (Some "loud") None float64) as (F1 & F2 & F3).
  split; [exact (F1 eq_refl)|].
  split; [exact (F2 _ eq_refl eq_refl)|].
  exact (proj2 (F3 _ _ (F1 eq_refl))).
Defined.


Lemma setters_keep_invariant_witness :
  objs world_2x8 !! 0%nat = Some sig_2x8 /\
  well_formed sig_2x8 /\
  exists w' s',
    Signal.freq_setter 0%nat four_bins world_2x8 = (w', Return tt) /\
    objs w' = <[0%nat := s']> (objs world_2x8) /\
    well_formed s' /\ _domain s' = "freq".
Proof.
  assert (W : well_formed sig_2x8).
  { split; [left; reflexivity|]. split; [reflexivity|].
    split; [cbn; lia|]. split; [intros _; reflexivity|].
    intros Hf; discriminate Hf. }
  split; [reflexivity|]. split; [exact W|].
  destruct (setters_keep_invariant world_2x8 0%nat sig_2x8 eq_refl W)
    as (_ & Hfreq & _).
  destruct (Hfreq four_bins) as (w' & s' & R & O & W' & Dom & _).
  exists w', s'. auto.
Defined.



Lemma getitem_errors_witness :
  objs world_assign !! 0%nat = Some sig_2x4 /\
  shape (_data sig_2x4) = [2; 4]%nat /\
  Signal.__getitem__ 0%nat (KOther "str") world_assign =
    (world_assign, Raise (TypeError "Index must be int, not str")) /\
  Signal.__getitem__ 0%nat (KInt 5) world_assign =
    (world_assign, Raise (IndexError "index is out of bounds for axis")) /\
  forall msg, IndexError "index is out of bounds for axis" <> KeyError msg.
Proof.
  split; [reflexivity|]. split; [reflexivity|].
  destruct (getitem_errors world_assign 0%nat) as (E1 & E2 & E3).
  pose proof (E2 sig_2x4 5 2%nat [4%nat] eq_refl eq_refl
                 ltac:(right; cbn; lia)) as R.
  split; [exact (E1 "str")|]. split; [exact R|].
  exact (proj2 (E3 _ _ _ R)).
Defined.


Lemma iteration_guards_domain_change_witness :
  objs world_assign !! 0%nat = Some sig_2x4 /\
  Signal__iter__ 0%nat world_assign = (world_iter, Return iter_2x4) /\
  Signal.domain_setter 0%nat "freq" world_iter =
    (world_iter_converted, Return tt) /\
  "freq" <> _domain sig_2x4 /\
  SignalIterator.__next__ iter_2x4 world_iter_converted =
  (world_iter_converted,
   Raise (RuntimeError "domain changes during iterations break stuff!")).
Proof.
  assert (R1 : Signal__iter__ 0%nat world_assign = (world_iter, Return iter_2x4))
    by exact eq_refl.
  assert (R2 : Signal.domain_setter 0%nat "freq" world_iter =
               (world_iter_converted, Return tt))
    by exact eq_refl.
  assert (Hne : "freq" <> _domain sig_2x4) by discriminate.
  split; [reflexivity|]. split; [exact R1|]. split; [exact R2|].
  split; [exact Hne|].
  exact (iteration_guards_domain_change world_assign world_iter
           world_iter_converted 0%nat sig_2x4 iter_2x4 "freq"
           eq_refl R1 R2 Hne).
Defined.

Lemma arithmetic_converts_operands_witness :
  objs world_rms !! 0%nat = Some sig_rms /\
  _domain sig_rms = "time" /\
  _arithmetic (Tuple [Sig 0%nat; Arr two_scalar]) "freq" _multiply world_rms
  = (world_rms_product, Return (Sig 1%nat)) /\
  (exists ext, bufs world_rms_product = bufs world_rms ++ ext) /\
  exists s',
    objs world_rms_product !! 0%nat = Some s' /\ _domain s' = "freq".
Proof.
  assert (R : _arithmetic (Tuple [Sig 0%nat; Arr two_scalar]) "freq"
                          _multiply world_rms
              = (world_rms_product, Return (Sig 1%nat)))
    by exact eq_refl.
  split; [reflexivity|]. split; [reflexivity|]. split; [exact R|].
  destruct (arithmetic_converts_operands _ _ _ _ _ _ R) as (B & _ & Hops).
  split; [exact B|]. apply Hops. left. reflexivity.
Defined.

Lemma arithmetic_in_the_operands_domain_witness :
  _arithmetic (Tuple [Sig 0%nat; Arr three_numbers]) "time" _add
              world_one_sample
  = (world_one_sample_sum, Return (Sig 1%nat)) /\
  (exists s, objs world_one_sample !! 0%nat = Some s /\ _domain s = "time") /\
  exists s',
    objs world_one_sample_sum = objs world_one_sample ++ [s'] /\
    log world_one_sample_sum = log world_one_sample ++ [Call_operation _add].
Proof.
  assert (R : _arithmetic (Tuple [Sig 0%nat; Arr three_numbers]) "time" _add
                          world_one_sample
              = (world_one_sample_sum, Return (Sig 1%nat)))
    by exact eq_refl.
  assert (Hs : exists s, objs world_one_sample !! 0%nat = Some s /\
                         _domain s = "time")
    by (eexists; split; reflexivity).
  split; [exact R|]. split; [exact Hs|].
  destruct (arithmetic_in_the_operands_domain _ _ _ _ _ _ R
              ltac:(discriminate)) as (r & s' & l & _ & O & _ & L & _ & Ht).
  { intros r [E|[E|[]]]; [|discriminate E]. inversion E; subst r. exact Hs. }
  exists s'. split; [exact O|]. rewrite L, (Ht eq_refl). reflexivity.
Defined.

Lemma arithmetic_on_arrays_only_witness :
  _arithmetic (Tuple [Arr three_numbers; Arr three_numbers]) "time" _add
              world_one_sample
  = (world_arrays_sum, Return (Arr arrays_sum)) /\
  signal_operands [Arr three_numbers; Arr three_numbers] = [] /\
  objs world_arrays_sum = objs world_one_sample /\
  log world_arrays_sum = log world_one_sample ++ [Call_operation _add].
Proof.
  assert (R : _arithmetic (Tuple [Arr three_numbers; Arr three_numbers])
                          "time" _add world_one_sample
              = (world_arrays_sum, Return (Arr arrays_sum)))
    by exact eq_refl.
  split; [exact R|]. split; [reflexivity|].
  destruct (arithmetic_on_arrays_only _ _ _ _ _ _ R eq_refl)
    as (a & _ & O & _ & L & _).
  split; [exact O|exact L].
Defined.

Lemma arithmetic_rejects_malformed_calls_witness :
  str_in "both" ["time"; "freq"] = false /\
  str_in "time" ["time"; "freq"] = true /\
  add (Tuple [Arr three_numbers]) "both" world_one_sample =
    (world_one_sample,
     Raise (ValueError "domain must be time or freq but is both.")) /\
  add (Tuple []) "time" world_one_sample =
    (world_one_sample, Raise (IndexError "tuple index out of range")) /\
  add NotATuple "time" world_one_sample =
    (world_one_sample,
     Raise (ValueError "Input argument 'data' must be a tuple.")).
Proof.
  split; [reflexivity|]. split; [reflexivity|].
  destruct (arithmetic_rejects_malformed_calls world_one_sample "both" _add)
    as (_ & Hdom & _).
  destruct (arithmetic_rejects_malformed_calls world_one_sample "time" _add)
    as (Htuple & _ & Hempty).
  split; [exact (Hdom _ eq_refl)|]. split; [exact (Hempty eq_refl)|].
  exact Htuple.
Defined.


Lemma channel_assignment_round_trip_witness :
  objs world_assign !! 0%nat = Some sig_2x4 /\
  objs world_assign !! 1%nat = Some sig_nines /\
  meta_data_match sig_2x4 sig_nines = true /\
  sound_view (bufs world_assign) (_data sig_2x4) /\
  buf_read (bufs world_assign) (_data sig_nines) = Some [9; 9; 9; 9] /\
  exists w',
    Signal.__setitem__ 0%nat (KInt 0) (Sig 1%nat) world_assign =
      (w', Return tt) /\
    buf_read (bufs w') (np_row (_data sig_2x4) 0) = Some [9; 9; 9; 9] /\
    buf_read (bufs w') (np_row (_data sig_2x4) 1) = Some [4; 5; 6; 7].
Proof.
  assert (Hview : sound_view (bufs world_assign) (_data sig_2x4)).
  { split; [apply NoDup_ListNoDup, (List.seq_NoDup 8 0)|].
    split; [reflexivity|]. eexists. reflexivity. }
  split; [reflexivity|]. split; [reflexivity|]. split; [reflexivity|].
  split; [exact Hview|]. split; [reflexivity|].
  destruct (channel_assignment_round_trip world_assign 0%nat 1%nat sig_2x4
              sig_nines 0 0%nat 2%nat [4%nat] [9; 9; 9; 9] [9; 9; 9; 9]
              eq_refl eq_refl eq_refl eq_refl eq_refl Hview eq_refl eq_refl
              eq_refl)
    as (w' & R & _ & _ & _ & _ & Hrow & Hothers).
  exists w'. split; [exact R|]. split; [exact Hrow|].
  rewrite (Hothers 1%nat ltac:(discriminate)). reflexivity.
Defined.

Lemma reshape_gives_reshaped_copy_witness :
  objs world_2x3x4 !! 0%nat = Some sig_2x3x4 /\
  buf_read (bufs world_2x3x4) (_data sig_2x3x4) =
    Some (map Z.of_nat (seq 0 24)) /\
  _Audio.cshape sig_2x3x4 = [2; 3]%nat /\
  exists s',
    Signal.reshape 0%nat (ShapeTuple [3; 2]) world_2x3x4 =
    ({| bufs := bufs world_2x3x4 ++ [map Z.of_nat (seq 0 24)];
        objs := objs world_2x3x4 ++ [s']; log := log world_2x3x4 |},
     Return 1%nat) /\
    _Audio.cshape s' = [3; 2]%nat /\
    shape_last (shape (_data s')) = 4%nat.
Proof.
  split; [reflexivity|]. split; [reflexivity|]. split; [reflexivity|].
  destruct (reshape_gives_reshaped_copy world_2x3x4 0%nat sig_2x3x4
              (map Z.of_nat (seq 0 24)) [3; 2] eq_refl eq_refl
              ltac:(discriminate)
              ltac:(repeat (constructor; [lia|]); constructor) eq_refl)
    as (s' & R & C & Hl & _).
  exists s'. split; [exact R|]. split; [exact C|exact Hl].
Defined.


Lemma flatten_gives_one_channel_axis_witness :
  objs world_2x3x4 !! 0%nat = Some sig_2x3x4 /\
  shape (_data sig_2x3x4) = [2; 3; 4]%nat /\
  exists s',
    Signal.flatten 0%nat world_2x3x4 =
    ({| bufs := bufs world_2x3x4 ++ [map Z.of_nat (seq 0 24)];
        objs := objs world_2x3x4 ++ [s']; log := log world_2x3x4 |},
     Return 1%nat) /\
    shape (_data s') = [6; 4]%nat /\
    buf_read (bufs world_2x3x4 ++ [map Z.of_nat (seq 0 24)]) (_data s') =
      Some (map Z.of_nat (seq 0 24)).
Proof.
  split; [reflexivity|]. split; [reflexivity|].
  destruct (flatten_gives_one_channel_axis world_2x3x4 0%nat sig_2x3x4
              (map Z.of_nat (seq 0 24)) eq_refl eq_refl ltac:(discriminate))
    as (s' & R & Sh & _ & Hread & _).
  exists s'. split; [exact R|]. split; [exact Sh|exact Hread].
Defined.

Lemma reshape_infers_one_dimension_witness :
  objs world_2x3x4 !! 0%nat = Some sig_2x3x4 /\
  _Audio.cshape sig_2x3x4 = [2; 3]%nat /\
  List.filter (fun d => d <? 0) [-1; 2] = [-1] /\
  exists s',
    Signal.reshape 0%nat (ShapeTuple [-1; 2]) world_2x3x4 =
    ({| bufs := bufs world_2x3x4 ++ [map Z.of_nat (seq 0 24)];
        objs := objs world_2x3x4 ++ [s']; log := log world_2x3x4 |},
     Return 1%nat) /\
    _Audio.cshape s' = [3; 2]%nat.
Proof.
  split; [reflexivity|]. split; [reflexivity|]. split; [reflexivity|].
  destruct (reshape_infers_one_dimension world_2x3x4 0%nat sig_2x3x4
              (map Z.of_nat (seq 0 24)) [-1; 2] eq_refl eq_refl
              ltac:(discriminate) ltac:(discriminate) eq_refl
              ltac:(discriminate) eq_refl)
    as (s' & R & C & _).
  exists s'. split; [exact R|exact C].
Defined.
End ConcreteFurther.
